(** * Groq/Firecrawl MCP server: orchestration handlers

    A shallow embedding of [configs.py], [firecrawl_service.py],
    [groq_service.py] and [mcp_server.py].

    - Python values coming out of [response.json()] are dynamically typed;
      they are modelled by [pyval], with the builtins the handlers apply to
      them ([bool], [len], [.get], subscripting, iteration, [str]).
    - A handler is a computation in the monad [M]: it threads the state of
      the outside world (the two remote services), may raise a Python
      exception, and logs every side effect it performs ([ctx.info],
      [ctx.report_progress], each HTTP POST together with its answer).
    - What is not code of the repository is a field of the class
      [Runtime]: the answer of the network to a POST, CPython's printing of
      containers, and the builtin [int] on strings. *)

From Stdlib Require Import String Ascii ZArith List Lia Bool DecimalString.
Import ListNotations.
Local Open Scope string_scope.
Local Open Scope Z_scope.

Set Implicit Arguments.
Set Warnings "-register-all".

(* ------------------------------------------------------------------ *)
(** * Python values *)

(** A value as [json.loads] builds it.  A float is observed by the handlers
    only through [bool()] and [str()], so it carries these two observations.
    A dict is an association list read from the left: a later binding of a
    key already bound is shadowed. *)
Inductive pyval : Type :=
| VNone
| VBool (b : bool)
| VInt (z : Z)
| VFloat (nonzero : bool) (shown : string)
| VStr (s : string)
| VList (l : list pyval)
| VDict (d : list (string * pyval)).

(** A raised exception: its class and what [str(e)] gives. *)
Record exn : Type := Raise { exn_class : string; exn_str : string }.

Definition nl : string := String (ascii_of_nat 10) EmptyString.

(** [str(n)] for an [int]. *)
Definition str_int (n : Z) : string := NilZero.string_of_int (Z.to_int n).

Definition type_name (v : pyval) : string :=
  match v with
  | VNone => "NoneType"
  | VBool _ => "bool"
  | VInt _ => "int"
  | VFloat _ _ => "float"
  | VStr _ => "str"
  | VList _ => "list"
  | VDict _ => "dict"
  end.

(** [bool(v)], the test of [if v:] and [if not v:]. *)
Definition truthy (v : pyval) : bool :=
  match v with
  | VNone => false
  | VBool b => b
  | VInt z => negb (z =? 0)
  | VFloat nonzero _ => nonzero
  | VStr s => match s with EmptyString => false | String _ _ => true end
  | VList l => match l with [] => false | _ => true end
  | VDict d => match d with [] => false | _ => true end
  end.

Fixpoint lookup (key : string) (d : list (string * pyval)) : option pyval :=
  match d with
  | [] => None
  | (k, v) :: d' => if (k =? key)%string then Some v else lookup key d'
  end.

(** The keys of a dict, each once, in the order of their first binding. *)
Fixpoint dict_keys (seen : list string) (d : list (string * pyval)) : list string :=
  match d with
  | [] => []
  | (k, _) :: d' =>
      if existsb (String.eqb k) seen then dict_keys seen d'
      else k :: dict_keys (k :: seen) d'
  end.

Fixpoint chars (s : string) : list pyval :=
  match s with
  | EmptyString => []
  | String c s' => VStr (String c EmptyString) :: chars s'
  end.

(** [v.get(key, default)]; only a dict has the method. *)
Definition py_get (v : pyval) (key : string) (default : pyval) : exn + pyval :=
  match v with
  | VDict d => inr (match lookup key d with Some x => x | None => default end)
  | _ => inl (Raise "AttributeError"
                ("'" ++ type_name v ++ "' object has no attribute 'get'"))
  end.

(** [v[key]] for a string literal [key] (the keys used are plain words, whose
    [repr] is the word between single quotes). *)
Definition py_getitem (v : pyval) (key : string) : exn + pyval :=
  match v with
  | VDict d =>
      match lookup key d with
      | Some x => inr x
      | None => inl (Raise "KeyError" ("'" ++ key ++ "'"))
      end
  | VList _ => inl (Raise "TypeError" "list indices must be integers or slices, not str")
  | VStr _ => inl (Raise "TypeError" "string indices must be integers, not 'str'")
  | _ => inl (Raise "TypeError" ("'" ++ type_name v ++ "' object is not subscriptable"))
  end.

(** [v[0]]; a dict built from JSON has string keys only. *)
Definition py_getitem0 (v : pyval) : exn + pyval :=
  match v with
  | VList (x :: _) => inr x
  | VList [] => inl (Raise "IndexError" "list index out of range")
  | VStr (String c _) => inr (VStr (String c EmptyString))
  | VStr EmptyString => inl (Raise "IndexError" "string index out of range")
  | VDict _ => inl (Raise "KeyError" "0")
  | _ => inl (Raise "TypeError" ("'" ++ type_name v ++ "' object is not subscriptable"))
  end.

(** [len(v)]. *)
Definition py_len (v : pyval) : exn + Z :=
  match v with
  | VStr s => inr (Z.of_nat (String.length s))
  | VList l => inr (Z.of_nat (List.length l))
  | VDict d => inr (Z.of_nat (List.length (dict_keys [] d)))
  | _ => inl (Raise "TypeError" ("object of type '" ++ type_name v ++ "' has no len()"))
  end.

(** The items [for x in v] (and [enumerate(v)]) goes through. *)
Definition py_iter (v : pyval) : exn + list pyval :=
  match v with
  | VList l => inr l
  | VStr s => inr (chars s)
  | VDict d => inr (map VStr (dict_keys [] d))
  | _ => inl (Raise "TypeError" ("'" ++ type_name v ++ "' object is not iterable"))
  end.

(** [sep.join(items)]: every item must be a [str]. *)
Fixpoint py_join_from (i : Z) (sep : string) (items : list pyval) : exn + string :=
  match items with
  | [] => inr EmptyString
  | VStr s :: rest =>
      match rest with
      | [] => inr s
      | _ => match py_join_from (i + 1) sep rest with
             | inr r => inr (s ++ sep ++ r)
             | inl e => inl e
             end
      end
  | v :: _ =>
      inl (Raise "TypeError"
             ("sequence item " ++ str_int i ++ ": expected str instance, "
              ++ type_name v ++ " found"))
  end.

Definition py_join (sep : string) (items : list pyval) : exn + string :=
  py_join_from 0 sep items.

(* ------------------------------------------------------------------ *)
(** * The outside world *)

(** An [httpx] POST as the services issue it. *)
Record Request : Type := {
  req_url : string;
  req_timeout : Z;
  req_headers : list (string * string);
  req_json : pyval
}.

(** The answer: [response.status_code], [response.text], and what
    [response.json()] returns or raises. *)
Record Response : Type := {
  status_code : Z;
  text : string;
  json : exn + pyval
}.

(** What the handlers run on.  [http_post] is the remote end: it answers a
    request with a response or makes the client raise (timeout, refused
    connection) and moves to its next state.  [py_repr] is [str()] on a list
    or a dict, [py_int] is [int()] on a [str], [None] when it raises
    [ValueError]. *)
Class Runtime : Type := {
  World : Type;
  http_post : World -> Request -> (exn + Response) * World;
  py_repr : pyval -> string;
  py_int : string -> option Z
}.

Inductive client : Type := Firecrawl | Groq.

(** The side effects of a handler, in the order they happen. *)
Inductive event : Type :=
| LogInfo (msg : string)
| ReportProgress (progress total : Z)
| HttpPost (c : client) (req : Request) (answer : exn + Response).

Section Effects.
Context {RT : Runtime}.

(** What an f-string substitutes for [{v}]. *)
Definition py_str (v : pyval) : string :=
  match v with
  | VNone => "None"
  | VBool true => "True"
  | VBool false => "False"
  | VInt z => str_int z
  | VFloat _ shown => shown
  | VStr s => s
  | VList _ | VDict _ => py_repr v
  end.

Definition M (A : Type) : Type := World -> (exn + A) * World * list event.

Definition ret {A} (a : A) : M A := fun w => (inr a, w, []).

Definition raise {A} (e : exn) : M A := fun w => (inl e, w, []).

Definition bind {A B} (m : M A) (f : A -> M B) : M B := fun w =>
  match m w with
  | (inl e, w1, t1) => (inl e, w1, t1)
  | (inr a, w1, t1) =>
      match f a w1 with (r, w2, t2) => (r, w2, (t1 ++ t2)%list) end
  end.

(** [try: body / except Exception as e: handler e]. *)
Definition try_except {A} (body : M A) (handler : exn -> M A) : M A := fun w =>
  match body w with
  | (inl e, w1, t1) =>
      match handler e w1 with (r, w2, t2) => (r, w2, (t1 ++ t2)%list) end
  | (inr a, w1, t1) => (inr a, w1, t1)
  end.

(** A pure builtin that may raise. *)
Definition lift {A} (r : exn + A) : M A := fun w => (r, w, []).

Definition info (msg : string) : M unit := fun w => (inr tt, w, [LogInfo msg]).

Definition report_progress (progress total : Z) : M unit :=
  fun w => (inr tt, w, [ReportProgress progress total]).

(** [await client.post(...)]. *)
Definition post (c : client) (req : Request) : M Response := fun w =>
  match http_post w req with
  | (inl e, w1) => (inl e, w1, [HttpPost c req (inl e)])
  | (inr resp, w1) => (inr resp, w1, [HttpPost c req (inr resp)])
  end.
End Effects.

Declare Scope py_scope.
Delimit Scope py_scope with py.
Notation "x <- m ;; k" := (bind m (fun x => k))
  (at level 61, m at next level, right associativity) : py_scope.
Notation "m ;; k" := (bind m (fun _ => k))
  (at level 61, right associativity) : py_scope.
Local Open Scope py_scope.

(* ------------------------------------------------------------------ *)
(** * configs.py *)

Record AppConfig : Type := {
  groq_api_key : string;
  firecrawl_api_key : string;
  groq_model : string;
  default_search_limit : Z;
  request_timeout : Z
}.

(** [AppConfig(groq_api_key=..., firecrawl_api_key=..., groq_model=...)]:
    the two remaining fields take their declared defaults. *)
Definition new_AppConfig (groq_key firecrawl_key model : string) : AppConfig :=
  {| groq_api_key := groq_key;
     firecrawl_api_key := firecrawl_key;
     groq_model := model;
     default_search_limit := 5;
     request_timeout := 30 |}.

(* ------------------------------------------------------------------ *)
(** * firecrawl_service.py *)

Module FirecrawlService.
Record t : Type := { api_key : string; base_url : string }.

Definition init (key : string) : t :=
  {| api_key := key; base_url := "https://api.firecrawl.com/v1" |}.

Definition headers (self : t) : list (string * string) :=
  [("Authorization", "Bearer " ++ api_key self);
   ("Content-Type", "application/json")].

Definition api_error (response : Response) : exn :=
  Raise "Exception"
    ("Firecrawl API error: " ++ str_int (status_code response)
     ++ " - " ++ text response).

(** The POST of [scrape_website]. *)
Definition scrape_request (self : t) (url : pyval) : Request :=
  {| req_url := base_url self ++ "/scrape";
     req_timeout := 60;
     req_headers := headers self;
     req_json := VDict [("url", url);
                        ("render", VBool true);
                        ("extract_text", VBool true);
                        ("extract_links", VBool true);
                        ("extract_metadata", VBool true)] |}.

(** The POST of [search_web]. *)
Definition search_request (self : t) (query : string) (limit : Z) : Request :=
  {| req_url := base_url self ++ "/search";
     req_timeout := 60;
     req_headers := headers self;
     req_json := VDict [("query", VStr query);
                        ("limit", VInt limit);
                        ("include_snippets", VBool true)] |}.

Section Methods.
Context {RT : Runtime}.

Definition scrape_website (self : t) (url : pyval) : M pyval :=
  response <- post Firecrawl (scrape_request self url) ;;
  if negb (status_code response =? 200)
  then raise (api_error response)
  else lift (json response).

Definition search_web (self : t) (query : string) (limit : Z) : M pyval :=
  response <- post Firecrawl (search_request self query limit) ;;
  if negb (status_code response =? 200)
  then raise (api_error response)
  else
    body <- lift (json response) ;;
    lift (py_getitem body "results").
End Methods.
End FirecrawlService.

(* ------------------------------------------------------------------ *)
(** * groq_service.py *)

Module GroqService.
Record t : Type := { api_key : string; model : string; base_url : string }.

Definition init (key mdl : string) : t :=
  {| api_key := key; model := mdl; base_url := "https://api.groq.com/v1" |}.

Definition headers (self : t) : list (string * string) :=
  [("Authorization", "Bearer " ++ api_key self);
   ("Content-Type", "application/json")].

Definition api_error (response : Response) : exn :=
  Raise "Exception"
    ("Groq API error: " ++ str_int (status_code response)
     ++ " - " ++ text response).

(** The POST of [generate_text]. *)
Definition completion_request (self : t) (prompt : string) : Request :=
  {| req_url := base_url self ++ "/chat/completions";
     req_timeout := 60;
     req_headers := headers self;
     req_json := VDict [("model", VStr (model self));
                        ("messages", VList [VDict [("role", VStr "user");
                                                   ("content", VStr prompt)]]);
                        ("temperature", VFloat true "0.7");
                        ("max_tokens", VInt 1024)] |}.

(** The prompt of [summarize_content]. *)
Definition summary_prompt {RT : Runtime} (content : pyval) (max_length : Z) : string :=
  "Please summarize the following content in a concise way, maximum "
  ++ str_int max_length ++ " words:" ++ nl ++ nl ++ py_str content.

Section Methods.
Context {RT : Runtime}.

Definition generate_text (self : t) (prompt : string) : M pyval :=
  response <- post Groq (completion_request self prompt) ;;
  if negb (status_code response =? 200)
  then raise (api_error response)
  else
    result <- lift (json response) ;;
    choices <- lift (py_getitem result "choices") ;;
    choice <- lift (py_getitem0 choices) ;;
    message <- lift (py_getitem choice "message") ;;
    lift (py_getitem message "content").

Definition summarize_content (self : t) (content : pyval) (max_length : Z)
  : M pyval :=
  let prompt := summary_prompt content max_length in
  generate_text self prompt.
End Methods.
End GroqService.

(* ------------------------------------------------------------------ *)
(** * mcp_server.py: the process context *)

Record AppContext : Type := {
  config : AppConfig;
  groq_service : GroqService.t;
  firecrawl_service : FirecrawlService.t
}.

(** [os.environ]. *)
Definition environ : Type := string -> option string.

(** [not v] for the result of [os.environ.get(name)]. *)
Definition unset (v : option string) : bool :=
  match v with
  | None => true
  | Some EmptyString => true
  | Some (String _ _) => false
  end.

Definition or_empty (v : option string) : string :=
  match v with Some s => s | None => EmptyString end.

(** The part of [app_lifespan] before its [yield]: the lines printed, and
    the context yielded to the server or the exception that ends the
    start-up. *)
Definition app_lifespan (env : environ) : list string * (exn + AppContext) :=
  let groq_key := env "GROQ_API_KEY" in
  let firecrawl_key := env "FIRECRAWL_API_KEY" in
  let model := match env "GROQ_MODEL" with
               | Some m => m
               | None => "llama3-70b-8192"
               end in
  if unset groq_key then
    ([], inl (Raise "ValueError" "GROQ_API_KEY environment variable is required"))
  else if unset firecrawl_key then
    ([], inl (Raise "ValueError" "FIRECRAWL_API_KEY environment variable is required"))
  else
    let cfg := new_AppConfig (or_empty groq_key) (or_empty firecrawl_key) model in
    let groq := GroqService.init (groq_api_key cfg) (groq_model cfg) in
    let firecrawl := FirecrawlService.init (firecrawl_api_key cfg) in
    (["Initialized MCP server with Groq model: " ++ groq_model cfg],
     inr {| config := cfg; groq_service := groq; firecrawl_service := firecrawl |}).

(* ------------------------------------------------------------------ *)
(** * mcp_server.py: resources and tools *)

Section Handlers.
Context {RT : Runtime}.
Variable ctx : AppContext.

Let firecrawl := firecrawl_service ctx.
Let groq := groq_service ctx.

(** Resource [website://{url}]. *)
Definition get_website_content (url : string) : M pyval :=
  info ("Scraping website: " ++ url) ;;
  try_except
    (result <- FirecrawlService.scrape_website firecrawl (VStr url) ;;
     lift (py_get result "text" (VStr "No content found")))
    (fun e => ret (VStr ("Error scraping website: " ++ exn_str e))).

(** The body of [for i, result in enumerate(results, 1)] in [search_web]. *)
Fixpoint format_results (i : Z) (results : list pyval) (formatted_results : list string)
  : M (list string) :=
  match results with
  | [] => ret formatted_results
  | result :: rest =>
      title <- lift (py_get result "title" (VStr "No title")) ;;
      url <- lift (py_get result "url" (VStr "No URL")) ;;
      snippet <- lift (py_get result "snippet" (VStr "No snippet")) ;;
      format_results (i + 1) rest
        (app formatted_results
           ["Result " ++ str_int i ++ ":";
            "Title: " ++ py_str title;
            "URL: " ++ py_str url;
            "Snippet: " ++ py_str snippet;
            EmptyString])
  end.

(** Resource [search://{query}/{limit}]. *)
Definition search_web (query : string) (limit : string) : M pyval :=
  let limit_int :=
    match limit with
    | EmptyString => default_search_limit (config ctx)
    | String _ _ =>
        match py_int limit with
        | Some n => n
        | None => default_search_limit (config ctx)
        end
    end in
  info ("Searching web for: " ++ query ++ " with limit " ++ str_int limit_int) ;;
  try_except
    (results <- FirecrawlService.search_web firecrawl query limit_int ;;
     items <- lift (py_iter results) ;;
     formatted_results <- format_results 1 items [] ;;
     ret (VStr (String.concat nl formatted_results)))
    (fun e => ret (VStr ("Error searching web: " ++ exn_str e))).

(** Resource [metadata://{url}]. *)
Definition get_website_metadata (url : string) : M pyval :=
  info ("Getting metadata for website: " ++ url) ;;
  try_except
    (result <- FirecrawlService.scrape_website firecrawl (VStr url) ;;
     metadata <- lift (py_get result "metadata" (VDict [])) ;;
     title <- lift (py_get metadata "title" (VStr "No title")) ;;
     description <- lift (py_get metadata "description" (VStr "No description")) ;;
     author <- lift (py_get metadata "author" (VStr "No author")) ;;
     published <- lift (py_get metadata "published_date" (VStr "No date")) ;;
     ret (VStr (String.concat nl
                  ["Title: " ++ py_str title;
                   "Description: " ++ py_str description;
                   "Author: " ++ py_str author;
                   "Published: " ++ py_str published])))
    (fun e => ret (VStr ("Error getting metadata: " ++ exn_str e))).

(** Tool [generate_content]. *)
Definition generate_content (prompt : string) : M pyval :=
  info ("Generating content with prompt: " ++ substring 0 50 prompt ++ "...") ;;
  try_except
    (GroqService.generate_text groq prompt)
    (fun e => ret (VStr ("Error generating content: " ++ exn_str e))).

(** Tool [summarize_text]. *)
Definition summarize_text (content : string) (max_length : Z) : M pyval :=
  info ("Summarizing content of length " ++ str_int (Z.of_nat (String.length content))
        ++ " with max length " ++ str_int max_length) ;;
  try_except
    (GroqService.summarize_content groq (VStr content) max_length)
    (fun e => ret (VStr ("Error summarizing content: " ++ exn_str e))).

(** Tool [analyze_website]. *)
Definition analyze_website (url : string) (include_summary : bool) : M pyval :=
  info ("Analyzing website: " ++ url) ;;
  try_except
    (report_progress 0 3 ;;
     scrape_result <- FirecrawlService.scrape_website firecrawl (VStr url) ;;
     content <- lift (py_get scrape_result "text" (VStr EmptyString)) ;;
     metadata <- lift (py_get scrape_result "metadata" (VDict [])) ;;
     report_progress 1 3 ;;
     title <- lift (py_get metadata "title" (VStr "No title")) ;;
     description <- lift (py_get metadata "description" (VStr "No description")) ;;
     content_length <- lift (py_len content) ;;
     links <- lift (py_get scrape_result "links" (VList [])) ;;
     links_found <- lift (py_len links) ;;
     let analysis :=
       [VStr ("Website Analysis: " ++ url);
        VStr ("Title: " ++ py_str title);
        VStr ("Description: " ++ py_str description);
        VStr ("Content Length: " ++ str_int content_length ++ " characters");
        VStr ("Links Found: " ++ str_int links_found)] in
     analysis <-
       (if include_summary && truthy content then
          report_progress 2 3 ;;
          summary <- GroqService.summarize_content groq content 500 ;;
          ret (app analysis [VStr (nl ++ "Summary:"); summary])
        else ret analysis) ;;
     report_progress 3 3 ;;
     joined <- lift (py_join nl analysis) ;;
     ret (VStr joined))
    (fun e => ret (VStr ("Error analyzing website: " ++ exn_str e))).

(** One round of [research_topic]'s loop over [enumerate(search_results)]:
    [research_data] before the round, and after it. *)
Definition analyze_result (depth i : Z) (result : pyval) (research_data : list string)
  : M (list string) :=
  url <- lift (py_get result "url" VNone) ;;
  if negb (truthy url) then ret research_data
  else
    info ("Analyzing result " ++ str_int (i + 1) ++ ": " ++ py_str url) ;;
    report_progress (i + 1) (depth + 1) ;;
    try_except
      (scrape_result <- FirecrawlService.scrape_website firecrawl url ;;
       content <- lift (py_get scrape_result "text" (VStr EmptyString)) ;;
       if truthy content then
         summary <- GroqService.summarize_content groq content 300 ;;
         title <- lift (py_get result "title" (VStr "No title")) ;;
         ret (app research_data
                ["Source " ++ str_int (i + 1) ++ ": " ++ py_str title;
                 "URL: " ++ py_str url;
                 "Summary: " ++ py_str summary;
                 EmptyString])
       else ret research_data)
      (fun inner_e =>
         ret (app research_data
                ["Error analyzing " ++ py_str url ++ ": " ++ exn_str inner_e])).

Fixpoint research_loop (depth i : Z) (results : list pyval) (research_data : list string)
  : M (list string) :=
  match results with
  | [] => ret research_data
  | result :: rest =>
      research_data <- analyze_result depth i result research_data ;;
      research_loop depth (i + 1) rest research_data
  end.

Definition synthesis_prompt (topic : string) (research_text : string) : string :=
  "Based on the following research on '" ++ topic
  ++ "', provide a comprehensive analysis:" ++ nl ++ nl ++ research_text.

(** The document [research_topic] returns after its synthesis. *)
Definition research_report (topic : string) (final_analysis : pyval)
    (research_text : string) : string :=
  "# Research on: " ++ topic ++ nl ++ nl
  ++ py_str final_analysis ++ nl ++ nl
  ++ "## Sources" ++ nl ++ nl ++ research_text.

(** Tool [research_topic]. *)
Definition research_topic (topic : string) (depth : Z) : M pyval :=
  info ("Researching topic: " ++ topic ++ " with depth " ++ str_int depth) ;;
  try_except
    (info "Searching web..." ;;
     report_progress 0 (depth + 1) ;;
     search_results <- FirecrawlService.search_web firecrawl topic depth ;;
     if negb (truthy search_results) then
       ret (VStr ("No search results found for topic: " ++ topic))
     else
       items <- lift (py_iter search_results) ;;
       research_data <- research_loop depth 0 items [] ;;
       match research_data with
       | _ :: _ =>
           let research_text := String.concat nl research_data in
           final_analysis <-
             GroqService.generate_text groq (synthesis_prompt topic research_text) ;;
           ret (VStr (research_report topic final_analysis research_text))
       | [] =>
           ret (VStr ("Could not gather meaningful research data on topic: " ++ topic))
       end)
    (fun e => ret (VStr ("Error researching topic: " ++ exn_str e))).

(** What the protocol layer can ask for: a resource read or a tool call,
    with its arguments. *)
Inductive call : Type :=
| GetWebsiteContent (url : string)
| SearchWeb (query limit : string)
| GetWebsiteMetadata (url : string)
| GenerateContent (prompt : string)
| SummarizeText (content : string) (max_length : Z)
| AnalyzeWebsite (url : string) (include_summary : bool)
| ResearchTopic (topic : string) (depth : Z).

Definition handle (c : call) : M pyval :=
  match c with
  | GetWebsiteContent url => get_website_content url
  | SearchWeb query limit => search_web query limit
  | GetWebsiteMetadata url => get_website_metadata url
  | GenerateContent prompt => generate_content prompt
  | SummarizeText content max_length => summarize_text content max_length
  | AnalyzeWebsite url include_summary => analyze_website url include_summary
  | ResearchTopic topic depth => research_topic topic depth
  end.
End Handlers.

(* ------------------------------------------------------------------ *)
(** * Observing a run *)

Definition outcome_of {W A} (r : (exn + A) * W * list event) : exn + A := fst (fst r).
Definition events_of {W A} (r : (exn + A) * W * list event) : list event := snd r.

(** A call of the generation client. *)
Definition is_generation (e : event) : bool :=
  match e with
  | HttpPost Groq _ _ => true
  | _ => false
  end.

(** An upstream answer whose status is not 200. *)
Definition non_200 (e : event) : bool :=
  match e with
  | HttpPost _ _ (inr response) => negb (status_code response =? 200)
  | _ => false
  end.

(** The events that follow the last HTTP request of a trace (the whole
    trace when it holds no request). *)
Fixpoint after_last_post (t : list event) : list event :=
  match t with
  | [] => []
  | e :: t' =>
      if existsb (fun e' => match e' with HttpPost _ _ _ => true | _ => false end) t
      then after_last_post t'
      else t
  end.

Definition is_progress (p n : Z) (e : event) : bool :=
  match e with
  | ReportProgress p' n' => (p' =? p) && (n' =? n)
  | _ => false
  end.

(** The progress [p/n] is reported after the last request of the trace. *)
Definition reported_after_requests (p n : Z) (t : list event) : bool :=
  existsb (is_progress p n) (after_last_post t).

(** The exception a service raises on an answer whose status is not 200. *)
Definition upstream_error (c : client) (response : Response) : exn :=
  match c with
  | Firecrawl => FirecrawlService.api_error response
  | Groq => GroqService.api_error response
  end.

Definition is_dict (v : pyval) : bool :=
  match v with VDict _ => true | _ => false end.

Fixpoint starts_with (p s : string) : bool :=
  match p, s with
  | EmptyString, _ => true
  | String a p', String b s' => Ascii.eqb a b && starts_with p' s'
  | String _ _, EmptyString => false
  end.

(** The result is text that begins with [Error]. *)
Definition is_error_text (v : pyval) : bool :=
  match v with
  | VStr s => starts_with "Error" s
  | _ => false
  end.

Section Properties.
Context {RT : Runtime}.

(** The computation issues no call of the generation client. *)
Definition silent {A} (m : M A) : Prop :=
  forall w, filter is_generation (events_of (m w)) = [].

(** If an answer with a status other than 200 came in, the computation
    raised the error built from that answer. *)
Definition faithful {A} (m : M A) : Prop :=
  forall w,
    existsb non_200 (events_of (m w)) = true ->
    exists c req response,
      In (HttpPost c req (inr response)) (events_of (m w))
      /\ (status_code response =? 200) = false
      /\ outcome_of (m w) = inl (upstream_error c response).
End Properties.

(** What the [except] clause of each handler puts before [str(e)]. *)
Definition error_prefix (c : call) : string :=
  match c with
  | GetWebsiteContent _ => "Error scraping website: "
  | SearchWeb _ _ => "Error searching web: "
  | GetWebsiteMetadata _ => "Error getting metadata: "
  | GenerateContent _ => "Error generating content: "
  | SummarizeText _ _ => "Error summarizing content: "
  | AnalyzeWebsite _ _ => "Error analyzing website: "
  | ResearchTopic _ _ => "Error researching topic: "
  end.

Definition is_research (c : call) : bool :=
  match c with ResearchTopic _ _ => true | _ => false end.

(** What one search result leaves in [research_data]. *)
Inductive outcome : Type :=
| Skipped                                   (* the item has no URL *)
| Empty                                     (* scraped, no text *)
| Gathered (title url summary : pyval)      (* a source block *)
| Failed (url : pyval) (e : exn).           (* the inline error line *)

Definition is_gathered (o : outcome) : bool :=
  match o with Gathered _ _ _ => true | _ => false end.

Definition is_failed (o : outcome) : bool :=
  match o with Failed _ _ => true | _ => false end.

(** The item left a line in [research_data]. *)
Definition is_recorded (o : outcome) : bool := is_gathered o || is_failed o.

Section Rounds.
Context {RT : Runtime}.
Variable ctx : AppContext.

Definition source_block (i : Z) (title url summary : pyval) : list string :=
  ["Source " ++ str_int (i + 1) ++ ": " ++ py_str title;
   "URL: " ++ py_str url;
   "Summary: " ++ py_str summary;
   EmptyString].

Definition error_line (url : pyval) (e : exn) : string :=
  "Error analyzing " ++ py_str url ++ ": " ++ exn_str e.

Definition lines_of (i : Z) (o : outcome) : list string :=
  match o with
  | Skipped | Empty => []
  | Gathered title url summary => source_block i title url summary
  | Failed url e => [error_line url e]
  end.

(** The lines of the items of ranks [i], [i+1], ... in rank order. *)
Fixpoint sources (i : Z) (os : list outcome) : list string :=
  match os with
  | [] => []
  | o :: os' => app (lines_of i o) (sources (i + 1) os')
  end.

(** The source blocks among the lines of the items of ranks [i], [i+1], ... *)
Fixpoint gathered_blocks (i : Z) (os : list outcome) : list (list string) :=
  match os with
  | [] => []
  | Gathered title url summary :: os' =>
      source_block i title url summary :: gathered_blocks (i + 1) os'
  | _ :: os' => gathered_blocks (i + 1) os'
  end.

(** The outcome [o] is about the search result [item]: it carries the
    URL and the title of that item. *)
Definition describes (item : pyval) (o : outcome) : Prop :=
  match o with
  | Skipped => exists url, py_get item "url" VNone = inr url /\ truthy url = false
  | Empty => exists url, py_get item "url" VNone = inr url /\ truthy url = true
  | Gathered title url _ =>
      py_get item "url" VNone = inr url /\ truthy url = true
      /\ py_get item "title" (VStr "No title") = inr title
  | Failed url _ => py_get item "url" VNone = inr url /\ truthy url = true
  end.

(** [analyze_result], returning what happened instead of the lines. *)
Definition classify (depth i : Z) (result : pyval) : M outcome :=
  url <- lift (py_get result "url" VNone) ;;
  if negb (truthy url) then ret Skipped
  else
    info ("Analyzing result " ++ str_int (i + 1) ++ ": " ++ py_str url) ;;
    report_progress (i + 1) (depth + 1) ;;
    try_except
      (scrape_result <- FirecrawlService.scrape_website (firecrawl_service ctx) url ;;
       content <- lift (py_get scrape_result "text" (VStr EmptyString)) ;;
       if truthy content then
         summary <- GroqService.summarize_content (groq_service ctx) content 300 ;;
         title <- lift (py_get result "title" (VStr "No title")) ;;
         ret (Gathered title url summary)
       else ret Empty)
      (fun inner_e => ret (Failed url inner_e)).

Fixpoint outcomes (depth i : Z) (results : list pyval) : M (list outcome) :=
  match results with
  | [] => ret []
  | result :: rest =>
      o <- classify depth i result ;;
      os <- outcomes depth (i + 1) rest ;;
      ret (o :: os)
  end.

(** The scrape or the summary of the source at [url] raises [e]. *)
Inductive source_raises (url : pyval) (w : World) (e : exn)
  : World -> list event -> Prop :=
| scrape_raises w1 t :
    FirecrawlService.scrape_website (firecrawl_service ctx) url w = (inl e, w1, t) ->
    source_raises url w e w1 t
| text_raises scrape_result w1 t :
    FirecrawlService.scrape_website (firecrawl_service ctx) url w
      = (inr scrape_result, w1, t) ->
    py_get scrape_result "text" (VStr EmptyString) = inl e ->
    source_raises url w e w1 t
| summarize_raises scrape_result content w1 t w2 t' :
    FirecrawlService.scrape_website (firecrawl_service ctx) url w
      = (inr scrape_result, w1, t) ->
    py_get scrape_result "text" (VStr EmptyString) = inr content ->
    truthy content = true ->
    GroqService.summarize_content (groq_service ctx) content 300 w1 = (inl e, w2, t') ->
    source_raises url w e w2 (app t t').

(** What the [try] block of a round does for an item with the URL [url]:
    the outcome, the world it leaves and the requests it made. *)
Inductive source_run (result url : pyval) (w : World)
  : outcome -> World -> list event -> Prop :=
| run_failed e w1 t :
    source_raises url w e w1 t ->
    source_run result url w (Failed url e) w1 t
| run_empty scrape_result content w1 t :
    FirecrawlService.scrape_website (firecrawl_service ctx) url w
      = (inr scrape_result, w1, t) ->
    py_get scrape_result "text" (VStr EmptyString) = inr content ->
    truthy content = false ->
    source_run result url w Empty w1 t
| run_gathered scrape_result content summary title w1 t w2 t' :
    FirecrawlService.scrape_website (firecrawl_service ctx) url w
      = (inr scrape_result, w1, t) ->
    py_get scrape_result "text" (VStr EmptyString) = inr content ->
    truthy content = true ->
    GroqService.summarize_content (groq_service ctx) content 300 w1
      = (inr summary, w2, t') ->
    py_get result "title" (VStr "No title") = inr title ->
    source_run result url w (Gathered title url summary) w2 (app t t').

(** The order of the events of one round: nothing for an item without URL;
    else the log line and the progress report, then the scrape request, then
    the summary request when the round got that far. *)
Definition round_in_order (depth i : Z) (item : pyval) (t : list event) : Prop :=
  exists url,
    py_get item "url" VNone = inr url
    /\ if truthy url then
         exists scrape_answer tail,
           t = LogInfo ("Analyzing result " ++ str_int (i + 1) ++ ": " ++ py_str url)
               :: ReportProgress (i + 1) (depth + 1)
               :: HttpPost Firecrawl
                    (FirecrawlService.scrape_request (firecrawl_service ctx) url)
                    scrape_answer
               :: tail
           /\ (tail = []
               \/ exists content summary_answer,
                    tail = [HttpPost Groq
                              (GroqService.completion_request (groq_service ctx)
                                 (GroqService.summary_prompt content 300))
                              summary_answer])
       else t = [].

(** The events of the loop: the rounds of the items, in rank order. *)
Fixpoint loop_in_order (depth i : Z) (items : list pyval) (t : list event) : Prop :=
  match items with
  | [] => t = []
  | item :: rest =>
      exists t_item t_rest,
        t = app t_item t_rest
        /\ round_in_order depth i item t_item
        /\ loop_in_order depth (i + 1) rest t_rest
  end.

(** The events of a whole [analyze_website] call, given the answers. *)
Definition analyze_website_steps (url : string) (with_summary : bool)
    (content : pyval) (scrape_answer summary_answer : exn + Response) : list event :=
  [LogInfo ("Analyzing website: " ++ url);
   ReportProgress 0 3;
   HttpPost Firecrawl
     (FirecrawlService.scrape_request (firecrawl_service ctx) (VStr url)) scrape_answer;
   ReportProgress 1 3]
  ++ (if with_summary then
        [ReportProgress 2 3;
         HttpPost Groq
           (GroqService.completion_request (groq_service ctx)
              (GroqService.summary_prompt content 500)) summary_answer]
      else [])
  ++ [ReportProgress 3 3].

(** The events [research_topic] performs before its loop. *)
Definition research_preamble (topic : string) (depth : Z) : list event :=
  [LogInfo ("Researching topic: " ++ topic ++ " with depth " ++ str_int depth);
   LogInfo "Searching web...";
   ReportProgress 0 (depth + 1)].
End Rounds.

(* ------------------------------------------------------------------ *)
(** * mcp_server.py: prompts *)

Inductive role : Type := User | Assistant.

(** [base.UserMessage(content)] and [base.AssistantMessage(content)]. *)
Record Message : Type := { msg_role : role; msg_content : string }.

Definition research_prompt (topic : string) : string :=
  "I need to research about " ++ topic ++ ". Please:" ++ nl
  ++ "1. Search for relevant information" ++ nl
  ++ "2. Analyze the key findings" ++ nl
  ++ "3. Provide a comprehensive summary" ++ nl
  ++ "4. Include citations to sources" ++ nl.

Definition website_analysis_prompt (url : string) : list Message :=
  [{| msg_role := User; msg_content := "Please analyze this website: " ++ url |};
   {| msg_role := User;
      msg_content := "I'd like to understand its content, structure, and main points." |};
   {| msg_role := Assistant;
      msg_content := "I'll analyze this website for you. Would you like me to include a summary of the content?" |}].

(* ------------------------------------------------------------------ *)
(** * Observing the requests *)

(** The world a run leaves. *)
Definition world_left {W A} (r : (exn + A) * W * list event) : W := snd (fst r).

Definition is_post (e : event) : bool :=
  match e with HttpPost _ _ _ => true | _ => false end.

(** The number of HTTP requests of a trace. *)
Definition count_posts (t : list event) : nat := List.length (filter is_post t).

(** The value under [key] in a dict, [default] when the key is absent. *)
Definition entry (key : string) (default : pyval) (d : list (string * pyval)) : pyval :=
  match lookup key d with Some v => v | None => default end.

Fixpoint header (name : string) (hs : list (string * string)) : option string :=
  match hs with
  | [] => None
  | (k, v) :: hs' => if (k =? name)%string then Some v else header name hs'
  end.

(** The resources and tools that make one upstream call. *)
Definition single_request (c : call) : bool :=
  match c with
  | AnalyzeWebsite _ _ | ResearchTopic _ _ => false
  | _ => true
  end.

Section Requests.
Context {RT : Runtime}.
Variable ctx : AppContext.

(** The computation sends at most [n] requests. *)
Definition within {A} (n : nat) (m : M A) : Prop :=
  forall w, (count_posts (events_of (m w)) <= n)%nat.

(** The computation leaves no event. *)
Definition eventless {A} (m : M A) : Prop :=
  forall w, events_of (m w) = [].

(** A request is one of the three the two clients of the context build. *)
Definition own_request (e : event) : Prop :=
  match e with
  | HttpPost Firecrawl req _ =>
      (exists url, req = FirecrawlService.scrape_request (firecrawl_service ctx) url)
      \/ (exists query limit,
            req = FirecrawlService.search_request (firecrawl_service ctx) query limit)
  | HttpPost Groq req _ =>
      exists prompt, req = GroqService.completion_request (groq_service ctx) prompt
  | _ => True
  end.

(** Every request of the computation is one of these. *)
Definition disciplined {A} (m : M A) : Prop :=
  forall w, Forall own_request (events_of (m w)).

(** The limit [search_web] searches with: [int(limit)], or the default of
    the configuration when the limit is empty or [int] rejects it. *)
Definition resolved_limit (limit : string) : Z :=
  match limit with
  | EmptyString => default_search_limit (config ctx)
  | String _ _ =>
      match py_int limit with
      | Some n => n
      | None => default_search_limit (config ctx)
      end
  end.

(** The five lines of one hit in the listing of [search_web]. *)
Definition hit_block (i : Z) (item : list (string * pyval)) : list string :=
  ["Result " ++ str_int i ++ ":";
   "Title: " ++ py_str (entry "title" (VStr "No title") item);
   "URL: " ++ py_str (entry "url" (VStr "No URL") item);
   "Snippet: " ++ py_str (entry "snippet" (VStr "No snippet") item);
   EmptyString].

(** The listing of the hits numbered from [i]; a hit that is not a dict
    has no lines. *)
Fixpoint hit_lines (i : Z) (items : list pyval) : list string :=
  match items with
  | [] => []
  | VDict item :: rest => app (hit_block i item) (hit_lines (i + 1) rest)
  | _ :: rest => hit_lines (i + 1) rest
  end.

(** The four lines of [get_website_metadata]. *)
Definition metadata_lines (metadata : list (string * pyval)) : list string :=
  ["Title: " ++ py_str (entry "title" (VStr "No title") metadata);
   "Description: " ++ py_str (entry "description" (VStr "No description") metadata);
   "Author: " ++ py_str (entry "author" (VStr "No author") metadata);
   "Published: " ++ py_str (entry "published_date" (VStr "No date") metadata)].

(** The five lines every report of [analyze_website] starts with. *)
Definition analysis_lines (url : string) (metadata : list (string * pyval))
    (content_length links_found : Z) : list string :=
  ["Website Analysis: " ++ url;
   "Title: " ++ py_str (entry "title" (VStr "No title") metadata);
   "Description: " ++ py_str (entry "description" (VStr "No description") metadata);
   "Content Length: " ++ str_int content_length ++ " characters";
   "Links Found: " ++ str_int links_found].
End Requests.

Section Guarded.
Context {RT : Runtime}.
Variable ctx : AppContext.

(** The line a handler logs before its [try]. *)
Definition handler_log (c : call) : string :=
  match c with
  | GetWebsiteContent url => "Scraping website: " ++ url
  | SearchWeb query limit =>
      "Searching web for: " ++ query ++ " with limit "
      ++ str_int (resolved_limit ctx limit)
  | GetWebsiteMetadata url => "Getting metadata for website: " ++ url
  | GenerateContent prompt =>
      "Generating content with prompt: " ++ substring 0 50 prompt ++ "..."
  | SummarizeText content max_length =>
      "Summarizing content of length " ++ str_int (Z.of_nat (String.length content))
      ++ " with max length " ++ str_int max_length
  | AnalyzeWebsite url _ => "Analyzing website: " ++ url
  | ResearchTopic topic depth =>
      "Researching topic: " ++ topic ++ " with depth " ++ str_int depth
  end.

(** The [try] block of a handler, without its [except] clause: it raises
    what the handler catches. *)
Definition handler_body (c : call) : M pyval :=
  match c with
  | GetWebsiteContent url =>
      result <- FirecrawlService.scrape_website (firecrawl_service ctx) (VStr url) ;;
      lift (py_get result "text" (VStr "No content found"))
  | SearchWeb query limit =>
      results <- FirecrawlService.search_web (firecrawl_service ctx) query
                   (resolved_limit ctx limit) ;;
      items <- lift (py_iter results) ;;
      formatted_results <- format_results 1 items [] ;;
      ret (VStr (String.concat nl formatted_results))
  | GetWebsiteMetadata url =>
      result <- FirecrawlService.scrape_website (firecrawl_service ctx) (VStr url) ;;
      metadata <- lift (py_get result "metadata" (VDict [])) ;;
      title <- lift (py_get metadata "title" (VStr "No title")) ;;
      description <- lift (py_get metadata "description" (VStr "No description")) ;;
      author <- lift (py_get metadata "author" (VStr "No author")) ;;
      published <- lift (py_get metadata "published_date" (VStr "No date")) ;;
      ret (VStr (String.concat nl
                   ["Title: " ++ py_str title;
                    "Description: " ++ py_str description;
                    "Author: " ++ py_str author;
                    "Published: " ++ py_str published]))
  | GenerateContent prompt =>
      GroqService.generate_text (groq_service ctx) prompt
  | SummarizeText content max_length =>
      GroqService.summarize_content (groq_service ctx) (VStr content) max_length
  | AnalyzeWebsite url include_summary =>
      report_progress 0 3 ;;
      scrape_result <- FirecrawlService.scrape_website (firecrawl_service ctx)
                         (VStr url) ;;
      content <- lift (py_get scrape_result "text" (VStr EmptyString)) ;;
      metadata <- lift (py_get scrape_result "metadata" (VDict [])) ;;
      report_progress 1 3 ;;
      title <- lift (py_get metadata "title" (VStr "No title")) ;;
      description <- lift (py_get metadata "description" (VStr "No description")) ;;
      content_length <- lift (py_len content) ;;
      links <- lift (py_get scrape_result "links" (VList [])) ;;
      links_found <- lift (py_len links) ;;
      let analysis :=
        [VStr ("Website Analysis: " ++ url);
         VStr ("Title: " ++ py_str title);
         VStr ("Description: " ++ py_str description);
         VStr ("Content Length: " ++ str_int content_length ++ " characters");
         VStr ("Links Found: " ++ str_int links_found)] in
      analysis <-
        (if include_summary && truthy content then
           report_progress 2 3 ;;
           summary <- GroqService.summarize_content (groq_service ctx) content 500 ;;
           ret (app analysis [VStr (nl ++ "Summary:"); summary])
         else ret analysis) ;;
      report_progress 3 3 ;;
      joined <- lift (py_join nl analysis) ;;
      ret (VStr joined)
  | ResearchTopic topic depth =>
      info "Searching web..." ;;
      report_progress 0 (depth + 1) ;;
      search_results <- FirecrawlService.search_web (firecrawl_service ctx)
                          topic depth ;;
      if negb (truthy search_results) then
        ret (VStr ("No search results found for topic: " ++ topic))
      else
        items <- lift (py_iter search_results) ;;
        research_data <- research_loop ctx depth 0 items [] ;;
        match research_data with
        | _ :: _ =>
            let research_text := String.concat nl research_data in
            final_analysis <-
              GroqService.generate_text (groq_service ctx)
                (synthesis_prompt topic research_text) ;;
            ret (VStr (research_report topic final_analysis research_text))
        | [] =>
            ret (VStr ("Could not gather meaningful research data on topic: " ++ topic))
        end
  end.
End Guarded.

(* ------------------------------------------------------------------ *)
(** * A runtime to run the handlers on examples *)

Module Script.
Definition is_digit (c : ascii) : bool :=
  (48 <=? nat_of_ascii c)%nat && (nat_of_ascii c <=? 57)%nat.

Fixpoint digits (s : string) (acc : Z) : option Z :=
  match s with
  | EmptyString => Some acc
  | String c s' =>
      if is_digit c then digits s' (10 * acc + Z.of_nat (nat_of_ascii c - 48))
      else None
  end.

(** Plain decimal numerals with an optional sign. *)
Definition parse_int (s : string) : option Z :=
  match s with
  | EmptyString => None
  | String "-" (String c s') => option_map Z.opp (digits (String c s') 0)
  | String "+" (String c s') => digits (String c s') 0
  | _ => digits s 0
  end.

(** The network replays a script: each POST takes the next answer. *)
Definition replay (w : list (exn + Response)) (_ : Request)
  : (exn + Response) * list (exn + Response) :=
  match w with
  | [] => (inl (Raise "ConnectError" "All connection attempts failed"), [])
  | answer :: w' => (answer, w')
  end.

Definition runtime : Runtime :=
  {| World := list (exn + Response);
     http_post := replay;
     py_repr := fun _ => "<container>";
     py_int := parse_int |}.

Definition ok (body : pyval) : exn + Response :=
  inr {| status_code := 200; text := "<json>"; json := inr body |}.

Definition status (code : Z) (body : string) : exn + Response :=
  inr {| status_code := code; text := body;
         json := inl (Raise "JSONDecodeError" "Expecting value: line 1 column 1 (char 0)") |}.

Definition search_hits (items : list pyval) : exn + Response :=
  ok (VDict [("results", VList items)]).

Definition hit (title url : string) : pyval :=
  VDict [("title", VStr title); ("url", VStr url); ("snippet", VStr "...")].

Definition page (body : string) : exn + Response :=
  ok (VDict [("text", VStr body);
             ("metadata", VDict [("title", VStr "T")]);
             ("links", VList [VStr "https://l"])]).

Definition completion (content : string) : exn + Response :=
  ok (VDict [("choices",
              VList [VDict [("message", VDict [("role", VStr "assistant");
                                               ("content", VStr content)])]])]).

Definition no_url (title : string) : pyval :=
  VDict [("title", VStr title); ("snippet", VStr "...")].

Definition hit_a : pyval := hit "A" "http://a".
Definition hit_b : pyval := hit "B" "http://b".

(** One hit, whose scrape is answered with status 500. *)
Definition one_failed : list (exn + Response) :=
  [search_hits [hit_a]; status 500 "boom"; completion "final"].

(** Two hits, both scraped and summarized. *)
Definition two_sources : list (exn + Response) :=
  [search_hits [hit_a; hit_b];
   page "aaa"; completion "sumA";
   page "bbb"; completion "sumB";
   completion "final"].

(** Two hits: the scrape of the first fails, the second goes through. *)
Definition failed_then_gathered : list (exn + Response) :=
  [search_hits [hit_a; hit_b];
   status 500 "boom";
   page "bbb"; completion "sumB";
   completion "final"].

(** Four hits: no URL, gathered, failed, gathered. *)
Definition with_gaps : list (exn + Response) :=
  [page "bbb"; completion "sumB";
   status 500 "boom";
   page "ddd"; completion "sumD"].

(** The search with these four hits, their rounds, and the synthesis. *)
Definition search_with_gaps : list (exn + Response) :=
  (search_hits [no_url "N"; hit_b; hit "C" "http://c"; hit "D" "http://d"]
   :: with_gaps ++ [completion "final"])%list.

Definition env (name : string) : option string :=
  if (name =? "GROQ_API_KEY")%string then Some "gk"
  else if (name =? "FIRECRAWL_API_KEY")%string then Some "fk"
  else None.

Definition ctx : AppContext :=
  {| config := new_AppConfig "gk" "fk" "llama3-70b-8192";
     groq_service := GroqService.init "gk" "llama3-70b-8192";
     firecrawl_service := FirecrawlService.init "fk" |}.
End Script.

(* ------------------------------------------------------------------ *)
(** * Running the monad *)

Section MonadFacts.
Context {RT : Runtime}.

(** A handler whose [except] clause returns never raises. *)
Lemma try_returns {A} (body : M A) (recover : exn -> A) w :
  exists a, outcome_of (try_except body (fun e => ret (recover e)) w) = inr a.
Proof.
  unfold try_except, ret, outcome_of.
  destruct (body w) as [[[e|a] w1] t1]; simpl; eauto.
Qed.

Lemma silent_ret {A} (a : A) : silent (ret a).
Proof. intro w. reflexivity. Qed.

Lemma silent_raise {A} (e : exn) : silent (raise (A := A) e).
Proof. intro w. reflexivity. Qed.

Lemma silent_lift {A} (r : exn + A) : silent (lift r).
Proof. intro w. reflexivity. Qed.

Lemma silent_info msg : silent (info msg).
Proof. intro w. reflexivity. Qed.

Lemma silent_report_progress p n : silent (report_progress p n).
Proof. intro w. reflexivity. Qed.

Lemma silent_post_firecrawl req : silent (post Firecrawl req).
Proof.
  intro w. unfold post, events_of.
  destruct (http_post w req) as [[e|resp] w1]; reflexivity.
Qed.

Lemma silent_bind {A B} (m : M A) (f : A -> M B) :
  silent m -> (forall a, silent (f a)) -> silent (bind m f).
Proof.
  intros Hm Hf w. specialize (Hm w). unfold bind, events_of in *.
  destruct (m w) as [[[e|a] w1] t1]; simpl in *; [exact Hm|].
  specialize (Hf a w1). destruct (f a w1) as [[r w2] t2]; simpl in *.
  now rewrite filter_app, Hm, Hf.
Qed.

Lemma silent_try {A} (body : M A) handler :
  silent body -> (forall e, silent (handler e)) -> silent (try_except body handler).
Proof.
  intros Hb Hh w. specialize (Hb w). unfold try_except, events_of in *.
  destruct (body w) as [[[e|a] w1] t1]; simpl in *; [|exact Hb].
  specialize (Hh e w1). destruct (handler e w1) as [[r w2] t2]; simpl in *.
  now rewrite filter_app, Hb, Hh.
Qed.

Lemma silent_if {A} (b : bool) (m1 m2 : M A) :
  silent m1 -> silent m2 -> silent (if b then m1 else m2).
Proof. destruct b; auto. Qed.
End MonadFacts.

Create HintDb silent.
#[export] Hint Resolve silent_ret silent_raise silent_lift silent_info
  silent_report_progress silent_post_firecrawl silent_if : silent.

Ltac silence :=
  repeat first
    [ solve [auto with silent]
    | apply silent_bind; [|intro]
    | apply silent_try; [|intro]
    | apply silent_if ].

Section ServiceFacts.
Context {RT : Runtime}.

Lemma silent_scrape_website self url :
  silent (FirecrawlService.scrape_website self url).
Proof. unfold FirecrawlService.scrape_website. silence. Qed.

Lemma silent_search_web self query limit :
  silent (FirecrawlService.search_web self query limit).
Proof. unfold FirecrawlService.search_web. silence. Qed.

(** A call of a Firecrawl method is one POST, whatever it returns. *)
Lemma scrape_website_events self url w :
  events_of (FirecrawlService.scrape_website self url w)
  = [HttpPost Firecrawl (FirecrawlService.scrape_request self url)
       (fst (http_post w (FirecrawlService.scrape_request self url)))].
Proof.
  unfold FirecrawlService.scrape_website, bind, post, raise, lift, events_of.
  destruct (http_post w _) as [[e|resp] w1]; simpl; [reflexivity|].
  destruct (negb (status_code resp =? 200)); reflexivity.
Qed.

Lemma search_web_events self query limit w :
  events_of (FirecrawlService.search_web self query limit w)
  = [HttpPost Firecrawl (FirecrawlService.search_request self query limit)
       (fst (http_post w (FirecrawlService.search_request self query limit)))].
Proof.
  unfold FirecrawlService.search_web, bind, post, raise, lift, events_of.
  destruct (http_post w _) as [[e|resp] w1]; simpl; [reflexivity|].
  destruct (negb (status_code resp =? 200)); simpl; [reflexivity|].
  destruct (json resp); reflexivity.
Qed.

Lemma generate_text_events self prompt w :
  events_of (GroqService.generate_text self prompt w)
  = [HttpPost Groq (GroqService.completion_request self prompt)
       (fst (http_post w (GroqService.completion_request self prompt)))].
Proof.
  unfold GroqService.generate_text, bind, post, raise, lift, events_of.
  destruct (http_post w _) as [[e|resp] w1]; simpl; [reflexivity|].
  destruct (negb (status_code resp =? 200)); simpl; [reflexivity|].
  destruct (json resp) as [e|v]; simpl; [reflexivity|].
  destruct (py_getitem v "choices") as [e|v1]; simpl; [reflexivity|].
  destruct (py_getitem0 v1) as [e|v2]; simpl; [reflexivity|].
  destruct (py_getitem v2 "message") as [e|v3]; reflexivity.
Qed.

Lemma silent_format_results results : forall i formatted,
  silent (format_results i results formatted).
Proof.
  induction results as [|result rest IH]; intros i formatted; simpl.
  - auto with silent.
  - silence.
Qed.
End ServiceFacts.

#[export] Hint Resolve silent_scrape_website silent_search_web
  silent_format_results : silent.


(* ------------------------------------------------------------------ *)
(** * Start-up *)

(** C9. When [GROQ_API_KEY] or [FIRECRAWL_API_KEY] is absent or empty,
    [app_lifespan] raises [ValueError] before it yields, having printed
    nothing: no context exists for a resource or a tool to be served with.
    When both are non-empty it yields a context that holds the two keys. *)
Theorem app_lifespan_requires_both_keys (env : environ) :
  (unset (env "GROQ_API_KEY") || unset (env "FIRECRAWL_API_KEY") = true ->
   exists e, app_lifespan env = ([], inl e) /\ exn_class e = "ValueError")
  /\
  (unset (env "GROQ_API_KEY") || unset (env "FIRECRAWL_API_KEY") = false ->
   exists printed context,
     app_lifespan env = (printed, inr context)
     /\ env "GROQ_API_KEY" = Some (groq_api_key (config context))
     /\ env "FIRECRAWL_API_KEY" = Some (firecrawl_api_key (config context))
     /\ groq_api_key (config context) <> EmptyString
     /\ firecrawl_api_key (config context) <> EmptyString).
Proof.
  unfold app_lifespan.
  destruct (env "GROQ_API_KEY") as [[|c s]|]; simpl;
    try (split; [intros _; eexists; split; reflexivity | discriminate]).
  destruct (env "FIRECRAWL_API_KEY") as [[|c' s']|]; simpl;
    try (split; [intros _; eexists; split; reflexivity | discriminate]).
  split; [discriminate|]. intros _. do 2 eexists. split; [reflexivity|].
  simpl. repeat split; discriminate.
Qed.

(** Instances of C9: an empty environment, one key only, both keys. *)
Lemma app_lifespan_requires_both_keys_witness :
  (exists e, app_lifespan (fun _ => None) = ([], inl e) /\ exn_class e = "ValueError")
  /\ (exists e,
        app_lifespan (fun name => if (name =? "GROQ_API_KEY")%string
                                  then Some "gk" else None) = ([], inl e)
        /\ exn_class e = "ValueError")
  /\ (exists printed context,
        app_lifespan Script.env = (printed, inr context)
        /\ groq_api_key (config context) = "gk"
        /\ firecrawl_api_key (config context) = "fk").
Proof.
  split; [|split].
  - exact (proj1 (app_lifespan_requires_both_keys (fun _ => None)) eq_refl).
  - exact (proj1 (app_lifespan_requires_both_keys
                    (fun name => if (name =? "GROQ_API_KEY")%string
                                 then Some "gk" else None)) eq_refl).
  - destruct (proj2 (app_lifespan_requires_both_keys Script.env) eq_refl)
      as (printed & context & Hrun & Hg & Hf & _).
    exists printed, context. split; [exact Hrun|].
    split; [now injection Hg | now injection Hf].
Defined.

(* ------------------------------------------------------------------ *)
(** * Handlers that stay away from the generation client *)

Section Silence.
Context {RT : Runtime}.
Variable ctx : AppContext.

(** C6. Whatever the URL and whatever the scrape answers, a call
    [analyze_website(url, include_summary=False)] issues no request of the
    generation client. *)
Theorem analyze_website_without_summary_is_silent (url : string) (w : World) :
  filter is_generation (events_of (analyze_website ctx url false w)) = [].
Proof.
  revert w. change (silent (analyze_website ctx url false)).
  unfold analyze_website. simpl andb. silence.
Qed.

(** With no search result the call ends right after the search. *)
Lemma research_topic_no_results_run (topic : string) (depth : Z) (w w1 : World)
    (t : list event) :
  FirecrawlService.search_web (firecrawl_service ctx) topic depth w
    = (inr (VList []), w1, t) ->
  research_topic ctx topic depth w
    = (inr (VStr ("No search results found for topic: " ++ topic)), w1,
       (research_preamble topic depth ++ t)%list).
Proof.
  intros Hsearch.
  unfold research_topic, research_preamble.
  unfold bind at 1. simpl. unfold try_except.
  unfold bind at 1. simpl. unfold bind at 1. simpl.
  unfold bind at 1. rewrite Hsearch. simpl.
  now rewrite app_nil_r.
Qed.

(** C7. When the search of [research_topic] returns the empty list, the
    tool returns the no-results text for the topic, having performed the
    preamble and the search only: no request went to the generation client. *)
Theorem research_topic_no_results (topic : string) (depth : Z) (w w1 : World)
    (t : list event) :
  FirecrawlService.search_web (firecrawl_service ctx) topic depth w
    = (inr (VList []), w1, t) ->
  research_topic ctx topic depth w
    = (inr (VStr ("No search results found for topic: " ++ topic)), w1,
       (research_preamble topic depth ++ t)%list)
  /\ filter is_generation (events_of (research_topic ctx topic depth w)) = [].
Proof.
  intros Hsearch.
  pose proof (research_topic_no_results_run topic depth w Hsearch) as Hrun.
  split; [exact Hrun|].
  rewrite Hrun. unfold events_of. simpl.
  pose proof (silent_search_web (firecrawl_service ctx) topic depth w) as Hs.
  rewrite Hsearch in Hs. exact Hs.
Qed.
End Silence.

(** An instance of C7: the search answers with no hit. *)
Lemma research_topic_no_results_witness :
  FirecrawlService.search_web (RT := Script.runtime)
    (firecrawl_service Script.ctx) "rust" 0 [Script.search_hits []]
    = (inr (VList []), [],
       [HttpPost Firecrawl
          (FirecrawlService.search_request (firecrawl_service Script.ctx) "rust" 0)
          (Script.search_hits [])])
  /\ outcome_of (research_topic (RT := Script.runtime) Script.ctx "rust" 0
                   [Script.search_hits []])
     = inr (VStr "No search results found for topic: rust").
Proof.
  split; [reflexivity|].
  destruct (research_topic_no_results (RT := Script.runtime) Script.ctx "rust" 0
              [Script.search_hits []] (w1 := [])
              (t := [HttpPost Firecrawl
                       (FirecrawlService.search_request
                          (firecrawl_service Script.ctx) "rust" 0)
                       (Script.search_hits [])])
              eq_refl) as [Hrun _].
  rewrite Hrun. reflexivity.
Defined.

(* ------------------------------------------------------------------ *)
(** * The search resource *)

Section SearchResource.
Context {RT : Runtime}.
Variable ctx : AppContext.

(** Formatting the hits touches neither the network nor the log. *)
Lemma format_results_pure (results : list pyval) : forall i formatted w,
  exists r, format_results i results formatted w = (r, w, []).
Proof.
  induction results as [|result rest IH]; intros i formatted w; simpl.
  - eexists. reflexivity.
  - unfold bind, lift.
    destruct (py_get result "title" _) as [e|title]; [eexists; reflexivity|].
    destruct (py_get result "url" _) as [e|url]; [eexists; reflexivity|].
    destruct (py_get result "snippet" _) as [e|snippet]; [eexists; reflexivity|].
    match goal with
    | |- context [format_results ?j rest ?acc w] =>
        destruct (IH j acc w) as [r Hr]; rewrite Hr
    end.
    eexists. reflexivity.
Qed.

(** [search_web] with a limit that resolves to [limit_int]. *)
Lemma search_web_run (query : string) (limit_int : Z) (w : World) (body : M pyval) :
  body = try_except
      (results <- FirecrawlService.search_web (firecrawl_service ctx) query limit_int ;;
       items <- lift (py_iter results) ;;
       formatted_results <- format_results 1 items [] ;;
       ret (VStr (String.concat nl formatted_results)))
      (fun e => ret (VStr ("Error searching web: " ++ exn_str e))) ->
  (exists v, outcome_of (body w) = inr v)
  /\ events_of (body w)
     = [HttpPost Firecrawl
          (FirecrawlService.search_request (firecrawl_service ctx) query limit_int)
          (fst (http_post w (FirecrawlService.search_request
                               (firecrawl_service ctx) query limit_int)))].
Proof.
  intros ->. split; [apply try_returns|].
  pose proof (search_web_events (firecrawl_service ctx) query limit_int w) as Hev.
  unfold try_except, bind at 1.
  destruct (FirecrawlService.search_web _ query limit_int w)
    as [[[e|results] w1] t1]; unfold events_of in *; simpl in *.
  - now rewrite app_nil_r.
  - unfold bind at 1, lift.
    destruct (py_iter results) as [e|items]; simpl.
    + now rewrite !app_nil_r.
    + unfold bind. destruct (format_results_pure items 1 [] w1) as [r Hr].
      rewrite Hr. destruct r; simpl; now rewrite ?app_nil_r.
Qed.

(** C8. When the limit of [search://{query}/{limit}] is empty or is not
    accepted by [int()], the handler logs and performs the search with the
    default limit of the configuration, and returns a text. *)
Theorem search_web_falls_back_to_default_limit (query limit : string) (w : World) :
  limit = EmptyString \/ py_int limit = None ->
  (exists v, outcome_of (search_web ctx query limit w) = inr v)
  /\ events_of (search_web ctx query limit w)
     = [LogInfo ("Searching web for: " ++ query ++ " with limit "
                 ++ str_int (default_search_limit (config ctx)));
        HttpPost Firecrawl
          (FirecrawlService.search_request (firecrawl_service ctx) query
             (default_search_limit (config ctx)))
          (fst (http_post w
                  (FirecrawlService.search_request (firecrawl_service ctx) query
                     (default_search_limit (config ctx)))))].
Proof.
  intros Hlimit.
  assert (Hd : match limit with
               | EmptyString => default_search_limit (config ctx)
               | String _ _ =>
                   match py_int limit with
                   | Some n => n
                   | None => default_search_limit (config ctx)
                   end
               end = default_search_limit (config ctx)).
  { destruct limit; [reflexivity|].
    destruct Hlimit as [H|H]; [discriminate|now rewrite H]. }
  unfold search_web. cbv zeta. rewrite Hd.
  edestruct (search_web_run (query := query)
               (limit_int := default_search_limit (config ctx)) w eq_refl)
    as [[v Hv] Hev].
  set (body := try_except _ _) in *.
  unfold bind, info.
  destruct (body w) as [[r w1] t1].
  unfold outcome_of, events_of in *; simpl in *. subst r t1.
  split; [eauto|reflexivity].
Qed.
End SearchResource.

(** The contexts [app_lifespan] yields have the default limit 5. *)
Lemma app_lifespan_default_search_limit (env : environ) printed context :
  app_lifespan env = (printed, inr context) ->
  default_search_limit (config context) = 5.
Proof.
  unfold app_lifespan.
  destruct (unset (env "GROQ_API_KEY")); [discriminate|].
  destruct (unset (env "FIRECRAWL_API_KEY")); [discriminate|].
  intros H. injection H as _ <-. reflexivity.
Qed.

(** Instances of C8: the limits [abc] and the empty one search with 5. *)
Lemma search_web_falls_back_to_default_limit_witness :
  py_int (Runtime := Script.runtime) "abc" = None
  /\ events_of (search_web (RT := Script.runtime) Script.ctx "q" "abc"
                  [Script.search_hits [Script.hit "A" "http://a"]])
     = [LogInfo "Searching web for: q with limit 5";
        HttpPost Firecrawl
          (FirecrawlService.search_request (firecrawl_service Script.ctx) "q" 5)
          (Script.search_hits [Script.hit "A" "http://a"])]
  /\ events_of (search_web (RT := Script.runtime) Script.ctx "q" EmptyString [])
     = [LogInfo "Searching web for: q with limit 5";
        HttpPost Firecrawl
          (FirecrawlService.search_request (firecrawl_service Script.ctx) "q" 5)
          (inl (Raise "ConnectError" "All connection attempts failed"))].
Proof.
  split; [reflexivity|]. split.
  - exact (proj2 (search_web_falls_back_to_default_limit (RT := Script.runtime)
                    Script.ctx "q" (limit := "abc")
                    [Script.search_hits [Script.hit "A" "http://a"]]
                    (or_intror eq_refl))).
  - exact (proj2 (search_web_falls_back_to_default_limit (RT := Script.runtime)
                    Script.ctx "q" (limit := EmptyString) []
                    (or_introl eq_refl))).
Defined.

(* ------------------------------------------------------------------ *)
(** * The per-source loop of [research_topic] *)

Section LoopFacts.
Context {RT : Runtime}.
Variable ctx : AppContext.
Variable depth : Z.

(** A round appends to [research_data] the lines of its outcome, and raises
    exactly when the item is not a dict. *)
Lemma analyze_result_classify (i : Z) (result : pyval) (rd : list string) (w : World) :
  analyze_result ctx depth i result rd w
  = match classify ctx depth i result w with
    | (inr o, w', t) => (inr (app rd (lines_of i o)), w', t)
    | (inl e, w', t) => (inl e, w', t)
    end.
Proof.
  unfold analyze_result, classify, bind, try_except, lift, ret, info, report_progress.
  destruct (py_get result "url" VNone) as [e|url]; [reflexivity|].
  destruct (truthy url); simpl; [|now rewrite app_nil_r].
  destruct (FirecrawlService.scrape_website _ url w) as [[[e|sr] w1] t1];
    [reflexivity|].
  destruct (py_get sr "text" _) as [e|content]; [reflexivity|].
  destruct (truthy content); simpl; [|now rewrite !app_nil_r].
  destruct (GroqService.summarize_content _ content 300 w1) as [[[e|summary] w2] t2];
    [reflexivity|].
  destruct (py_get result "title" _) as [e|title]; reflexivity.
Qed.

Lemma research_loop_outcomes (results : list pyval) : forall i rd w,
  research_loop ctx depth i results rd w
  = match outcomes ctx depth i results w with
    | (inr os, w', t) => (inr (app rd (sources i os)), w', t)
    | (inl e, w', t) => (inl e, w', t)
    end.
Proof.
  induction results as [|result rest IH]; intros i rd w; simpl.
  - unfold ret. now rewrite app_nil_r.
  - unfold bind at 1. rewrite analyze_result_classify.
    unfold bind at 1.
    destruct (classify ctx depth i result w) as [[[e|o] w1] t1]; [reflexivity|].
    rewrite IH. unfold bind, ret.
    destruct (outcomes ctx depth (i + 1) rest w1) as [[[e|os] w2] t2]; simpl.
    + reflexivity.
    + now rewrite app_nil_r, app_assoc.
Qed.

(** What a round is, case by case. *)
Lemma classify_cases (i : Z) (result : pyval) (w : World) :
  match py_get result "url" VNone with
  | inl e => classify ctx depth i result w = (inl e, w, [])
  | inr url =>
      if truthy url then
        exists o w' t,
          classify ctx depth i result w
          = (inr o, w',
             LogInfo ("Analyzing result " ++ str_int (i + 1) ++ ": " ++ py_str url)
             :: ReportProgress (i + 1) (depth + 1) :: t)
          /\ source_run ctx result url w o w' t
      else classify ctx depth i result w = (inr Skipped, w, [])
  end.
Proof.
  unfold classify, bind, try_except, lift, ret, info, report_progress.
  destruct (py_get result "url" VNone) as [e|url] eqn:Hurl; [reflexivity|].
  destruct (truthy url); simpl; [|reflexivity].
  destruct (FirecrawlService.scrape_website _ url w) as [[[e|sr] w1] t1] eqn:Hsc.
  { do 3 eexists. split; [now rewrite app_nil_r|].
    constructor. now apply scrape_raises. }
  destruct (py_get sr "text" _) as [e|content] eqn:Htext.
  { do 3 eexists. split; [now rewrite !app_nil_r|].
    constructor. eapply text_raises; eassumption. }
  destruct (truthy content) eqn:Hcontent; simpl.
  2:{ do 3 eexists. split; [now rewrite !app_nil_r|].
      eapply run_empty; eassumption. }
  destruct (GroqService.summarize_content _ content 300 w1)
    as [[[e|summary] w2] t2] eqn:Hsum.
  { do 3 eexists. split; [now rewrite !app_nil_r|].
    constructor. eapply summarize_raises; eassumption. }
  destruct result; try discriminate. simpl.
  do 3 eexists. split; [now rewrite !app_nil_r|].
  eapply run_gathered; try eassumption. reflexivity.
Qed.

(** The item's [try] block raised: the round records the error line. *)
Lemma classify_failed (i : Z) (result url : pyval) (w : World) e w1 t :
  py_get result "url" VNone = inr url ->
  truthy url = true ->
  source_raises ctx url w e w1 t ->
  classify ctx depth i result w
  = (inr (Failed url e), w1,
     LogInfo ("Analyzing result " ++ str_int (i + 1) ++ ": " ++ py_str url)
     :: ReportProgress (i + 1) (depth + 1) :: t).
Proof.
  intros Hurl Htruthy Hraise.
  unfold classify, bind, try_except, lift, ret, info, report_progress.
  rewrite Hurl, Htruthy. simpl.
  destruct Hraise as [w1 t Hsc | sr w1 t Hsc Htext | sr content w1 t w2 t' Hsc Htext Hc Hsum].
  - rewrite Hsc. now rewrite app_nil_r.
  - rewrite Hsc, Htext. now rewrite !app_nil_r.
  - rewrite Hsc, Htext, Hc, Hsum. now rewrite !app_nil_r.
Qed.

(** Over dicts the loop runs to its end: every item gets its outcome. *)
Lemma outcomes_total (results : list pyval) : forall i w,
  forallb is_dict results = true ->
  exists os w' t,
    outcomes ctx depth i results w = (inr os, w', t)
    /\ List.length os = List.length results.
Proof.
  induction results as [|result rest IH]; intros i w Hdict; simpl in *.
  - do 3 eexists. split; reflexivity.
  - apply andb_prop in Hdict as [Hd Hrest].
    pose proof (classify_cases i result w) as Hc.
    destruct result; try discriminate. simpl in Hc.
    match type of Hc with
    | if truthy ?u then _ else _ => destruct (truthy u)
    end.
    + destruct Hc as (o & w1 & t1 & Hc & _).
      destruct (IH (i + 1) w1 Hrest) as (os & w2 & t2 & Hos & Hlen).
      unfold bind at 1. rewrite Hc. unfold bind, ret. rewrite Hos.
      do 3 eexists. split; [reflexivity|]. simpl. now rewrite Hlen.
    + destruct (IH (i + 1) w Hrest) as (os & w2 & t2 & Hos & Hlen).
      unfold bind at 1. rewrite Hc. unfold bind, ret. rewrite Hos.
      do 3 eexists. split; [reflexivity|]. simpl. now rewrite Hlen.
Qed.

(** The loop over [pre ++ item :: post] is the loop over [pre], the round
    of [item], then the loop over [post]. *)
Lemma outcomes_app (pre : list pyval) : forall i w os w1 t post,
  outcomes ctx depth i pre w = (inr os, w1, t) ->
  outcomes ctx depth i (pre ++ post)%list w
  = match outcomes ctx depth (i + Z.of_nat (List.length pre)) post w1 with
    | (inr os', w2, t') => (inr (os ++ os')%list, w2, (t ++ t')%list)
    | (inl e, w2, t') => (inl e, w2, (t ++ t')%list)
    end.
Proof.
  induction pre as [|result rest IH]; intros i w os w1 t post Hpre.
  - simpl in Hpre. unfold ret in Hpre. injection Hpre as <- <- <-.
    simpl. rewrite Z.add_0_r.
    destruct (outcomes ctx depth i post w) as [[[e|os'] w2] t']; reflexivity.
  - simpl in Hpre. simpl app. simpl outcomes.
    unfold bind at 1 in Hpre. unfold bind at 1.
    destruct (classify ctx depth i result w) as [[[e|o] w0] t0]; [discriminate|].
    unfold bind at 1 in Hpre. unfold bind at 1.
    destruct (outcomes ctx depth (i + 1) rest w0) as [[[e|os0] w0'] t0'] eqn:Hrest;
      [discriminate|].
    unfold ret in Hpre. simpl in Hpre. injection Hpre as <- <- <-.
    rewrite (IH (i + 1) w0 os0 w0' t0' post Hrest).
    replace (i + 1 + Z.of_nat (List.length rest))
      with (i + Z.of_nat (List.length (result :: rest)))
      by (simpl List.length; lia).
    destruct (outcomes ctx depth _ post w0') as [[[e|os'] w2] t']; unfold ret; simpl.
    + now rewrite app_nil_r, app_assoc.
    + now rewrite !app_nil_r, app_assoc.
Qed.

Lemma sources_app (os : list outcome) : forall i os',
  sources i (os ++ os')%list
  = (sources i os ++ sources (i + Z.of_nat (List.length os)) os')%list.
Proof.
  induction os as [|o os IH]; intros i os'; simpl.
  - now rewrite Z.add_0_r.
  - rewrite IH, app_assoc.
    replace (i + 1 + Z.of_nat (List.length os))
      with (i + Z.pos (Pos.of_succ_nat (List.length os))) by lia.
    reflexivity.
Qed.

Lemma outcomes_length (results : list pyval) : forall i w os w' t,
  outcomes ctx depth i results w = (inr os, w', t) ->
  List.length os = List.length results.
Proof.
  induction results as [|result rest IH]; intros i w os w' t H; simpl in H.
  - unfold ret in H. now injection H as <- _ _.
  - unfold bind at 1 in H.
    destruct (classify ctx depth i result w) as [[[e|o] w0] t0]; [discriminate|].
    unfold bind at 1 in H.
    destruct (outcomes ctx depth (i + 1) rest w0) as [[[e|os0] w0'] t0'] eqn:Hrest;
      [discriminate|].
    unfold ret in H. simpl in H. injection H as <- _ _.
    simpl. f_equal. eapply IH. eassumption.
Qed.
End LoopFacts.

(* ------------------------------------------------------------------ *)
(** * [research_topic] as a whole *)

Section ResearchFacts.
Context {RT : Runtime}.
Variable ctx : AppContext.

Lemma info_then {A} (msg : string) (k : M A) (w : World) :
  (info msg ;; k) w
  = match k w with (r, w', t) => (r, w', LogInfo msg :: t) end.
Proof. unfold bind, info. destruct (k w) as [[r w'] t]. reflexivity. Qed.

Lemma report_progress_then {A} (p n : Z) (k : M A) (w : World) :
  (report_progress p n ;; k) w
  = match k w with (r, w', t) => (r, w', ReportProgress p n :: t) end.
Proof. unfold bind, report_progress. destruct (k w) as [[r w'] t]. reflexivity. Qed.

Lemma try_except_text {A} (body : M A) (recover : exn -> A) (w : World) :
  try_except body (fun e => ret (recover e)) w
  = match body w with
    | (inl e, w1, t1) => (inr (recover e), w1, t1)
    | (inr a, w1, t1) => (inr a, w1, t1)
    end.
Proof.
  unfold try_except, ret.
  destruct (body w) as [[[e|a] w1] t1]; [now rewrite app_nil_r|reflexivity].
Qed.

(** The search raised: the tool returns the error text. *)
Lemma research_topic_search_raises (topic : string) (depth : Z) (w : World) e w1 t1 :
  FirecrawlService.search_web (firecrawl_service ctx) topic depth w = (inl e, w1, t1) ->
  research_topic ctx topic depth w
  = (inr (VStr ("Error researching topic: " ++ exn_str e)), w1,
     (research_preamble topic depth ++ t1)%list).
Proof.
  intros Hsearch. unfold research_topic.
  rewrite info_then, try_except_text, info_then, report_progress_then.
  unfold bind at 1. rewrite Hsearch. reflexivity.
Qed.

(** From the search results on: the loop, then the synthesis when
    [research_data] holds a line, else the could-not-gather text. *)
Lemma research_topic_run (topic : string) (depth : Z) (w : World)
    results w1 t1 items os w2 t2 :
  FirecrawlService.search_web (firecrawl_service ctx) topic depth w
    = (inr results, w1, t1) ->
  truthy results = true ->
  py_iter results = inr items ->
  outcomes ctx depth 0 items w1 = (inr os, w2, t2) ->
  research_topic ctx topic depth w
  = match sources 0 os with
    | [] =>
        (inr (VStr ("Could not gather meaningful research data on topic: " ++ topic)),
         w2, (research_preamble topic depth ++ t1 ++ t2)%list)
    | _ :: _ =>
        match GroqService.generate_text (groq_service ctx)
                (synthesis_prompt topic (String.concat nl (sources 0 os))) w2 with
        | (inr final_analysis, w3, t3) =>
            (inr (VStr (research_report topic final_analysis
                          (String.concat nl (sources 0 os)))),
             w3, (research_preamble topic depth ++ t1 ++ t2 ++ t3)%list)
        | (inl e, w3, t3) =>
            (inr (VStr ("Error researching topic: " ++ exn_str e)),
             w3, (research_preamble topic depth ++ t1 ++ t2 ++ t3)%list)
        end
    end.
Proof.
  intros Hsearch Htruthy Hiter Hos. unfold research_topic.
  rewrite info_then, try_except_text, info_then, report_progress_then.
  unfold bind at 1. rewrite Hsearch, Htruthy. cbn [negb].
  unfold bind at 1, lift at 1. rewrite Hiter.
  unfold bind at 1. rewrite research_loop_outcomes, Hos. cbn [app].
  destruct (sources 0 os) as [|line rd] eqn:Hrd.
  - unfold ret. unfold research_preamble. cbn [app]. now rewrite !app_nil_r.
  - unfold bind, ret.
    destruct (GroqService.generate_text _ _ w2) as [[[e|final] w3] t3];
      unfold research_preamble; cbn [app]; now rewrite ?app_nil_r.
Qed.

(** A round that leaves no line made no request to the generation client. *)
Lemma classify_unrecorded_silent (depth i : Z) (result : pyval) (w : World) o w' t :
  classify ctx depth i result w = (inr o, w', t) ->
  is_recorded o = false ->
  filter is_generation t = [].
Proof.
  intros Hc Ho. pose proof (classify_cases ctx depth i result w) as Hcases.
  destruct (py_get result "url" VNone) as [e|url]; [congruence|].
  destruct (truthy url).
  - destruct Hcases as (o' & w1 & t1 & Hc' & Hrun).
    rewrite Hc in Hc'. injection Hc' as -> -> ->.
    destruct Hrun as [e w1 t1 _ | sr content w1 t1 Hsc _ _ | ]; try discriminate.
    simpl.
    pose proof (silent_scrape_website (firecrawl_service ctx) url w) as Hs.
    rewrite Hsc in Hs. exact Hs.
  - rewrite Hc in Hcases. now injection Hcases as _ _ ->.
Qed.

Lemma outcomes_unrecorded_silent (depth : Z) (results : list pyval) : forall i w os w' t,
  outcomes ctx depth i results w = (inr os, w', t) ->
  existsb is_recorded os = false ->
  filter is_generation t = [] /\ sources i os = [].
Proof.
  induction results as [|result rest IH]; intros i w os w' t H Hos; simpl in H.
  - unfold ret in H. injection H as <- _ <-. split; reflexivity.
  - unfold bind at 1 in H.
    destruct (classify ctx depth i result w) as [[[e|o] w0] t0] eqn:Hc; [discriminate|].
    unfold bind at 1 in H.
    destruct (outcomes ctx depth (i + 1) rest w0) as [[[e|os0] w0'] t0'] eqn:Hrest;
      [discriminate|].
    unfold ret in H. simpl in H. injection H as <- _ <-.
    simpl in Hos. apply orb_false_elim in Hos as [Ho Hos0].
    destruct (IH _ _ _ _ _ Hrest Hos0) as [Hsil Hsrc].
    rewrite app_nil_r, filter_app, Hsil, (classify_unrecorded_silent _ _ _ _ Hc Ho).
    split; [reflexivity|].
    simpl. rewrite Hsrc. destruct o; try discriminate; reflexivity.
Qed.

(** A recorded outcome leaves a line. *)
Lemma sources_recorded (os : list outcome) : forall i,
  existsb is_recorded os = true -> sources i os <> [].
Proof.
  induction os as [|o os IH]; intros i H; simpl in *; [discriminate|].
  destruct o; simpl in *; try discriminate; now apply IH.
Qed.
(** When some item left a line, the call ends with the request of the
    synthesis over the lines. *)
Lemma research_topic_synthesis_events (topic : string) (depth : Z) (w : World)
    (items : list pyval) w1 t1 os w2 t2 :
  FirecrawlService.search_web (firecrawl_service ctx) topic depth w
    = (inr (VList items), w1, t1) ->
  items <> [] ->
  outcomes ctx depth 0 items w1 = (inr os, w2, t2) ->
  existsb is_recorded os = true ->
  events_of (research_topic ctx topic depth w)
  = (research_preamble topic depth ++ t1 ++ t2
     ++ [HttpPost Groq
           (GroqService.completion_request (groq_service ctx)
              (synthesis_prompt topic (String.concat nl (sources 0 os))))
           (fst (http_post w2
                   (GroqService.completion_request (groq_service ctx)
                      (synthesis_prompt topic
                         (String.concat nl (sources 0 os))))))])%list.
Proof.
  intros Hsearch Hitems Hos Hrec.
  assert (Htruthy : truthy (VList items) = true)
    by (destruct items; [congruence|reflexivity]).
  pose proof (research_topic_run topic depth w Hsearch Htruthy eq_refl Hos) as Hrun.
  pose proof (sources_recorded os 0 Hrec) as Hne.
  pose proof (generate_text_events (groq_service ctx)
                (synthesis_prompt topic (String.concat nl (sources 0 os))) w2) as Hev.
  destruct (sources 0 os) as [|line rd]; [congruence|].
  rewrite Hrun.
  destruct (GroqService.generate_text _ _ w2) as [[[e|final] w3] t3];
    unfold events_of in *; simpl in Hev; subst t3; reflexivity.
Qed.
End ResearchFacts.

(* ------------------------------------------------------------------ *)
(** * When the synthesis is requested *)

(** C1, as stated, fails.  The search returns one hit and the scrape of its
    URL is answered with status 500: the only item failed and no source
    block was gathered, yet the error line is in [research_data], the
    synthesis is requested from the generation client, and the tool returns
    the report instead of the could-not-gather text. *)
Lemma research_topic_synthesizes_error_lines :
  FirecrawlService.search_web (RT := Script.runtime)
    (firecrawl_service Script.ctx) "rust" 1 Script.one_failed
    = (inr (VList [Script.hit_a]), [Script.status 500 "boom"; Script.completion "final"],
       [HttpPost Firecrawl
          (FirecrawlService.search_request (firecrawl_service Script.ctx) "rust" 1)
          (Script.search_hits [Script.hit_a])])
  /\ outcome_of (outcomes (RT := Script.runtime) Script.ctx 1 0 [Script.hit_a]
                   [Script.status 500 "boom"; Script.completion "final"])
     = inr [Failed (VStr "http://a")
              (Raise "Exception" "Firecrawl API error: 500 - boom")]
  /\ outcome_of (research_topic (RT := Script.runtime) Script.ctx "rust" 1
                   Script.one_failed)
     = inr (VStr (research_report (RT := Script.runtime) "rust" (VStr "final")
                    "Error analyzing http://a: Firecrawl API error: 500 - boom"))
  /\ outcome_of (research_topic (RT := Script.runtime) Script.ctx "rust" 1
                   Script.one_failed)
     <> inr (VStr "Could not gather meaningful research data on topic: rust")
  /\ filter is_generation
       (events_of (research_topic (RT := Script.runtime) Script.ctx "rust" 1
                     Script.one_failed))
     = [HttpPost Groq
          (GroqService.completion_request (groq_service Script.ctx)
             (synthesis_prompt "rust"
                "Error analyzing http://a: Firecrawl API error: 500 - boom"))
          (Script.completion "final")].
Proof.
  repeat split; try reflexivity.
  vm_compute. discriminate.
Qed.

Section Synthesis.
Context {RT : Runtime}.
Variable ctx : AppContext.

(** C1, amended.  After a search that returned a non-empty list, when no
    item left a line in [research_data] (each lacked a URL or scraped to an
    empty text), the tool returns the could-not-gather text and the whole
    call made no request to the generation client; when some item left a
    line, a source block or an error line, the call ends with the request of
    the synthesis over these lines. *)
Theorem research_topic_synthesis_gate (topic : string) (depth : Z) (w : World)
    (items : list pyval) w1 t1 os w2 t2 :
  FirecrawlService.search_web (firecrawl_service ctx) topic depth w
    = (inr (VList items), w1, t1) ->
  items <> [] ->
  outcomes ctx depth 0 items w1 = (inr os, w2, t2) ->
  (existsb is_recorded os = false ->
   research_topic ctx topic depth w
   = (inr (VStr ("Could not gather meaningful research data on topic: " ++ topic)),
      w2, (research_preamble topic depth ++ t1 ++ t2)%list)
   /\ filter is_generation (events_of (research_topic ctx topic depth w)) = [])
  /\
  (existsb is_recorded os = true ->
   events_of (research_topic ctx topic depth w)
   = (research_preamble topic depth ++ t1 ++ t2
      ++ [HttpPost Groq
            (GroqService.completion_request (groq_service ctx)
               (synthesis_prompt topic (String.concat nl (sources 0 os))))
            (fst (http_post w2
                    (GroqService.completion_request (groq_service ctx)
                       (synthesis_prompt topic
                          (String.concat nl (sources 0 os))))))])%list).
Proof.
  intros Hsearch Hitems Hos.
  assert (Htruthy : truthy (VList items) = true) by (destruct items; [congruence|reflexivity]).
  pose proof (research_topic_run ctx topic depth w Hsearch Htruthy eq_refl Hos) as Hrun.
  split; intros Hrec.
  - destruct (@outcomes_unrecorded_silent RT ctx depth items 0 w1 os w2 t2 Hos Hrec)
      as [Hsil Hsrc].
    rewrite Hsrc in Hrun. split; [exact Hrun|].
    rewrite Hrun. unfold events_of, research_preamble. simpl.
    rewrite filter_app, Hsil.
    pose proof (silent_search_web (firecrawl_service ctx) topic depth w) as Hs.
    rewrite Hsearch in Hs. unfold events_of in Hs. simpl in Hs. now rewrite Hs.
  - exact (research_topic_synthesis_events ctx topic depth w Hsearch Hitems Hos Hrec).
Qed.
End Synthesis.

(** Instances of the amended C1: a hit without URL leaves nothing and
    nothing is generated; a failed hit leaves its error line and the
    synthesis is requested. *)
Lemma research_topic_synthesis_gate_witness :
  research_topic (RT := Script.runtime) Script.ctx "rust" 1
    [Script.search_hits [Script.no_url "N"]]
  = (inr (VStr "Could not gather meaningful research data on topic: rust"), [],
     (research_preamble "rust" 1
      ++ [HttpPost Firecrawl
            (FirecrawlService.search_request (firecrawl_service Script.ctx) "rust" 1)
            (Script.search_hits [Script.no_url "N"])] ++ [])%list)
  /\ events_of (research_topic (RT := Script.runtime) Script.ctx "rust" 1
                  Script.one_failed)
     = (research_preamble "rust" 1
        ++ [HttpPost Firecrawl
              (FirecrawlService.search_request (firecrawl_service Script.ctx) "rust" 1)
              (Script.search_hits [Script.hit_a])]
        ++ [LogInfo "Analyzing result 1: http://a";
            ReportProgress 1 2;
            HttpPost Firecrawl
              (FirecrawlService.scrape_request (firecrawl_service Script.ctx)
                 (VStr "http://a"))
              (Script.status 500 "boom")]
        ++ [HttpPost Groq
              (GroqService.completion_request (groq_service Script.ctx)
                 (synthesis_prompt "rust"
                    "Error analyzing http://a: Firecrawl API error: 500 - boom"))
              (Script.completion "final")])%list.
Proof.
  split.
  - refine (proj1 (proj1 (@research_topic_synthesis_gate Script.runtime
                     Script.ctx "rust" 1
                     [Script.search_hits [Script.no_url "N"]]
                     [Script.no_url "N"] [] _ [Skipped] [] []
                     eq_refl _ eq_refl) eq_refl)).
    discriminate.
  - refine (proj2 (@research_topic_synthesis_gate Script.runtime
                     Script.ctx "rust" 1 Script.one_failed
                     [Script.hit_a]
                     [Script.status 500 "boom"; Script.completion "final"] _
                     [Failed (VStr "http://a")
                        (Raise "Exception" "Firecrawl API error: 500 - boom")]
                     [Script.completion "final"] _
                     eq_refl _ eq_refl) eq_refl).
    discriminate.
Defined.

(* ------------------------------------------------------------------ *)
(** * The Sources section *)

Section SourcesSection.
Context {RT : Runtime}.
Variable ctx : AppContext.
Variable depth : Z.

Lemma classify_describes (i : Z) (result : pyval) (w : World) o w' t :
  classify ctx depth i result w = (inr o, w', t) -> describes result o.
Proof.
  intros Hc. pose proof (classify_cases ctx depth i result w) as Hcases.
  destruct (py_get result "url" VNone) as [e|url] eqn:Hurl; [congruence|].
  destruct (truthy url) eqn:Htruthy.
  - destruct Hcases as (o' & w1 & t1 & Hc' & Hrun).
    rewrite Hc in Hc'. injection Hc' as -> -> ->.
    destruct Hrun; simpl; eauto.
  - rewrite Hc in Hcases. injection Hcases as -> _ _. simpl. eauto.
Qed.

(** The outcomes come in the order of the search results, one per result. *)
Lemma outcomes_describe (results : list pyval) : forall i w os w' t,
  outcomes ctx depth i results w = (inr os, w', t) ->
  Forall2 describes results os.
Proof.
  induction results as [|result rest IH]; intros i w os w' t H; simpl in H.
  - unfold ret in H. injection H as <- _ _. constructor.
  - unfold bind at 1 in H.
    destruct (classify ctx depth i result w) as [[[e|o] w0] t0] eqn:Hc; [discriminate|].
    unfold bind at 1 in H.
    destruct (outcomes ctx depth (i + 1) rest w0) as [[[e|os0] w0'] t0'] eqn:Hrest;
      [discriminate|].
    unfold ret in H. simpl in H. injection H as <- _ _.
    constructor; [eapply classify_describes; eassumption|].
    eapply IH; eassumption.
Qed.

(** The block of the item of rank [k] sits between the lines of the items
    before it and the lines of the items after it, under the number [k+1]. *)
Lemma sources_nth (os : list outcome) : forall i k title url summary,
  nth_error os k = Some (Gathered title url summary) ->
  sources i os
  = (sources i (firstn k os)
     ++ source_block (i + Z.of_nat k) title url summary
     ++ sources (i + Z.of_nat k + 1) (skipn (S k) os))%list.
Proof.
  induction os as [|o os IH]; intros i k title url summary Hk.
  - destruct k; discriminate.
  - destruct k as [|k].
    + cbn [nth_error] in Hk. injection Hk as ->.
      cbn [firstn skipn sources lines_of app].
      change (Z.of_nat 0) with 0. now rewrite Z.add_0_r.
    + cbn [nth_error] in Hk. cbn [firstn skipn sources].
      rewrite (IH (i + 1) k title url summary Hk), <- app_assoc.
      replace (i + 1 + Z.of_nat k) with (i + Z.of_nat (S k)) by lia.
      reflexivity.
Qed.

(** When every outcome is a source block, the lines are these blocks. *)
Lemma sources_all_gathered (os : list outcome) : forall i,
  forallb is_gathered os = true ->
  sources i os = concat (gathered_blocks i os)
  /\ List.length (gathered_blocks i os) = List.length os.
Proof.
  induction os as [|o os IH]; intros i Hall; simpl in *.
  - split; reflexivity.
  - apply andb_prop in Hall as [Ho Hos].
    destruct o; try discriminate. simpl.
    destruct (IH (i + 1) Hos) as [Hsrc Hlen].
    rewrite Hsrc, Hlen. split; reflexivity.
Qed.

Lemma gathered_blocks_nth (os : list outcome) : forall i k title url summary,
  nth_error os k = Some (Gathered title url summary) ->
  gathered_blocks i os
  = app (gathered_blocks i (firstn k os))
      (source_block (i + Z.of_nat k) title url summary
       :: gathered_blocks (i + Z.of_nat k + 1) (skipn (S k) os)).
Proof.
  induction os as [|o os IH]; intros i k title url summary Hk.
  - destruct k; discriminate.
  - destruct k as [|k].
    + cbn [nth_error] in Hk. injection Hk as ->.
      cbn [firstn skipn gathered_blocks app].
      change (Z.of_nat 0) with 0. now rewrite Z.add_0_r.
    + cbn [nth_error] in Hk. cbn [firstn skipn].
      pose proof (IH (i + 1) k title url summary Hk) as Hrest.
      replace (i + 1 + Z.of_nat k) with (i + Z.of_nat (S k)) in Hrest by lia.
      destruct o; cbn [gathered_blocks]; rewrite Hrest; reflexivity.
Qed.

(** The source blocks are as many as the gathered outcomes. *)
Lemma gathered_blocks_length (os : list outcome) : forall i,
  List.length (gathered_blocks i os) = List.length (filter is_gathered os).
Proof.
  induction os as [|o os IH]; intros i; [reflexivity|].
  destruct o; cbn [gathered_blocks filter is_gathered List.length];
    now rewrite (IH (i + 1)).
Qed.

Lemma nth_gathered_recorded (os : list outcome) : forall k title url summary,
  nth_error os k = Some (Gathered title url summary) ->
  existsb is_recorded os = true.
Proof.
  induction os as [|o os IH]; intros k title url summary Hk.
  - destruct k; discriminate.
  - destruct k as [|k]; cbn [nth_error] in Hk.
    + injection Hk as ->. reflexivity.
    + cbn [existsb]. rewrite (IH k title url summary Hk). apply orb_true_r.
Qed.

Lemma describes_nth (items : list pyval) (os : list outcome) :
  Forall2 describes items os ->
  forall k o, nth_error os k = Some o ->
  exists item, nth_error items k = Some item /\ describes item o.
Proof.
  induction 1 as [|item o items os Hd _ IH]; intros k o' Hk.
  - destruct k; discriminate.
  - destruct k as [|k]; cbn [nth_error] in *.
    + injection Hk as <-. eauto.
    + exact (IH k o' Hk).
Qed.

(** C10. In the Sources section of the report [research_topic] returns,
    the block of the gathered search result of rank [k] (counted from 0)
    is numbered [k+1]: it stands after the lines of the results of lower
    rank, whether these were skipped, failed or gathered, and carries the
    URL and the title of the result of rank [k].  Among the source blocks
    it is the one after as many blocks as results of lower rank were
    gathered, so that its number is its rank in the search, not its
    position among the blocks: a skipped or failed result keeps its
    number. *)
Theorem research_topic_numbers_sources_by_rank (topic : string) (w : World)
    (items : list pyval) w1 t1 os w2 t2 final_analysis w3 t3
    (k : nat) (title url summary : pyval) :
  FirecrawlService.search_web (firecrawl_service ctx) topic depth w
    = (inr (VList items), w1, t1) ->
  outcomes ctx depth 0 items w1 = (inr os, w2, t2) ->
  GroqService.generate_text (groq_service ctx)
    (synthesis_prompt topic (String.concat nl (sources 0 os))) w2
    = (inr final_analysis, w3, t3) ->
  nth_error os k = Some (Gathered title url summary) ->
  outcome_of (research_topic ctx topic depth w)
  = inr (VStr ("# Research on: " ++ topic ++ nl ++ nl
               ++ py_str final_analysis ++ nl ++ nl
               ++ "## Sources" ++ nl ++ nl
               ++ String.concat nl
                    (app (sources 0 (firstn k os))
                       (("Source " ++ str_int (Z.of_nat k + 1) ++ ": " ++ py_str title)
                        :: ("URL: " ++ py_str url)
                        :: ("Summary: " ++ py_str summary)
                        :: EmptyString
                        :: sources (Z.of_nat k + 1) (skipn (S k) os)))))
  /\ (exists item,
        nth_error items k = Some item
        /\ py_get item "url" VNone = inr url
        /\ py_get item "title" (VStr "No title") = inr title)
  /\ gathered_blocks 0 os
     = app (gathered_blocks 0 (firstn k os))
         (source_block (Z.of_nat k) title url summary
          :: gathered_blocks (Z.of_nat k + 1) (skipn (S k) os))
  /\ List.length (gathered_blocks 0 (firstn k os))
     = List.length (filter is_gathered (firstn k os)).
Proof.
  intros Hsearch Hos Hgen Hk.
  pose proof (outcomes_length _ _ _ _ _ Hos) as Hlen.
  pose proof (nth_gathered_recorded os k Hk) as Hrec.
  assert (Htruthy : truthy (VList items) = true).
  { destruct items; [|reflexivity]. destruct os; [destruct k|]; discriminate. }
  pose proof (research_topic_run ctx topic depth w Hsearch Htruthy eq_refl Hos) as Hrun.
  pose proof (sources_recorded os 0 Hrec) as Hne.
  split; [|split; [|split]].
  - rewrite Hrun.
    destruct (sources 0 os) as [|line rd] eqn:Hsrc; [congruence|].
    rewrite Hgen. rewrite <- Hsrc, (sources_nth os 0 k Hk). reflexivity.
  - assert (Hall : Forall2 describes items os)
      by (eapply outcomes_describe; exact Hos).
    destruct (describes_nth Hall k Hk) as (item & Hitem & Hurl & _ & Htitle).
    exists item. now repeat split.
  - exact (gathered_blocks_nth os 0 k Hk).
  - apply gathered_blocks_length.
Qed.
End SourcesSection.

(** An instance of C10: the first hit has no URL and the third fails, so
    the two blocks of the report are numbered 2 and 4. *)
Lemma research_topic_numbers_sources_by_rank_witness :
  outcome_of (research_topic (RT := Script.runtime) Script.ctx "rust" 4
                Script.search_with_gaps)
  = inr (VStr ("# Research on: rust" ++ nl ++ nl
               ++ "final" ++ nl ++ nl
               ++ "## Sources" ++ nl ++ nl
               ++ String.concat nl
                    ["Source 2: B"; "URL: http://b"; "Summary: sumB"; EmptyString;
                     "Error analyzing http://c: Firecrawl API error: 500 - boom";
                     "Source 4: D"; "URL: http://d"; "Summary: sumD"; EmptyString]))
  /\ gathered_blocks (RT := Script.runtime) 0
       [Skipped;
        Gathered (VStr "B") (VStr "http://b") (VStr "sumB");
        Failed (VStr "http://c") (Raise "Exception" "Firecrawl API error: 500 - boom");
        Gathered (VStr "D") (VStr "http://d") (VStr "sumD")]
     = [["Source 2: B"; "URL: http://b"; "Summary: sumB"; EmptyString];
        ["Source 4: D"; "URL: http://d"; "Summary: sumD"; EmptyString]].
Proof.
  destruct (@research_topic_numbers_sources_by_rank Script.runtime Script.ctx 4
              "rust" Script.search_with_gaps
              [Script.no_url "N"; Script.hit_b; Script.hit "C" "http://c";
               Script.hit "D" "http://d"]
              (Script.with_gaps ++ [Script.completion "final"])%list _
              [Skipped;
               Gathered (VStr "B") (VStr "http://b") (VStr "sumB");
               Failed (VStr "http://c")
                 (Raise "Exception" "Firecrawl API error: 500 - boom");
               Gathered (VStr "D") (VStr "http://d") (VStr "sumD")]
              [Script.completion "final"] _
              (VStr "final") [] _
              3%nat (VStr "D") (VStr "http://d") (VStr "sumD")
              eq_refl eq_refl eq_refl eq_refl) as (Hreport & _ & Hblocks & _).
  split; [exact Hreport|exact Hblocks].
Defined.

Section Report.
Context {RT : Runtime}.
Variable ctx : AppContext.

(** C5. When the loop left at least one line and the synthesis succeeded,
    the tool returns the report: the heading with the topic, the analysis,
    then the Sources section, whose lines are those of the search results
    in rank order, whatever the outcome of each (the outcomes are, rank by
    rank, about the results).  When all of the [depth] results were
    gathered, these lines are exactly [depth] source blocks. *)
Theorem research_topic_report_layout (topic : string) (depth : Z) (w : World)
    (items : list pyval) w1 t1 os w2 t2 final_analysis w3 t3 :
  FirecrawlService.search_web (firecrawl_service ctx) topic depth w
    = (inr (VList items), w1, t1) ->
  outcomes ctx depth 0 items w1 = (inr os, w2, t2) ->
  existsb is_recorded os = true ->
  GroqService.generate_text (groq_service ctx)
    (synthesis_prompt topic (String.concat nl (sources 0 os))) w2
    = (inr final_analysis, w3, t3) ->
  outcome_of (research_topic ctx topic depth w)
  = inr (VStr ("# Research on: " ++ topic ++ nl ++ nl
               ++ py_str final_analysis ++ nl ++ nl
               ++ "## Sources" ++ nl ++ nl
               ++ String.concat nl (sources 0 os)))
  /\ Forall2 describes items os
  /\ (forallb is_gathered os = true ->
      Z.of_nat (List.length items) = depth ->
      sources 0 os = concat (gathered_blocks 0 os)
      /\ Z.of_nat (List.length (gathered_blocks 0 os)) = depth).
Proof.
  intros Hsearch Hos Hrec Hgen.
  pose proof (outcomes_length _ _ _ _ _ Hos) as Hlen.
  assert (Htruthy : truthy (VList items) = true).
  { destruct items; [|reflexivity]. destruct os; discriminate. }
  pose proof (research_topic_run ctx topic depth w Hsearch Htruthy eq_refl Hos) as Hrun.
  pose proof (sources_recorded os 0 Hrec) as Hne.
  split; [|split].
  - rewrite Hrun. destruct (sources 0 os) as [|line rd]; [congruence|].
    rewrite Hgen. reflexivity.
  - eapply outcomes_describe; eassumption.
  - intros Hall Hdepth.
    destruct (sources_all_gathered os 0 Hall) as [Hsrc Hblocks].
    split; [exact Hsrc|]. now rewrite Hblocks, Hlen.
Qed.

(** C4. The search returned [pre ++ item :: post], the rounds of [pre] went
    to their end, and the scrape or the summary of [item] raises.  Then the
    round of [item] records the error line, every result of [post] gets its
    round, started from where the failure left the world, and the call ends
    with the request of the synthesis over all the lines. *)
Theorem research_topic_tolerates_source_failure (topic : string) (depth : Z)
    (w : World) (pre post : list pyval) (item url : pyval) (e : exn)
    w1 t1 os_pre w2 t2 w3 t3 :
  FirecrawlService.search_web (firecrawl_service ctx) topic depth w
    = (inr (VList (pre ++ item :: post)%list), w1, t1) ->
  outcomes ctx depth 0 pre w1 = (inr os_pre, w2, t2) ->
  py_get item "url" VNone = inr url ->
  truthy url = true ->
  source_raises ctx url w2 e w3 t3 ->
  forallb is_dict post = true ->
  exists os_post w4 t4,
    outcomes ctx depth (Z.of_nat (List.length pre) + 1) post w3 = (inr os_post, w4, t4)
    /\ List.length os_post = List.length post
    /\ research_loop ctx depth 0 (pre ++ item :: post)%list [] w1
       = (inr (sources 0 os_pre
               ++ error_line url e
               :: sources (Z.of_nat (List.length pre) + 1) os_post)%list,
          w4,
          (t2 ++ LogInfo ("Analyzing result "
                          ++ str_int (Z.of_nat (List.length pre) + 1)
                          ++ ": " ++ py_str url)
              :: ReportProgress (Z.of_nat (List.length pre) + 1) (depth + 1)
              :: t3 ++ t4)%list)
    /\ exists answer t5,
         events_of (research_topic ctx topic depth w)
         = (research_preamble topic depth ++ t1 ++ t5
            ++ [HttpPost Groq
                  (GroqService.completion_request (groq_service ctx)
                     (synthesis_prompt topic
                        (String.concat nl
                           (sources 0 os_pre
                            ++ error_line url e
                            :: sources (Z.of_nat (List.length pre) + 1) os_post))))
                  answer])%list.
Proof.
  intros Hsearch Hpre Hurl Htruthy Hraise Hdict.
  destruct (outcomes_total ctx depth post (Z.of_nat (List.length pre) + 1) w3 Hdict)
    as (os_post & w4 & t4 & Hpost & Hlen).
  exists os_post, w4, t4.
  pose proof (@classify_failed RT ctx depth (Z.of_nat (List.length pre)) item url
                w2 e w3 t3 Hurl Htruthy Hraise) as Hitem.
  assert (Hall : outcomes ctx depth 0 (pre ++ item :: post)%list w1
                 = (inr (os_pre ++ Failed url e :: os_post)%list, w4,
                    (t2 ++ LogInfo ("Analyzing result "
                                    ++ str_int (Z.of_nat (List.length pre) + 1)
                                    ++ ": " ++ py_str url)
                        :: ReportProgress (Z.of_nat (List.length pre) + 1) (depth + 1)
                        :: t3 ++ t4)%list)).
  { rewrite (outcomes_app ctx depth pre 0 w1 (item :: post) Hpre).
    cbn [outcomes]. unfold bind at 1. rewrite Z.add_0_l, Hitem.
    unfold bind, ret. rewrite Hpost. cbn [app]. now rewrite app_nil_r. }
  assert (Hsrc : sources 0 (os_pre ++ Failed url e :: os_post)%list
                 = (sources 0 os_pre
                    ++ error_line url e
                    :: sources (Z.of_nat (List.length pre) + 1) os_post)%list).
  { rewrite sources_app. cbn [sources lines_of app].
    rewrite (outcomes_length _ _ _ _ _ Hpre), Z.add_0_l. reflexivity. }
  split; [exact Hpost|]. split; [exact Hlen|]. split.
  - rewrite research_loop_outcomes, Hall, Hsrc. reflexivity.
  - assert (Hitems : (pre ++ item :: post)%list <> []) by (destruct pre; discriminate).
    assert (Hrec : existsb is_recorded (os_pre ++ Failed url e :: os_post)%list = true).
    { rewrite existsb_app. simpl. apply orb_true_r. }
    pose proof (research_topic_synthesis_events ctx topic depth w
                  Hsearch Hitems Hall Hrec) as Hev.
    rewrite Hsrc in Hev. do 2 eexists. exact Hev.
Qed.
End Report.

(** An instance of C5: two hits, both gathered, at depth 2. *)
Lemma research_topic_report_layout_witness :
  outcome_of (research_topic (RT := Script.runtime) Script.ctx "rust ownership" 2
                Script.two_sources)
  = inr (VStr ("# Research on: rust ownership" ++ nl ++ nl
               ++ "final" ++ nl ++ nl
               ++ "## Sources" ++ nl ++ nl
               ++ String.concat nl
                    ["Source 1: A"; "URL: http://a"; "Summary: sumA"; EmptyString;
                     "Source 2: B"; "URL: http://b"; "Summary: sumB"; EmptyString]))
  /\ gathered_blocks (RT := Script.runtime) 0
       [Gathered (VStr "A") (VStr "http://a") (VStr "sumA");
        Gathered (VStr "B") (VStr "http://b") (VStr "sumB")]
     = [["Source 1: A"; "URL: http://a"; "Summary: sumA"; EmptyString];
        ["Source 2: B"; "URL: http://b"; "Summary: sumB"; EmptyString]]
  /\ Z.of_nat (List.length
                 (gathered_blocks (RT := Script.runtime) 0
                    [Gathered (VStr "A") (VStr "http://a") (VStr "sumA");
                     Gathered (VStr "B") (VStr "http://b") (VStr "sumB")])) = 2.
Proof.
  destruct (@research_topic_report_layout Script.runtime Script.ctx
              "rust ownership" 2 Script.two_sources
              [Script.hit_a; Script.hit_b]
              [Script.page "aaa"; Script.completion "sumA";
               Script.page "bbb"; Script.completion "sumB";
               Script.completion "final"] _
              [Gathered (VStr "A") (VStr "http://a") (VStr "sumA");
               Gathered (VStr "B") (VStr "http://b") (VStr "sumB")]
              [Script.completion "final"] _
              (VStr "final") [] _
              eq_refl eq_refl eq_refl eq_refl) as (Hreport & _ & Hblocks).
  split; [exact Hreport|]. split; [reflexivity|].
  exact (proj2 (Hblocks eq_refl eq_refl)).
Defined.

(** An instance of C4: the scrape of the first of two hits is answered with
    status 500; the second hit is gathered and the synthesis is requested. *)
Lemma research_topic_tolerates_source_failure_witness :
  source_raises (RT := Script.runtime) Script.ctx (VStr "http://a")
    [Script.status 500 "boom"; Script.page "bbb"; Script.completion "sumB";
     Script.completion "final"]
    (Raise "Exception" "Firecrawl API error: 500 - boom")
    [Script.page "bbb"; Script.completion "sumB"; Script.completion "final"]
    [HttpPost Firecrawl
       (FirecrawlService.scrape_request (firecrawl_service Script.ctx) (VStr "http://a"))
       (Script.status 500 "boom")]
  /\ exists os_post w4 t4,
       outcomes (RT := Script.runtime) Script.ctx 2 1 [Script.hit_b]
         [Script.page "bbb"; Script.completion "sumB"; Script.completion "final"]
       = (inr os_post, w4, t4)
       /\ os_post = [Gathered (VStr "B") (VStr "http://b") (VStr "sumB")]
       /\ outcome_of (research_loop (RT := Script.runtime) Script.ctx 2 0
                        [Script.hit_a; Script.hit_b] []
                        [Script.status 500 "boom"; Script.page "bbb";
                         Script.completion "sumB"; Script.completion "final"])
          = inr (error_line (RT := Script.runtime) (VStr "http://a")
                   (Raise "Exception" "Firecrawl API error: 500 - boom")
                 :: sources (RT := Script.runtime) 1 os_post)
       /\ exists answer t5,
            events_of (research_topic (RT := Script.runtime) Script.ctx "rust" 2
                         Script.failed_then_gathered)
            = (research_preamble "rust" 2
               ++ [HttpPost Firecrawl
                     (FirecrawlService.search_request
                        (firecrawl_service Script.ctx) "rust" 2)
                     (Script.search_hits [Script.hit_a; Script.hit_b])]
               ++ t5
               ++ [HttpPost Groq
                     (GroqService.completion_request (groq_service Script.ctx)
                        (synthesis_prompt "rust"
                           (String.concat nl
                              (error_line (RT := Script.runtime) (VStr "http://a")
                                 (Raise "Exception" "Firecrawl API error: 500 - boom")
                               :: sources (RT := Script.runtime) 1 os_post))))
                     answer])%list.
Proof.
  assert (Hraise : source_raises (RT := Script.runtime) Script.ctx (VStr "http://a")
            [Script.status 500 "boom"; Script.page "bbb"; Script.completion "sumB";
             Script.completion "final"]
            (Raise "Exception" "Firecrawl API error: 500 - boom")
            [Script.page "bbb"; Script.completion "sumB"; Script.completion "final"]
            [HttpPost Firecrawl
               (FirecrawlService.scrape_request (firecrawl_service Script.ctx)
                  (VStr "http://a"))
               (Script.status 500 "boom")]).
  { apply scrape_raises. reflexivity. }
  split; [exact Hraise|].
  destruct (@research_topic_tolerates_source_failure Script.runtime Script.ctx
              "rust" 2 Script.failed_then_gathered [] [Script.hit_b]
              Script.hit_a (VStr "http://a")
              (Raise "Exception" "Firecrawl API error: 500 - boom")
              _ _ [] _ [] _ _
              eq_refl eq_refl eq_refl eq_refl Hraise eq_refl)
    as (os_post & w4 & t4 & Hpost & _ & Hloop & answer & t5 & Hev).
  exists os_post, w4, t4. split; [exact Hpost|].
  split; [now injection Hpost as <- _ _|].
  split; [exact (f_equal (fun r => fst (fst r)) Hloop)|].
  exists answer, t5. exact Hev.
Defined.

(* ------------------------------------------------------------------ *)
(** * The order of the side effects *)

(** C2, as stated, fails.  In the round of a search result the progress
    [(index+1)/(depth+1)] is reported before the scrape and the summary of
    that result, and nothing is reported after them: here the last progress
    of the whole call, 2/3, precedes the requests for the second result. *)
Lemma progress_is_reported_before_the_item :
  events_of (analyze_result (RT := Script.runtime) Script.ctx 2 1 Script.hit_b []
               [Script.page "bbb"; Script.completion "sumB"])
  = [LogInfo "Analyzing result 2: http://b";
     ReportProgress 2 3;
     HttpPost Firecrawl
       (FirecrawlService.scrape_request (firecrawl_service Script.ctx) (VStr "http://b"))
       (Script.page "bbb");
     HttpPost Groq
       (GroqService.completion_request (groq_service Script.ctx)
          (GroqService.summary_prompt (RT := Script.runtime) (VStr "bbb") 300))
       (Script.completion "sumB")]
  /\ reported_after_requests 2 3
       (events_of (analyze_result (RT := Script.runtime) Script.ctx 2 1 Script.hit_b []
                     [Script.page "bbb"; Script.completion "sumB"])) = false
  /\ reported_after_requests 2 3
       (events_of (research_topic (RT := Script.runtime) Script.ctx "rust" 2
                     Script.two_sources)) = false
  /\ filter (fun e => match e with ReportProgress _ _ => true | _ => false end)
       (events_of (research_topic (RT := Script.runtime) Script.ctx "rust" 2
                     Script.two_sources))
     = [ReportProgress 0 3; ReportProgress 1 3; ReportProgress 2 3].
Proof. repeat split; reflexivity. Qed.

Section Order.
Context {RT : Runtime}.
Variable ctx : AppContext.

Lemma scrape_website_one_post (url : pyval) (w : World) r w1 t :
  FirecrawlService.scrape_website (firecrawl_service ctx) url w = (r, w1, t) ->
  t = [HttpPost Firecrawl
         (FirecrawlService.scrape_request (firecrawl_service ctx) url)
         (fst (http_post w (FirecrawlService.scrape_request
                              (firecrawl_service ctx) url)))].
Proof.
  intros H. pose proof (scrape_website_events (firecrawl_service ctx) url w) as Hev.
  now rewrite H in Hev.
Qed.

Lemma summarize_content_one_post (content : pyval) (n : Z) (w : World) r w1 t :
  GroqService.summarize_content (groq_service ctx) content n w = (r, w1, t) ->
  t = [HttpPost Groq
         (GroqService.completion_request (groq_service ctx)
            (GroqService.summary_prompt content n))
         (fst (http_post w (GroqService.completion_request (groq_service ctx)
                              (GroqService.summary_prompt content n))))].
Proof.
  intros H. unfold GroqService.summarize_content in H.
  pose proof (generate_text_events (groq_service ctx)
                (GroqService.summary_prompt content n) w) as Hev.
  now rewrite H in Hev.
Qed.

Lemma source_run_in_order (result url : pyval) (w : World) o w' t :
  source_run ctx result url w o w' t ->
  exists scrape_answer tail,
    t = HttpPost Firecrawl
          (FirecrawlService.scrape_request (firecrawl_service ctx) url) scrape_answer
        :: tail
    /\ (tail = []
        \/ exists content summary_answer,
             tail = [HttpPost Groq
                       (GroqService.completion_request (groq_service ctx)
                          (GroqService.summary_prompt content 300))
                       summary_answer]).
Proof.
  intros Hrun.
  destruct Hrun as [e w1 t Hraise | sr content w1 t Hsc _ _
                   | sr content summary title w1 t w2 t' Hsc _ _ Hsum _].
  - destruct Hraise as [w1 t Hsc | sr w1 t Hsc _ | sr content w1 t w2 t' Hsc _ _ Hsum].
    + rewrite (scrape_website_one_post _ _ Hsc). eauto.
    + rewrite (scrape_website_one_post _ _ Hsc). eauto.
    + rewrite (scrape_website_one_post _ _ Hsc), (summarize_content_one_post _ _ _ Hsum).
      do 2 eexists. split; [reflexivity|]. right. eauto.
  - rewrite (scrape_website_one_post _ _ Hsc). eauto.
  - rewrite (scrape_website_one_post _ _ Hsc), (summarize_content_one_post _ _ _ Hsum).
    do 2 eexists. split; [reflexivity|]. right. eauto.
Qed.

Lemma classify_in_order (depth i : Z) (item : pyval) (w : World) o w' t :
  classify ctx depth i item w = (inr o, w', t) ->
  round_in_order ctx depth i item t.
Proof.
  intros Hc. pose proof (classify_cases ctx depth i item w) as Hcases.
  unfold round_in_order.
  destruct (py_get item "url" VNone) as [e|url]; [congruence|].
  exists url. split; [reflexivity|].
  destruct (truthy url).
  - destruct Hcases as (o' & w1 & t1 & Hc' & Hrun).
    rewrite Hc in Hc'. injection Hc' as -> -> ->.
    destruct (source_run_in_order Hrun) as (a & tail & -> & Htail).
    exists a, tail. split; [reflexivity|exact Htail].
  - rewrite Hc in Hcases. now injection Hcases as _ _ ->.
Qed.

Lemma outcomes_in_order (depth : Z) (items : list pyval) : forall i w os w' t,
  outcomes ctx depth i items w = (inr os, w', t) ->
  loop_in_order ctx depth i items t.
Proof.
  induction items as [|item rest IH]; intros i w os w' t H; simpl in H.
  - unfold ret in H. now injection H as _ _ <-.
  - unfold bind at 1 in H.
    destruct (classify ctx depth i item w) as [[[e|o] w0] t0] eqn:Hc; [discriminate|].
    unfold bind at 1 in H.
    destruct (outcomes ctx depth (i + 1) rest w0) as [[[e|os0] w0'] t0'] eqn:Hrest;
      [discriminate|].
    unfold ret in H. simpl in H. injection H as _ _ <-.
    simpl. exists t0, t0'. rewrite app_nil_r.
    split; [reflexivity|]. split.
    + eapply classify_in_order; eassumption.
    + eapply IH; eassumption.
Qed.
End Order.

Ltac no_summary :=
  exists false, VNone; eexists; exists (inl (Raise EmptyString EmptyString));
  eexists; split; [reflexivity|discriminate].

Section OrderAnalyze.
Context {RT : Runtime}.
Variable ctx : AppContext.

(** The events of [analyze_website] are an initial part of its steps in
    their order: log, 0/3, scrape, 1/3, then 2/3 and the summary request
    when a summary is made, then 3/3. *)
Lemma analyze_website_in_order (url : string) (include_summary : bool) (w : World) :
  exists with_summary content scrape_answer summary_answer rest,
    analyze_website_steps ctx url with_summary content scrape_answer summary_answer
    = (events_of (analyze_website ctx url include_summary w) ++ rest)%list
    /\ (with_summary = true -> include_summary = true).
Proof.
  unfold analyze_website.
  rewrite info_then, try_except_text, report_progress_then.
  unfold bind at 1.
  destruct (FirecrawlService.scrape_website _ (VStr url) w) as [[[e|sr] w1] t1] eqn:Hsc;
    rewrite (scrape_website_one_post _ _ _ Hsc).
  { no_summary. }
  unfold bind at 1, lift at 1.
  destruct (py_get sr "text" _) as [e|content].
  { no_summary. }
  unfold bind at 1, lift at 1.
  destruct (py_get sr "metadata" _) as [e|metadata].
  { no_summary. }
  rewrite report_progress_then.
  unfold bind at 1, lift at 1.
  destruct (py_get metadata "title" _) as [e|title].
  { no_summary. }
  unfold bind at 1, lift at 1.
  destruct (py_get metadata "description" _) as [e|description].
  { no_summary. }
  unfold bind at 1, lift at 1.
  destruct (py_len content) as [e|content_length].
  { no_summary. }
  unfold bind at 1, lift at 1.
  destruct (py_get sr "links" _) as [e|links].
  { no_summary. }
  unfold bind at 1, lift at 1.
  destruct (py_len links) as [e|links_found].
  { no_summary. }
  unfold bind at 1.
  destruct (include_summary && truthy content) eqn:Hsummary.
  - apply andb_prop in Hsummary as [-> _].
    rewrite report_progress_then. unfold bind at 1.
    destruct (GroqService.summarize_content _ content 500 w1)
      as [[[e|summary] w2] t2] eqn:Hsum;
      rewrite (summarize_content_one_post _ _ _ _ Hsum).
    { exists true. do 4 eexists. split; [reflexivity|reflexivity]. }
    unfold ret at 1. rewrite report_progress_then.
    unfold bind, lift, ret.
    destruct (py_join nl _) as [e|joined];
      exists true; do 4 eexists; (split; [reflexivity|reflexivity]).
  - unfold ret at 1. rewrite report_progress_then.
    unfold bind, lift, ret.
    destruct (py_join nl _) as [e|joined];
      no_summary.
Qed.
End OrderAnalyze.

Section OrderTheorem.
Context {RT : Runtime}.
Variable ctx : AppContext.

(** C2, amended.  The events of a [research_topic] call whose search and
    loop went to their end are, in this order: the preamble (two log lines
    and the progress [0/(depth+1)]), the search request, the rounds of the
    search results in rank order, then the synthesis request if there is
    one.  A round is empty for a result without URL; otherwise it is the log
    line, the progress [(index+1)/(depth+1)], the scrape request and then
    the summary request if it is made: the progress comes before the item is
    processed.  The events of an [analyze_website] call are an initial part
    of: log line, 0/3, scrape request, 1/3, then 2/3 and the summary request
    when a summary is made, and 3/3. *)
Theorem orchestration_steps_in_order (topic : string) (depth : Z) (w : World)
    (items : list pyval) w1 t1 os w2 t2 :
  FirecrawlService.search_web (firecrawl_service ctx) topic depth w
    = (inr (VList items), w1, t1) ->
  outcomes ctx depth 0 items w1 = (inr os, w2, t2) ->
  (exists search_answer synthesis,
     events_of (research_topic ctx topic depth w)
     = (research_preamble topic depth
        ++ [HttpPost Firecrawl
              (FirecrawlService.search_request (firecrawl_service ctx) topic depth)
              search_answer]
        ++ t2 ++ synthesis)%list
     /\ loop_in_order ctx depth 0 items t2
     /\ (synthesis = []
         \/ exists answer,
              synthesis
              = [HttpPost Groq
                   (GroqService.completion_request (groq_service ctx)
                      (synthesis_prompt topic (String.concat nl (sources 0 os))))
                   answer]))
  /\ (forall url include_summary w0,
        exists with_summary content scrape_answer summary_answer rest,
          analyze_website_steps ctx url with_summary content scrape_answer summary_answer
          = (events_of (analyze_website ctx url include_summary w0) ++ rest)%list
          /\ (with_summary = true -> include_summary = true)).
Proof.
  intros Hsearch Hos. split; [|intros; apply analyze_website_in_order].
  pose proof (search_web_events (firecrawl_service ctx) topic depth w) as Ht1.
  rewrite Hsearch in Ht1. unfold events_of in Ht1. simpl in Ht1. subst t1.
  eexists.
  destruct items as [|item rest].
  - simpl in Hos. unfold ret in Hos. injection Hos as <- <- <-.
    exists []. split; [|split; [reflexivity|now left]].
    now rewrite (research_topic_no_results_run ctx topic depth w Hsearch).
  - pose proof (research_topic_run ctx topic depth w Hsearch eq_refl eq_refl Hos)
      as Hrun.
    pose proof (generate_text_events (groq_service ctx)
                  (synthesis_prompt topic (String.concat nl (sources 0 os))) w2) as Hev.
    destruct (sources 0 os) as [|line rd].
    + exists []. rewrite Hrun, app_nil_r.
      split; [reflexivity|]. split; [|now left].
      eapply outcomes_in_order; eassumption.
    + eexists. rewrite Hrun.
      destruct (GroqService.generate_text _ _ w2) as [[[e|final] w3] t3];
        unfold events_of in *; simpl in Hev; subst t3;
        (split; [reflexivity|]);
        (split; [eapply outcomes_in_order; eassumption|]); right; eauto.
Qed.
End OrderTheorem.

(** An instance of the amended C2: two hits, both gathered. *)
Lemma orchestration_steps_in_order_witness :
  events_of (research_topic (RT := Script.runtime) Script.ctx "rust" 2 Script.two_sources)
  = [LogInfo "Researching topic: rust with depth 2";
     LogInfo "Searching web...";
     ReportProgress 0 3;
     HttpPost Firecrawl
       (FirecrawlService.search_request (firecrawl_service Script.ctx) "rust" 2)
       (Script.search_hits [Script.hit_a; Script.hit_b]);
     LogInfo "Analyzing result 1: http://a";
     ReportProgress 1 3;
     HttpPost Firecrawl
       (FirecrawlService.scrape_request (firecrawl_service Script.ctx) (VStr "http://a"))
       (Script.page "aaa");
     HttpPost Groq
       (GroqService.completion_request (groq_service Script.ctx)
          (GroqService.summary_prompt (RT := Script.runtime) (VStr "aaa") 300))
       (Script.completion "sumA");
     LogInfo "Analyzing result 2: http://b";
     ReportProgress 2 3;
     HttpPost Firecrawl
       (FirecrawlService.scrape_request (firecrawl_service Script.ctx) (VStr "http://b"))
       (Script.page "bbb");
     HttpPost Groq
       (GroqService.completion_request (groq_service Script.ctx)
          (GroqService.summary_prompt (RT := Script.runtime) (VStr "bbb") 300))
       (Script.completion "sumB");
     HttpPost Groq
       (GroqService.completion_request (groq_service Script.ctx)
          (synthesis_prompt "rust"
             (String.concat nl
                ["Source 1: A"; "URL: http://a"; "Summary: sumA"; EmptyString;
                 "Source 2: B"; "URL: http://b"; "Summary: sumB"; EmptyString])))
       (Script.completion "final")]
  /\ loop_in_order (RT := Script.runtime) Script.ctx 2 0 [Script.hit_a; Script.hit_b]
       (events_of (outcomes (RT := Script.runtime) Script.ctx 2 0
                     [Script.hit_a; Script.hit_b]
                     [Script.page "aaa"; Script.completion "sumA";
                      Script.page "bbb"; Script.completion "sumB";
                      Script.completion "final"])).
Proof.
  destruct (@orchestration_steps_in_order Script.runtime Script.ctx "rust" 2
              Script.two_sources [Script.hit_a; Script.hit_b]
              [Script.page "aaa"; Script.completion "sumA";
               Script.page "bbb"; Script.completion "sumB";
               Script.completion "final"] _
              [Gathered (VStr "A") (VStr "http://a") (VStr "sumA");
               Gathered (VStr "B") (VStr "http://b") (VStr "sumB")]
              [Script.completion "final"]
              (events_of (outcomes (RT := Script.runtime) Script.ctx 2 0
                            [Script.hit_a; Script.hit_b]
                            [Script.page "aaa"; Script.completion "sumA";
                             Script.page "bbb"; Script.completion "sumB";
                             Script.completion "final"]))
              eq_refl eq_refl) as [(search_answer & synthesis & _ & Hloop & _) _].
  split; [reflexivity|exact Hloop].
Defined.

(* ------------------------------------------------------------------ *)
(** * Upstream errors *)

Section Faithful.
Context {RT : Runtime}.

Lemma faithful_ret {A} (a : A) : faithful (ret a).
Proof. intros w H. discriminate. Qed.

Lemma faithful_raise {A} (e : exn) : faithful (raise (A := A) e).
Proof. intros w H. discriminate. Qed.

Lemma faithful_lift {A} (r : exn + A) : faithful (lift r).
Proof. intros w H. discriminate. Qed.

Lemma faithful_info msg : faithful (info msg).
Proof. intros w H. discriminate. Qed.

Lemma faithful_report_progress p n : faithful (report_progress p n).
Proof. intros w H. discriminate. Qed.

Lemma faithful_if {A} (b : bool) (m1 m2 : M A) :
  faithful m1 -> faithful m2 -> faithful (if b then m1 else m2).
Proof. destruct b; auto. Qed.

Lemma faithful_bind {A B} (m : M A) (f : A -> M B) :
  faithful m -> (forall a, faithful (f a)) -> faithful (bind m f).
Proof.
  intros Hm Hf w. specialize (Hm w). unfold bind, events_of, outcome_of in *.
  destruct (m w) as [[[e|a] w1] t1]; simpl in *.
  { intros H. destruct (Hm H) as (c & req & resp & Hin & Hst & Hr).
    injection Hr as ->. exists c, req, resp. now repeat split. }
  specialize (Hf a w1). destruct (f a w1) as [[r w2] t2]; simpl in *.
  rewrite existsb_app. intros H. apply orb_prop in H as [H|H].
  - destruct (Hm H) as (c & req & resp & _ & _ & Habs). discriminate.
  - destruct (Hf H) as (c & req & resp & Hin & Hst & Hr).
    exists c, req, resp. split; [apply in_or_app; now right|]. now split.
Qed.

Lemma faithful_scrape_website self url :
  faithful (FirecrawlService.scrape_website self url).
Proof.
  intros w. unfold FirecrawlService.scrape_website, bind, post, raise, lift,
    events_of, outcome_of.
  destruct (http_post w _) as [[e|resp] w1]; simpl; [discriminate|].
  destruct (status_code resp =? 200) eqn:Hst; simpl; rewrite Hst; simpl;
    [discriminate|].
  intros _. exists Firecrawl. do 2 eexists. split; [now left|]. now split.
Qed.

Lemma faithful_search_web self query limit :
  faithful (FirecrawlService.search_web self query limit).
Proof.
  intros w. unfold FirecrawlService.search_web, bind, post, raise, lift,
    events_of, outcome_of.
  destruct (http_post w _) as [[e|resp] w1]; simpl; [discriminate|].
  destruct (status_code resp =? 200) eqn:Hst; simpl.
  - destruct (json resp) as [e|body]; simpl; rewrite Hst; discriminate.
  - rewrite Hst. simpl.
    intros _. exists Firecrawl. do 2 eexists. split; [now left|]. now split.
Qed.

Lemma faithful_generate_text self prompt :
  faithful (GroqService.generate_text self prompt).
Proof.
  intros w.
  pose proof (generate_text_events self prompt w) as Hev. rewrite Hev.
  unfold FirecrawlService.search_web, GroqService.generate_text, bind, post, raise,
    lift, events_of, outcome_of in *.
  destruct (http_post w _) as [[e|resp] w1]; simpl; [discriminate|].
  destruct (status_code resp =? 200) eqn:Hst; simpl; [discriminate|].
  intros _. exists Groq. do 2 eexists. split; [now left|]. now split.
Qed.

Lemma faithful_summarize_content self content n :
  faithful (GroqService.summarize_content self content n).
Proof. apply faithful_generate_text. Qed.

Lemma faithful_format_results (results : list pyval) i formatted :
  faithful (format_results i results formatted).
Proof.
  intros w. destruct (format_results_pure results i formatted w) as [r Hr].
  rewrite Hr. discriminate.
Qed.

(** A handler made of a log line and a guarded faithful body: an answer
    with a status other than 200 gives the error text of the handler. *)
Lemma guarded_handler_error (msg prefix : string) (body : M pyval) (w : World) :
  faithful body ->
  existsb non_200
    (events_of ((info msg ;;
                 try_except body (fun e => ret (VStr (prefix ++ exn_str e)))) w)) = true ->
  exists c req response,
    In (HttpPost c req (inr response))
      (events_of ((info msg ;;
                   try_except body (fun e => ret (VStr (prefix ++ exn_str e)))) w))
    /\ (status_code response =? 200) = false
    /\ outcome_of ((info msg ;;
                    try_except body (fun e => ret (VStr (prefix ++ exn_str e)))) w)
       = inr (VStr (prefix ++ exn_str (upstream_error c response))).
Proof.
  intros Hbody. rewrite info_then, try_except_text.
  specialize (Hbody w). unfold events_of, outcome_of in *.
  destruct (body w) as [[r w1] t1]; simpl in *.
  destruct r as [e|a]; simpl; intros H;
    destruct (Hbody H) as (c & req & resp & Hin & Hst & Hr); [|discriminate].
  injection Hr as ->. exists c, req, resp. split; [now right|]. now split.
Qed.
End Faithful.

Create HintDb faithful.
#[export] Hint Resolve faithful_ret faithful_raise faithful_lift faithful_info
  faithful_report_progress faithful_scrape_website faithful_search_web
  faithful_generate_text faithful_summarize_content faithful_format_results
  : faithful.

Ltac faith :=
  repeat first
    [ solve [auto with faithful]
    | apply faithful_bind; [|intro]
    | apply faithful_if ].

(** C3, as stated, fails.  The scrape of the only search result is answered
    with status 500, and [research_topic] returns its report, which does not
    begin with [Error]: the failure is the inline line of that source. *)
Lemma research_topic_inlines_source_errors :
  existsb non_200
    (events_of (handle (RT := Script.runtime) Script.ctx (ResearchTopic "rust" 1)
                  Script.one_failed)) = true
  /\ outcome_of (handle (RT := Script.runtime) Script.ctx (ResearchTopic "rust" 1)
                   Script.one_failed)
     = inr (VStr (research_report (RT := Script.runtime) "rust" (VStr "final")
                    "Error analyzing http://a: Firecrawl API error: 500 - boom"))
  /\ is_error_text
       (VStr (research_report (RT := Script.runtime) "rust" (VStr "final")
                "Error analyzing http://a: Firecrawl API error: 500 - boom")) = false.
Proof. repeat split; reflexivity. Qed.

Section UpstreamErrors.
Context {RT : Runtime}.
Variable ctx : AppContext.

Lemma guarded_handler_returns (msg prefix : string) (body : M pyval) (w : World) :
  exists v,
    outcome_of ((info msg ;;
                 try_except body (fun e => ret (VStr (prefix ++ exn_str e)))) w) = inr v.
Proof.
  rewrite info_then, try_except_text. unfold outcome_of.
  destruct (body w) as [[[e|a] w1] t1]; simpl; eauto.
Qed.

Lemma handle_returns (c : call) (w : World) :
  exists v, outcome_of (handle ctx c w) = inr v.
Proof.
  destruct c; unfold handle, get_website_content, search_web, get_website_metadata,
    generate_content, summarize_text, analyze_website, research_topic; cbv zeta;
    apply guarded_handler_returns.
Qed.

Lemma handle_non_200 (c : call) (w : World) :
  is_research c = false ->
  existsb non_200 (events_of (handle ctx c w)) = true ->
  exists cl req response,
    In (HttpPost cl req (inr response)) (events_of (handle ctx c w))
    /\ (status_code response =? 200) = false
    /\ outcome_of (handle ctx c w)
       = inr (VStr (error_prefix c ++ exn_str (upstream_error cl response))).
Proof.
  intros Hc.
  destruct c; try discriminate;
    unfold handle, get_website_content, search_web, get_website_metadata,
      generate_content, summarize_text, analyze_website, error_prefix; cbv zeta;
    apply guarded_handler_error; faith.
Qed.

Lemma search_web_non_200 (query : string) (limit : Z) (w : World) response w1 :
  http_post w (FirecrawlService.search_request (firecrawl_service ctx) query limit)
    = (inr response, w1) ->
  (status_code response =? 200) = false ->
  FirecrawlService.search_web (firecrawl_service ctx) query limit w
  = (inl (FirecrawlService.api_error response), w1,
     [HttpPost Firecrawl
        (FirecrawlService.search_request (firecrawl_service ctx) query limit)
        (inr response)]).
Proof.
  intros Hpost Hst.
  unfold FirecrawlService.search_web, bind, post, raise.
  now rewrite Hpost, Hst.
Qed.

Lemma generate_text_non_200 (prompt : string) (w : World) response w1 :
  http_post w (GroqService.completion_request (groq_service ctx) prompt)
    = (inr response, w1) ->
  (status_code response =? 200) = false ->
  GroqService.generate_text (groq_service ctx) prompt w
  = (inl (GroqService.api_error response), w1,
     [HttpPost Groq (GroqService.completion_request (groq_service ctx) prompt)
        (inr response)]).
Proof.
  intros Hpost Hst.
  unfold GroqService.generate_text, bind, post, raise.
  now rewrite Hpost, Hst.
Qed.

(** Every handler is its log line and its [try] block under its [except]
    clause: what the block returns is returned, and an exception the block
    raises becomes the error text of the handler followed by [str(e)]. *)
Lemma handle_guarded (c : call) (w : World) :
  handle ctx c w
  = match handler_body ctx c w with
    | (inl e, w1, t) =>
        (inr (VStr (error_prefix c ++ exn_str e)), w1,
         LogInfo (handler_log ctx c) :: t)
    | (inr v, w1, t) => (inr v, w1, LogInfo (handler_log ctx c) :: t)
    end.
Proof.
  assert (Hguarded : handle ctx c w
            = (info (handler_log ctx c) ;;
               try_except (handler_body ctx c)
                 (fun e => ret (VStr (error_prefix c ++ exn_str e)))) w)
    by (destruct c; reflexivity).
  rewrite Hguarded, info_then, try_except_text.
  destruct (handler_body ctx c w) as [[[e|v] w1] t]; reflexivity.
Qed.

(** C3, amended.  Every resource and tool handler returns a value, whatever
    the upstream services do: when its [try] block raises an exception, be
    it the API error of an answer with a status other than 200 or any other
    exception, the handler returns its error text, [Error] and the
    operation, followed by [str(e)].  For every handler but
    [research_topic], an answer with a status other than 200 is such an
    exception; in [research_topic] so are the answers to the search and to
    the synthesis request, while an exception raised by the scrape or the
    summary of one search result does not leave the round: it is recorded
    as the inline error line of that result, and the round returns. *)
Theorem handlers_turn_upstream_errors_into_text :
  (forall c w,
     handle ctx c w
     = match handler_body ctx c w with
       | (inl e, w1, t) =>
           (inr (VStr (error_prefix c ++ exn_str e)), w1,
            LogInfo (handler_log ctx c) :: t)
       | (inr v, w1, t) => (inr v, w1, LogInfo (handler_log ctx c) :: t)
       end)
  /\ (forall c w, exists v, outcome_of (handle ctx c w) = inr v)
  /\ (forall c w,
        is_research c = false ->
        existsb non_200 (events_of (handle ctx c w)) = true ->
        exists cl req response,
          In (HttpPost cl req (inr response)) (events_of (handle ctx c w))
          /\ (status_code response =? 200) = false
          /\ outcome_of (handle ctx c w)
             = inr (VStr (error_prefix c ++ exn_str (upstream_error cl response))))
  /\ (forall topic depth w response w1,
        http_post w (FirecrawlService.search_request (firecrawl_service ctx) topic depth)
          = (inr response, w1) ->
        (status_code response =? 200) = false ->
        outcome_of (handle ctx (ResearchTopic topic depth) w)
        = inr (VStr ("Error researching topic: "
                     ++ exn_str (FirecrawlService.api_error response))))
  /\ (forall topic depth w items w1 t1 os w2 t2 response w3,
        FirecrawlService.search_web (firecrawl_service ctx) topic depth w
          = (inr (VList items), w1, t1) ->
        outcomes ctx depth 0 items w1 = (inr os, w2, t2) ->
        existsb is_recorded os = true ->
        http_post w2
          (GroqService.completion_request (groq_service ctx)
             (synthesis_prompt topic (String.concat nl (sources 0 os))))
          = (inr response, w3) ->
        (status_code response =? 200) = false ->
        outcome_of (handle ctx (ResearchTopic topic depth) w)
        = inr (VStr ("Error researching topic: "
                     ++ exn_str (GroqService.api_error response))))
  /\ (forall depth i item url research_data w e w1 t,
        py_get item "url" VNone = inr url ->
        truthy url = true ->
        source_raises ctx url w e w1 t ->
        analyze_result ctx depth i item research_data w
        = (inr (app research_data
                  ["Error analyzing " ++ py_str url ++ ": " ++ exn_str e]),
           w1,
           LogInfo ("Analyzing result " ++ str_int (i + 1) ++ ": " ++ py_str url)
           :: ReportProgress (i + 1) (depth + 1) :: t)).
Proof.
  split; [exact handle_guarded|].
  split; [exact handle_returns|]. split; [exact handle_non_200|].
  split; [|split].
  - intros topic depth w response w1 Hpost Hst.
    pose proof (search_web_non_200 topic depth w Hpost Hst) as Hsearch.
    simpl handle. now rewrite (research_topic_search_raises ctx topic depth w Hsearch).
  - intros topic depth w items w1 t1 os w2 t2 response w3 Hsearch Hos Hrec Hpost Hst.
    pose proof (outcomes_length _ _ _ _ _ Hos) as Hlen.
    assert (Htruthy : truthy (VList items) = true).
    { destruct items; [|reflexivity]. destruct os; discriminate. }
    pose proof (research_topic_run ctx topic depth w Hsearch Htruthy eq_refl Hos) as Hrun.
    pose proof (sources_recorded os 0 Hrec) as Hne.
    simpl handle. rewrite Hrun.
    destruct (sources 0 os) as [|line rd]; [congruence|].
    now rewrite (generate_text_non_200 _ w2 Hpost Hst).
  - intros depth i item url rd w e w1 t Hurl Htruthy Hraise.
    rewrite analyze_result_classify.
    now rewrite (@classify_failed RT ctx depth i item url w e w1 t Hurl Htruthy Hraise).
Qed.
End UpstreamErrors.

(** Instances of the amended C3: a 503 on the search of [research_topic], a
    404 on the scrape of [website://], a 200 completion without choices (a
    [KeyError]), a 500 on a scrape inside the loop. *)
Lemma handlers_turn_upstream_errors_into_text_witness :
  outcome_of (handle (RT := Script.runtime) Script.ctx (ResearchTopic "rust" 2)
                [Script.status 503 "busy"])
  = inr (VStr "Error researching topic: Firecrawl API error: 503 - busy")
  /\ handle (RT := Script.runtime) Script.ctx (GetWebsiteContent "http://a")
       [Script.status 404 "nope"]
     = (inr (VStr "Error scraping website: Firecrawl API error: 404 - nope"), [],
        [LogInfo "Scraping website: http://a";
         HttpPost Firecrawl
           (FirecrawlService.scrape_request (firecrawl_service Script.ctx)
              (VStr "http://a"))
           (Script.status 404 "nope")])
  /\ outcome_of (handle (RT := Script.runtime) Script.ctx (GenerateContent "hi")
                   [Script.ok (VDict [])])
     = inr (VStr "Error generating content: 'choices'")
  /\ outcome_of (analyze_result (RT := Script.runtime) Script.ctx 1 0 Script.hit_a []
                   [Script.status 500 "boom"])
     = inr ["Error analyzing http://a: Firecrawl API error: 500 - boom"].
Proof.
  pose proof (@handlers_turn_upstream_errors_into_text Script.runtime Script.ctx)
    as (Hguarded & _ & _ & Hsearch & _ & Hloop).
  split; [|split; [|split]].
  - exact (Hsearch "rust" 2 [Script.status 503 "busy"]
             {| status_code := 503; text := "busy";
                json := inl (Raise "JSONDecodeError"
                               "Expecting value: line 1 column 1 (char 0)") |}
             [] eq_refl eq_refl).
  - exact (Hguarded (GetWebsiteContent "http://a") [Script.status 404 "nope"]).
  - exact (f_equal (fun r => fst (fst r))
             (Hguarded (GenerateContent "hi") [Script.ok (VDict [])])).
  - rewrite (Hloop 1 0 Script.hit_a (VStr "http://a") [] [Script.status 500 "boom"]
               (Raise "Exception" "Firecrawl API error: 500 - boom") []
               [HttpPost Firecrawl
                  (FirecrawlService.scrape_request (firecrawl_service Script.ctx)
                     (VStr "http://a"))
                  (Script.status 500 "boom")]
               eq_refl eq_refl ltac:(apply scrape_raises; reflexivity)).
    reflexivity.
Defined.

(* ------------------------------------------------------------------ *)
(** * The requests a handler sends *)

Section Discipline.
Context {RT : Runtime}.
Variable ctx : AppContext.

Lemma disciplined_ret {A} (a : A) : disciplined ctx (ret a).
Proof. intro w. constructor. Qed.

Lemma disciplined_raise {A} (e : exn) : disciplined ctx (raise (A := A) e).
Proof. intro w. constructor. Qed.

Lemma disciplined_lift {A} (r : exn + A) : disciplined ctx (lift r).
Proof. intro w. constructor. Qed.

Lemma disciplined_info msg : disciplined ctx (info msg).
Proof. intro w. repeat constructor. Qed.

Lemma disciplined_report_progress p n : disciplined ctx (report_progress p n).
Proof. intro w. repeat constructor. Qed.

Lemma disciplined_if {A} (b : bool) (m1 m2 : M A) :
  disciplined ctx m1 -> disciplined ctx m2 -> disciplined ctx (if b then m1 else m2).
Proof. destruct b; auto. Qed.

Lemma disciplined_bind {A B} (m : M A) (f : A -> M B) :
  disciplined ctx m -> (forall a, disciplined ctx (f a)) -> disciplined ctx (bind m f).
Proof.
  intros Hm Hf w. specialize (Hm w). unfold bind, events_of in *.
  destruct (m w) as [[[e|a] w1] t1]; simpl in *; [exact Hm|].
  specialize (Hf a w1). destruct (f a w1) as [[r w2] t2]; simpl in *.
  apply Forall_app. now split.
Qed.

Lemma disciplined_try {A} (body : M A) handler :
  disciplined ctx body -> (forall e, disciplined ctx (handler e)) ->
  disciplined ctx (try_except body handler).
Proof.
  intros Hb Hh w. specialize (Hb w). unfold try_except, events_of in *.
  destruct (body w) as [[[e|a] w1] t1]; simpl in *; [|exact Hb].
  specialize (Hh e w1). destruct (handler e w1) as [[r w2] t2]; simpl in *.
  apply Forall_app. now split.
Qed.

Lemma disciplined_scrape_website url :
  disciplined ctx (FirecrawlService.scrape_website (firecrawl_service ctx) url).
Proof.
  intro w. rewrite scrape_website_events.
  constructor; [|constructor]. left. now exists url.
Qed.

Lemma disciplined_search_web query limit :
  disciplined ctx (FirecrawlService.search_web (firecrawl_service ctx) query limit).
Proof.
  intro w. rewrite search_web_events.
  constructor; [|constructor]. right. now exists query, limit.
Qed.

Lemma disciplined_generate_text prompt :
  disciplined ctx (GroqService.generate_text (groq_service ctx) prompt).
Proof.
  intro w. rewrite generate_text_events.
  constructor; [|constructor]. now exists prompt.
Qed.

Lemma disciplined_summarize_content content n :
  disciplined ctx (GroqService.summarize_content (groq_service ctx) content n).
Proof. apply disciplined_generate_text. Qed.

Lemma disciplined_format_results (results : list pyval) i formatted :
  disciplined ctx (format_results i results formatted).
Proof.
  intro w. destruct (format_results_pure results i formatted w) as [r Hr].
  rewrite Hr. constructor.
Qed.
End Discipline.

Create HintDb disciplined.
#[export] Hint Resolve disciplined_ret disciplined_raise disciplined_lift
  disciplined_info disciplined_report_progress disciplined_scrape_website
  disciplined_search_web disciplined_generate_text disciplined_summarize_content
  disciplined_format_results : disciplined.

Ltac discipline :=
  repeat first
    [ solve [auto with disciplined]
    | apply disciplined_bind; [|intro]
    | apply disciplined_try; [|intro]
    | apply disciplined_if ].

Section DisciplineHandlers.
Context {RT : Runtime}.
Variable ctx : AppContext.

Lemma disciplined_analyze_result depth i result research_data :
  disciplined ctx (analyze_result ctx depth i result research_data).
Proof. unfold analyze_result. discipline. Qed.

Lemma disciplined_research_loop depth (results : list pyval) : forall i research_data,
  disciplined ctx (research_loop ctx depth i results research_data).
Proof.
  induction results as [|result rest IH]; intros i rd; simpl.
  - auto with disciplined.
  - apply disciplined_bind; [apply disciplined_analyze_result|intro; apply IH].
Qed.

Lemma disciplined_handle (c : call) : disciplined ctx (handle ctx c).
Proof.
  destruct c; unfold handle, get_website_content, search_web, get_website_metadata,
    generate_content, summarize_text, analyze_website, research_topic; cbv zeta;
    discipline.
  - apply disciplined_research_loop.
  - match goal with
    | |- disciplined _ (match ?rd with _ => _ end) => destruct rd
    end; discipline.
Qed.

(** X1. Whatever a resource or a tool is asked and whatever the services
    answer, every request the handler sends has the timeout 60 (the
    [request_timeout] of the configuration is not consulted) and the two
    headers of its client; a Firecrawl request goes to [/scrape] or
    [/search] of the Firecrawl base URL with the Firecrawl key, a Groq
    request goes to [/chat/completions] of the Groq base URL with the Groq
    key: a key never travels to the other service. *)
Theorem handle_sends_only_its_own_requests (c : call) (w : World)
    (cl : client) (req : Request) (answer : exn + Response) :
  In (HttpPost cl req answer) (events_of (handle ctx c w)) ->
  req_timeout req = 60
  /\ header "Content-Type" (req_headers req) = Some "application/json"
  /\ match cl with
     | Firecrawl =>
         header "Authorization" (req_headers req)
         = Some ("Bearer " ++ FirecrawlService.api_key (firecrawl_service ctx))
         /\ (req_url req = FirecrawlService.base_url (firecrawl_service ctx) ++ "/scrape"
             \/ req_url req
                = FirecrawlService.base_url (firecrawl_service ctx) ++ "/search")
     | Groq =>
         header "Authorization" (req_headers req)
         = Some ("Bearer " ++ GroqService.api_key (groq_service ctx))
         /\ req_url req
            = GroqService.base_url (groq_service ctx) ++ "/chat/completions"
     end.
Proof.
  intros Hin.
  pose proof (disciplined_handle c w) as Hall.
  rewrite Forall_forall in Hall. specialize (Hall _ Hin).
  destruct cl; simpl in Hall.
  - destruct Hall as [[url ->]|(query & limit & ->)]; simpl; auto.
  - destruct Hall as [prompt ->]. simpl. auto.
Qed.
End DisciplineHandlers.

(** An instance of X1: the synthesis request of a research call. *)
Lemma handle_sends_only_its_own_requests_witness :
  In (HttpPost Groq
        (GroqService.completion_request (groq_service Script.ctx)
           (synthesis_prompt "rust"
              "Error analyzing http://a: Firecrawl API error: 500 - boom"))
        (Script.completion "final"))
     (events_of (handle (RT := Script.runtime) Script.ctx (ResearchTopic "rust" 1)
                   Script.one_failed))
  /\ header "Authorization"
       (req_headers
          (GroqService.completion_request (groq_service Script.ctx)
             (synthesis_prompt "rust"
                "Error analyzing http://a: Firecrawl API error: 500 - boom")))
     = Some "Bearer gk".
Proof.
  assert (Hin : In (HttpPost Groq
        (GroqService.completion_request (groq_service Script.ctx)
           (synthesis_prompt "rust"
              "Error analyzing http://a: Firecrawl API error: 500 - boom"))
        (Script.completion "final"))
     (events_of (handle (RT := Script.runtime) Script.ctx (ResearchTopic "rust" 1)
                   Script.one_failed))).
  { simpl. do 7 right. left. reflexivity. }
  split; [exact Hin|].
  exact (proj1 (proj2 (proj2 (@handle_sends_only_its_own_requests Script.runtime
                                Script.ctx (ResearchTopic "rust" 1) Script.one_failed
                                Groq _ _ Hin)))).
Defined.

Section LifespanRequests.
Context {RT : Runtime}.

(** X2. With the context [app_lifespan] yields for an environment, every
    request of every handler is authorized with the key that environment
    holds for the service it goes to, goes to the fixed URL of that service,
    and a Groq request names the model of [GROQ_MODEL], taken as it is even
    when empty, or [llama3-70b-8192] when the variable is absent, with
    temperature 0.7 and at most 1024 tokens. *)
Theorem lifespan_context_requests (env : environ) (printed : list string)
    (context : AppContext) (c : call) (w : World)
    (cl : client) (req : Request) (answer : exn + Response) :
  app_lifespan env = (printed, inr context) ->
  In (HttpPost cl req answer) (events_of (handle context c w)) ->
  match cl with
  | Firecrawl =>
      exists key,
        env "FIRECRAWL_API_KEY" = Some key
        /\ header "Authorization" (req_headers req) = Some ("Bearer " ++ key)
        /\ (req_url req = "https://api.firecrawl.com/v1/scrape"
            \/ req_url req = "https://api.firecrawl.com/v1/search")
  | Groq =>
      exists key fields,
        env "GROQ_API_KEY" = Some key
        /\ header "Authorization" (req_headers req) = Some ("Bearer " ++ key)
        /\ req_url req = "https://api.groq.com/v1/chat/completions"
        /\ req_json req = VDict fields
        /\ lookup "model" fields
           = Some (VStr (match env "GROQ_MODEL" with
                         | Some m => m
                         | None => "llama3-70b-8192"
                         end))
        /\ lookup "temperature" fields = Some (VFloat true "0.7")
        /\ lookup "max_tokens" fields = Some (VInt 1024)
  end.
Proof.
  intros Hlife Hin.
  pose proof (disciplined_handle context c w) as Hall.
  rewrite Forall_forall in Hall. specialize (Hall _ Hin).
  unfold app_lifespan in Hlife.
  destruct (env "GROQ_API_KEY") as [[|g gs]|] eqn:Hg; simpl in Hlife;
    try discriminate.
  destruct (env "FIRECRAWL_API_KEY") as [[|f fs]|] eqn:Hf; simpl in Hlife;
    try discriminate.
  injection Hlife as _ <-.
  destruct cl; simpl in Hall.
  - exists (String f fs). split; [reflexivity|].
    destruct Hall as [[url ->]|(query & limit & ->)]; simpl; auto.
  - destruct Hall as [prompt ->].
    exists (String g gs). eexists. split; [reflexivity|].
    simpl. repeat split; reflexivity.
Qed.
End LifespanRequests.

(** An instance of X2: [GROQ_MODEL] set to the empty string. *)
Lemma lifespan_context_requests_witness :
  exists key fields,
    Some "gk" = Some key
    /\ header "Authorization"
         (req_headers
            (GroqService.completion_request (GroqService.init "gk" EmptyString) "hi"))
       = Some ("Bearer " ++ key)
    /\ req_url (GroqService.completion_request (GroqService.init "gk" EmptyString) "hi")
       = "https://api.groq.com/v1/chat/completions"
    /\ req_json (GroqService.completion_request (GroqService.init "gk" EmptyString) "hi")
       = VDict fields
    /\ lookup "model" fields = Some (VStr EmptyString)
    /\ lookup "temperature" fields = Some (VFloat true "0.7")
    /\ lookup "max_tokens" fields = Some (VInt 1024).
Proof.
  exact (@lifespan_context_requests Script.runtime
           (fun name => if (name =? "GROQ_MODEL")%string then Some EmptyString
                        else Script.env name)
           ["Initialized MCP server with Groq model: "]
           {| config := new_AppConfig "gk" "fk" EmptyString;
              groq_service := GroqService.init "gk" EmptyString;
              firecrawl_service := FirecrawlService.init "fk" |}
           (GenerateContent "hi") [Script.completion "ok"]
           Groq
           (GroqService.completion_request (GroqService.init "gk" EmptyString) "hi")
           (Script.completion "ok")
           eq_refl (or_intror (or_introl eq_refl))).
Defined.

(* ------------------------------------------------------------------ *)
(** * How many requests a call costs *)

Section Budget.
Context {RT : Runtime}.
Variable ctx : AppContext.

Lemma count_posts_app (t1 t2 : list event) :
  count_posts (t1 ++ t2)%list = (count_posts t1 + count_posts t2)%nat.
Proof. unfold count_posts. now rewrite filter_app, length_app. Qed.

Lemma count_posts_quiet_cons (e : event) (t : list event) :
  is_post e = false -> count_posts (e :: t) = count_posts t.
Proof. intros He. unfold count_posts. simpl. now rewrite He. Qed.

Lemma eventless_ret {A} (a : A) : eventless (ret a).
Proof. intro w. reflexivity. Qed.

Lemma eventless_lift {A} (r : exn + A) : eventless (lift r).
Proof. intro w. reflexivity. Qed.

Lemma eventless_bind {A B} (m : M A) (f : A -> M B) :
  eventless m -> (forall a, eventless (f a)) -> eventless (bind m f).
Proof.
  intros Hm Hf w. specialize (Hm w). unfold bind, events_of in *.
  destruct (m w) as [[[e|a] w1] t1]; simpl in *; [exact Hm|].
  specialize (Hf a w1). destruct (f a w1) as [[r w2] t2]; simpl in *.
  now subst.
Qed.

Lemma eventless_format_results (results : list pyval) i formatted :
  eventless (format_results i results formatted).
Proof.
  intro w. destruct (format_results_pure results i formatted w) as [r Hr].
  now rewrite Hr.
Qed.

(** One request, then a continuation that leaves no event. *)
Lemma bind_eventless {A B} (m : M A) (f : A -> M B) (w : World) :
  (forall a, eventless (f a)) ->
  events_of (bind m f w) = events_of (m w).
Proof.
  intros Hf. unfold bind, events_of.
  destruct (m w) as [[[e|a] w1] t1]; simpl; [reflexivity|].
  specialize (Hf a w1). unfold events_of in Hf.
  destruct (f a w1) as [[r w2] t2]; simpl in *. subst. now rewrite app_nil_r.
Qed.

(** The events of a guarded handler: its log line, then those of its body. *)
Lemma guarded_handler_events (msg prefix : string) (body : M pyval) (w : World) :
  events_of ((info msg ;;
              try_except body (fun e => ret (VStr (prefix ++ exn_str e)))) w)
  = LogInfo msg :: events_of (body w).
Proof.
  rewrite info_then, try_except_text. unfold events_of.
  destruct (body w) as [[[e|a] w1] t1]; reflexivity.
Qed.

(** X3. A read of [website://], [search://] or [metadata://] and a call of
    [generate_content] or [summarize_text] log one line and send exactly one
    request, answered by the service once: whatever the answer, nothing is
    sent again. *)
Theorem single_request_handlers (c : call) (w : World) :
  single_request c = true ->
  exists msg cl req,
    events_of (handle ctx c w) = [LogInfo msg; HttpPost cl req (fst (http_post w req))]
    /\ count_posts (events_of (handle ctx c w)) = 1%nat.
Proof.
  intros Hc.
  destruct c; try discriminate;
    unfold handle, get_website_content, search_web, get_website_metadata,
      generate_content, summarize_text; cbv zeta;
    rewrite guarded_handler_events.
  - rewrite bind_eventless by (intro; apply eventless_lift).
    rewrite scrape_website_events. do 3 eexists. split; reflexivity.
  - rewrite bind_eventless.
    + rewrite search_web_events. do 3 eexists. split; reflexivity.
    + intro. apply eventless_bind; [apply eventless_lift|intro].
      apply eventless_bind; [apply eventless_format_results|intro].
      apply eventless_ret.
  - rewrite bind_eventless.
    + rewrite scrape_website_events. do 3 eexists. split; reflexivity.
    + intro. repeat (apply eventless_bind; [apply eventless_lift|intro]).
      apply eventless_ret.
  - rewrite generate_text_events. do 3 eexists. split; reflexivity.
  - unfold GroqService.summarize_content. cbv zeta.
    rewrite generate_text_events. do 3 eexists. split; reflexivity.
Qed.
End Budget.

(** An instance of X3: a metadata read answered with status 404. *)
Lemma single_request_handlers_witness :
  exists msg cl req,
    events_of (handle (RT := Script.runtime) Script.ctx
                 (GetWebsiteMetadata "http://a") [Script.status 404 "nope"])
    = [LogInfo msg;
       HttpPost cl req
         (fst (http_post (Runtime := Script.runtime) [Script.status 404 "nope"] req))]
    /\ count_posts
         (events_of (handle (RT := Script.runtime) Script.ctx
                       (GetWebsiteMetadata "http://a") [Script.status 404 "nope"]))
       = 1%nat.
Proof.
  exact (@single_request_handlers Script.runtime Script.ctx
           (GetWebsiteMetadata "http://a") [Script.status 404 "nope"] eq_refl).
Defined.

Section BudgetFacts.
Context {RT : Runtime}.

Lemma within_ret {A} (a : A) n : within n (ret a).
Proof. intro w. apply Nat.le_0_l. Qed.

Lemma within_raise {A} (e : exn) n : within n (raise (A := A) e).
Proof. intro w. apply Nat.le_0_l. Qed.

Lemma within_lift {A} (r : exn + A) n : within n (lift r).
Proof. intro w. apply Nat.le_0_l. Qed.

Lemma within_info msg n : within n (info msg).
Proof. intro w. apply Nat.le_0_l. Qed.

Lemma within_report_progress p total n : within n (report_progress p total).
Proof. intro w. apply Nat.le_0_l. Qed.

Lemma within_if {A} (b : bool) (m1 m2 : M A) n :
  within n m1 -> within n m2 -> within n (if b then m1 else m2).
Proof. destruct b; auto. Qed.

Lemma within_bind {A B} (m : M A) (f : A -> M B) n1 n2 :
  within n1 m -> (forall a, within n2 (f a)) -> within (n1 + n2) (bind m f).
Proof.
  intros Hm Hf w. specialize (Hm w). unfold bind, events_of in *.
  destruct (m w) as [[[e|a] w1] t1]; simpl in *; [lia|].
  specialize (Hf a w1). destruct (f a w1) as [[r w2] t2]; simpl in *.
  rewrite count_posts_app. lia.
Qed.

Lemma within_bind_free {A B} (m : M A) (f : A -> M B) n :
  within 0 m -> (forall a, within n (f a)) -> within n (bind m f).
Proof. intros Hm Hf. apply (@within_bind A B m f 0 n); assumption. Qed.

Lemma within_bind_paid {A B} (m : M A) (f : A -> M B) n :
  within 1 m -> (forall a, within n (f a)) -> within (S n) (bind m f).
Proof. intros Hm Hf. apply (@within_bind A B m f 1 n); assumption. Qed.

Lemma within_try {A} (body : M A) handler n :
  within n body -> (forall e, within 0 (handler e)) -> within n (try_except body handler).
Proof.
  intros Hb Hh w. specialize (Hb w). unfold try_except, events_of in *.
  destruct (body w) as [[[e|a] w1] t1]; simpl in *; [|exact Hb].
  specialize (Hh e w1). destruct (handler e w1) as [[r w2] t2]; simpl in *.
  rewrite count_posts_app. lia.
Qed.

Lemma within_scrape_website self url :
  within 1 (FirecrawlService.scrape_website self url).
Proof. intro w. now rewrite scrape_website_events. Qed.

Lemma within_search_web self query limit :
  within 1 (FirecrawlService.search_web self query limit).
Proof. intro w. now rewrite search_web_events. Qed.

Lemma within_generate_text self prompt :
  within 1 (GroqService.generate_text self prompt).
Proof. intro w. now rewrite generate_text_events. Qed.

Lemma within_summarize_content self content n :
  within 1 (GroqService.summarize_content self content n).
Proof. apply within_generate_text. Qed.

Lemma events_info_then {A} (msg : string) (k : M A) (w : World) :
  events_of ((info msg ;; k) w) = LogInfo msg :: events_of (k w).
Proof. rewrite info_then. unfold events_of. now destruct (k w) as [[r w'] t]. Qed.

Lemma events_report_progress_then {A} (p n : Z) (k : M A) (w : World) :
  events_of ((report_progress p n ;; k) w) = ReportProgress p n :: events_of (k w).
Proof.
  rewrite report_progress_then. unfold events_of. now destruct (k w) as [[r w'] t].
Qed.

Lemma events_bind_returned {A B} (m : M A) (f : A -> M B) w a w1 t1 :
  m w = (inr a, w1, t1) ->
  events_of (bind m f w) = (t1 ++ events_of (f a w1))%list.
Proof.
  intros Hm. unfold bind, events_of. rewrite Hm.
  now destruct (f a w1) as [[r w2] t2].
Qed.

Lemma events_bind_raised {A B} (m : M A) (f : A -> M B) w e w1 t1 :
  m w = (inl e, w1, t1) ->
  events_of (bind m f w) = t1.
Proof. intros Hm. unfold bind, events_of. now rewrite Hm. Qed.
End BudgetFacts.

Create HintDb within.
#[export] Hint Resolve within_ret within_raise within_lift within_info
  within_report_progress within_scrape_website within_search_web
  within_generate_text within_summarize_content : within.

Ltac budget :=
  first
    [ solve [auto with within]
    | apply within_if; budget
    | apply within_try; [budget | intro; budget]
    | apply within_bind_free; [solve [budget] | intro; budget]
    | apply within_bind_paid; [solve [budget] | intro; budget] ].

Section BudgetTheorems.
Context {RT : Runtime}.
Variable ctx : AppContext.

Lemma within_analyze_result depth i result research_data :
  within 2 (analyze_result ctx depth i result research_data).
Proof. unfold analyze_result. budget. Qed.

Lemma within_research_loop depth (results : list pyval) : forall i research_data,
  within (2 * List.length results) (research_loop ctx depth i results research_data).
Proof.
  induction results as [|result rest IH]; intros i rd.
  - simpl. auto with within.
  - replace (2 * List.length (result :: rest))%nat
      with (2 + 2 * List.length rest)%nat by (simpl; lia).
    simpl research_loop.
    apply within_bind; [apply within_analyze_result|intro; apply IH].
Qed.

(** X4. [analyze_website] always sends the scrape request first, and at
    most one more request; without summary it sends the scrape request
    only. *)
Theorem analyze_website_request_budget (url : string) (include_summary : bool)
    (w : World) :
  (exists rest,
     events_of (analyze_website ctx url include_summary w)
     = LogInfo ("Analyzing website: " ++ url)
       :: ReportProgress 0 3
       :: HttpPost Firecrawl
            (FirecrawlService.scrape_request (firecrawl_service ctx) (VStr url))
            (fst (http_post w (FirecrawlService.scrape_request
                                 (firecrawl_service ctx) (VStr url))))
       :: rest)
  /\ (1 <= count_posts (events_of (analyze_website ctx url include_summary w))
      <= if include_summary then 2 else 1)%nat.
Proof.
  assert (Hfirst : exists rest,
     events_of (analyze_website ctx url include_summary w)
     = LogInfo ("Analyzing website: " ++ url)
       :: ReportProgress 0 3
       :: HttpPost Firecrawl
            (FirecrawlService.scrape_request (firecrawl_service ctx) (VStr url))
            (fst (http_post w (FirecrawlService.scrape_request
                                 (firecrawl_service ctx) (VStr url))))
       :: rest).
  { unfold analyze_website.
    rewrite guarded_handler_events, events_report_progress_then.
    pose proof (scrape_website_events (firecrawl_service ctx) (VStr url) w) as Hev.
    destruct (FirecrawlService.scrape_website (firecrawl_service ctx) (VStr url) w)
      as [[[e|sr] w1] t1] eqn:Hsc; unfold events_of in Hev; simpl in Hev; subst t1.
    - erewrite events_bind_raised by exact Hsc. now exists [].
    - erewrite events_bind_returned by exact Hsc. eexists. reflexivity. }
  split; [exact Hfirst|]. split.
  - destruct Hfirst as [rest ->]. unfold count_posts. simpl. lia.
  - revert w Hfirst. intros w _. revert w.
    change (within (if include_summary then 2 else 1)
              (analyze_website ctx url include_summary)).
    unfold analyze_website. destruct include_summary; simpl andb; budget.
Qed.

(** X5. After a search that returned [n] results, [research_topic] sends
    at most [2 n + 2] requests in all, the search included: one scrape and
    one summary per result at most, and one synthesis.  This holds however
    the rounds end, also when the loop is cut short by an exception. *)
Theorem research_topic_request_budget (topic : string) (depth : Z) (w : World)
    results w1 t1 items :
  FirecrawlService.search_web (firecrawl_service ctx) topic depth w
    = (inr results, w1, t1) ->
  py_iter results = inr items ->
  (1 <= count_posts (events_of (research_topic ctx topic depth w))
   <= 2 * List.length items + 2)%nat.
Proof.
  intros Hsearch Hiter.
  pose proof (search_web_events (firecrawl_service ctx) topic depth w) as Ht1.
  rewrite Hsearch in Ht1. unfold events_of in Ht1. simpl in Ht1.
  unfold research_topic.
  rewrite guarded_handler_events, events_info_then, events_report_progress_then.
  erewrite events_bind_returned by exact Hsearch.
  assert (Hone : count_posts t1 = 1%nat) by (now subst t1).
  destruct (truthy results); cbn [negb].
  - assert (Hrest : within (2 * List.length items + 1)
              (research_data <- research_loop ctx depth 0 items [] ;;
               match research_data with
               | [] => ret (VStr ("Could not gather meaningful research data on topic: "
                                  ++ topic))
               | _ :: _ =>
                   final_analysis <-
                     GroqService.generate_text (groq_service ctx)
                       (synthesis_prompt topic (String.concat nl research_data)) ;;
                   ret (VStr (research_report topic final_analysis
                                (String.concat nl research_data)))
               end)).
    { apply within_bind; [apply within_research_loop|intros rd].
      destruct rd; budget. }
    erewrite events_bind_returned by (unfold lift; rewrite Hiter; reflexivity).
    specialize (Hrest w1).
    rewrite !count_posts_quiet_cons by reflexivity.
    rewrite !count_posts_app, Hone.
    change (count_posts []) with 0%nat. lia.
  - unfold ret, events_of at 2. cbn [snd].
    rewrite !count_posts_quiet_cons by reflexivity.
    rewrite ?app_nil_r, Hone. lia.
Qed.
End BudgetTheorems.

(** An instance of X5: two results, both gathered, cost six requests. *)
Lemma research_topic_request_budget_witness :
  (1 <= count_posts
          (events_of (research_topic (RT := Script.runtime) Script.ctx "rust" 2
                        Script.two_sources))
   <= 2 * 2 + 2)%nat
  /\ count_posts
       (events_of (research_topic (RT := Script.runtime) Script.ctx "rust" 2
                     Script.two_sources)) = 6%nat.
Proof.
  split; [|reflexivity].
  exact (@research_topic_request_budget Script.runtime Script.ctx "rust" 2
           Script.two_sources (VList [Script.hit_a; Script.hit_b]) _ _
           [Script.hit_a; Script.hit_b] eq_refl eq_refl).
Defined.

(* ------------------------------------------------------------------ *)
(** * The report of [analyze_website] *)

Section AnalyzeFacts.
Context {RT : Runtime}.
Variable ctx : AppContext.

Lemma bind_returned {A B} (m : M A) (f : A -> M B) w a w1 t1 :
  m w = (inr a, w1, t1) ->
  bind m f w = match f a w1 with (r, w2, t2) => (r, w2, (t1 ++ t2)%list) end.
Proof. intros Hm. unfold bind. now rewrite Hm. Qed.

Lemma bind_raised {A B} (m : M A) (f : A -> M B) w e w1 t1 :
  m w = (inl e, w1, t1) ->
  bind m f w = (inl e, w1, t1).
Proof. intros Hm. unfold bind. now rewrite Hm. Qed.

Lemma bind_lift {A B} (r : exn + A) (f : A -> M B) w :
  bind (lift r) f w = match r with inl e => (inl e, w, []) | inr a => f a w end.
Proof.
  unfold bind, lift. destruct r as [e|a]; [reflexivity|].
  now destruct (f a w) as [[r w2] t2].
Qed.

(** X6. When the scraped page has no text (the entry is absent, empty or
    otherwise falsy), asking [analyze_website] for a summary changes
    nothing: the call is the one made with [include_summary=False], with no
    request to the generation client and no 2/3 progress. *)
Theorem analyze_website_without_text (url : string) (include_summary : bool)
    (w : World) scrape_result w1 t content :
  FirecrawlService.scrape_website (firecrawl_service ctx) (VStr url) w
    = (inr scrape_result, w1, t) ->
  py_get scrape_result "text" (VStr EmptyString) = inr content ->
  truthy content = false ->
  analyze_website ctx url include_summary w = analyze_website ctx url false w
  /\ filter is_generation (events_of (analyze_website ctx url include_summary w)) = []
  /\ ~ In (ReportProgress 2 3) (events_of (analyze_website ctx url include_summary w)).
Proof.
  intros Hsc Hget Htruthy.
  assert (Hsame : analyze_website ctx url include_summary w
                  = analyze_website ctx url false w).
  { destruct include_summary; [|reflexivity].
    unfold analyze_website.
    rewrite !info_then, !try_except_text, !report_progress_then.
    repeat match goal with
           | |- context [bind (FirecrawlService.scrape_website ?s ?u) ?f w] =>
               rewrite (@bind_returned _ _ (FirecrawlService.scrape_website s u)
                          f w _ _ _ Hsc)
           end.
    rewrite !bind_lift, Hget. cbv beta.
    rewrite Htruthy. reflexivity. }
  split; [exact Hsame|]. rewrite Hsame. split.
  - revert w Hsc Hsame. intros w _ _. revert w.
    change (silent (analyze_website ctx url false)).
    unfold analyze_website. simpl andb. silence.
  - destruct (analyze_website_in_order ctx url false w)
      as (b & c & a1 & a2 & rest & Hsteps & Hb).
    intros Hin.
    assert (Hin' : In (ReportProgress 2 3)
                     (analyze_website_steps ctx url b c a1 a2)).
    { rewrite Hsteps. apply in_or_app. now left. }
    destruct b; [now specialize (Hb eq_refl)|].
    simpl in Hin'.
    repeat (destruct Hin' as [Hin'|Hin']; [discriminate|]). exact Hin'.
Qed.
End AnalyzeFacts.

(** An instance of X6: a page whose text is the empty string; the
    completion held ready is not consumed. *)
Lemma analyze_website_without_text_witness :
  analyze_website (RT := Script.runtime) Script.ctx "http://a" true
    [Script.page EmptyString; Script.completion "unused"]
  = analyze_website (RT := Script.runtime) Script.ctx "http://a" false
      [Script.page EmptyString; Script.completion "unused"]
  /\ fst (analyze_website (RT := Script.runtime) Script.ctx "http://a" true
            [Script.page EmptyString; Script.completion "unused"])
     = (inr (VStr (String.concat nl
                     ["Website Analysis: http://a"; "Title: T";
                      "Description: No description";
                      "Content Length: 0 characters"; "Links Found: 1"])),
        [Script.completion "unused"]).
Proof.
  split; [|reflexivity].
  exact (proj1 (@analyze_website_without_text Script.runtime Script.ctx
                  "http://a" true
                  [Script.page EmptyString; Script.completion "unused"]
                  _ _ _ (VStr EmptyString) eq_refl eq_refl eq_refl)).
Defined.

Section AnalyzeReport.
Context {RT : Runtime}.
Variable ctx : AppContext.

Lemma py_get_dict (d : list (string * pyval)) (key : string) (default : pyval) :
  py_get (VDict d) key default = inr (entry key default d).
Proof. reflexivity. Qed.

Lemma py_len_str (s : string) : py_len (VStr s) = inr (Z.of_nat (String.length s)).
Proof. reflexivity. Qed.

Lemma py_len_list (l : list pyval) : py_len (VList l) = inr (Z.of_nat (List.length l)).
Proof. reflexivity. Qed.

(** X7. For a scraped page that is a dict whose text is a string, whose
    metadata is a dict (or absent) and whose links are a list (or absent):
    without summary, or with an empty text, [analyze_website] returns the
    five report lines; with a summary it returns them followed by the
    summary when the completion is a string, the error text of the join
    when it is not (sequence item 6), and the error text of the exception
    when the summary request fails: the scraped report is then lost. *)
Theorem analyze_website_report (url : string) (include_summary : bool) (w : World)
    page w1 t1 text metadata links :
  FirecrawlService.scrape_website (firecrawl_service ctx) (VStr url) w
    = (inr (VDict page), w1, t1) ->
  entry "text" (VStr EmptyString) page = VStr text ->
  entry "metadata" (VDict []) page = VDict metadata ->
  entry "links" (VList []) page = VList links ->
  (include_summary && truthy (VStr text) = false ->
   outcome_of (analyze_website ctx url include_summary w)
   = inr (VStr (String.concat nl
                  (analysis_lines url metadata (Z.of_nat (String.length text))
                     (Z.of_nat (List.length links))))))
  /\ (forall r w2 t2,
        include_summary && truthy (VStr text) = true ->
        GroqService.summarize_content (groq_service ctx) (VStr text) 500 w1
          = (r, w2, t2) ->
        outcome_of (analyze_website ctx url include_summary w)
        = inr (VStr
                 match r with
                 | inl e => "Error analyzing website: " ++ exn_str e
                 | inr (VStr summary) =>
                     String.concat nl
                       (app (analysis_lines url metadata
                               (Z.of_nat (String.length text))
                               (Z.of_nat (List.length links)))
                            [nl ++ "Summary:"; summary])
                 | inr other =>
                     "Error analyzing website: sequence item 6: expected str instance, "
                     ++ type_name other ++ " found"
                 end)).
Proof.
  intros Hsc Htext Hmeta Hlinks.
  assert (Hrun : analyze_website ctx url include_summary w
    = match
        (analysis <-
           (if include_summary && truthy (VStr text) then
              report_progress 2 3 ;;
              summary <- GroqService.summarize_content (groq_service ctx)
                           (VStr text) 500 ;;
              ret (app (map VStr (analysis_lines url metadata
                                    (Z.of_nat (String.length text))
                                    (Z.of_nat (List.length links))))
                     [VStr (nl ++ "Summary:"); summary])
            else ret (map VStr (analysis_lines url metadata
                                  (Z.of_nat (String.length text))
                                  (Z.of_nat (List.length links))))) ;;
         report_progress 3 3 ;;
         joined <- lift (py_join nl analysis) ;;
         ret (VStr joined)) w1
      with
      | (inl e, w2, t2) =>
          (inr (VStr ("Error analyzing website: " ++ exn_str e)), w2,
           LogInfo ("Analyzing website: " ++ url) :: ReportProgress 0 3
           :: (t1 ++ ReportProgress 1 3 :: t2)%list)
      | (inr v, w2, t2) =>
          (inr v, w2,
           LogInfo ("Analyzing website: " ++ url) :: ReportProgress 0 3
           :: (t1 ++ ReportProgress 1 3 :: t2)%list)
      end).
  { unfold analyze_website.
    rewrite info_then, try_except_text, report_progress_then.
    erewrite bind_returned by exact Hsc.
    repeat (progress (rewrite ?bind_lift, ?py_get_dict, ?Htext, ?Hmeta, ?Hlinks,
                        ?report_progress_then, ?py_len_str, ?py_len_list;
                      cbv beta iota)).
    unfold analysis_lines. cbn [map].
    match goal with
    | |- context [bind ?m ?f w1] => destruct (bind m f w1) as [[[e|v] w2] t2]
    end; reflexivity. }
  split.
  - intros Hno. rewrite Hrun, Hno.
    erewrite bind_returned by reflexivity.
    rewrite report_progress_then, bind_lift. reflexivity.
  - intros r w2 t2 Hyes Hsum. rewrite Hrun, Hyes.
    destruct r as [e|summary].
    + erewrite bind_raised; [reflexivity|].
      rewrite report_progress_then. erewrite bind_raised; [reflexivity|exact Hsum].
    + erewrite bind_returned.
      2:{ rewrite report_progress_then. erewrite bind_returned by exact Hsum.
          reflexivity. }
      rewrite report_progress_then, bind_lift.
      destruct summary; reflexivity.
Qed.
End AnalyzeReport.

(** An instance of X7: the completion of the summary has a null content,
    and the report is replaced by the error text of the join. *)
Lemma analyze_website_report_witness :
  outcome_of (analyze_website (RT := Script.runtime) Script.ctx "http://a" true
                [Script.page "hello";
                 Script.ok (VDict [("choices",
                                    VList [VDict [("message",
                                                   VDict [("content", VNone)])]])])])
  = inr (VStr "Error analyzing website: sequence item 6: expected str instance, NoneType found")
  /\ outcome_of (analyze_website (RT := Script.runtime) Script.ctx "http://a" true
                   [Script.page "hello"; Script.completion "short"])
     = inr (VStr (String.concat nl
                    ["Website Analysis: http://a"; "Title: T";
                     "Description: No description";
                     "Content Length: 5 characters"; "Links Found: 1";
                     nl ++ "Summary:"; "short"])).
Proof.
  split.
  - exact (proj2 (@analyze_website_report Script.runtime Script.ctx "http://a" true
                    [Script.page "hello";
                     Script.ok (VDict [("choices",
                                        VList [VDict [("message",
                                                       VDict [("content", VNone)])]])])]
                    _ _ _ "hello" [("title", VStr "T")] [VStr "https://l"]
                    eq_refl eq_refl eq_refl eq_refl)
             (inr VNone) [] _ eq_refl eq_refl).
  - exact (proj2 (@analyze_website_report Script.runtime Script.ctx "http://a" true
                    [Script.page "hello"; Script.completion "short"]
                    _ _ _ "hello" [("title", VStr "T")] [VStr "https://l"]
                    eq_refl eq_refl eq_refl eq_refl)
             (inr (VStr "short")) [] _ eq_refl eq_refl).
Defined.

(* ------------------------------------------------------------------ *)
(** * The listing of [search_web] *)

Section Listing.
Context {RT : Runtime}.
Variable ctx : AppContext.

Lemma format_results_dicts (items : list pyval) : forall i formatted w,
  forallb is_dict items = true ->
  format_results i items formatted w
  = (inr (app formatted (hit_lines i items)), w, []).
Proof.
  induction items as [|item rest IH]; intros i formatted w Hdict; simpl in Hdict.
  - simpl. unfold ret. now rewrite app_nil_r.
  - apply andb_prop in Hdict as [Hitem Hrest].
    destruct item; try discriminate.
    cbn [format_results hit_lines].
    repeat (progress (rewrite ?bind_lift, ?py_get_dict; cbv beta iota)).
    rewrite (IH (i + 1) _ w Hrest). unfold hit_block. now rewrite <- app_assoc.
Qed.

Lemma format_results_not_dict (pre : list pyval) : forall i formatted w x post,
  forallb is_dict pre = true ->
  is_dict x = false ->
  format_results i (pre ++ x :: post)%list formatted w
  = (inl (Raise "AttributeError"
            ("'" ++ type_name x ++ "' object has no attribute 'get'")), w, []).
Proof.
  induction pre as [|item rest IH]; intros i formatted w x post Hdict Hx;
    simpl in Hdict.
  - cbn [app format_results]. rewrite bind_lift.
    destruct x; try discriminate; reflexivity.
  - apply andb_prop in Hdict as [Hitem Hrest].
    destruct item; try discriminate.
    cbn [app format_results].
    repeat (progress (rewrite ?bind_lift, ?py_get_dict; cbv beta iota)).
    now rewrite (IH (i + 1) _ w x post Hrest Hx).
Qed.

Lemma hit_lines_length (items : list pyval) : forall i,
  forallb is_dict items = true ->
  List.length (hit_lines i items) = (5 * List.length items)%nat.
Proof.
  induction items as [|item rest IH]; intros i Hdict; [reflexivity|].
  cbn [forallb] in Hdict. apply andb_prop in Hdict as [Hitem Hrest].
  destruct item; try discriminate.
  cbn [hit_lines]. rewrite length_app, (IH (i + 1) Hrest).
  unfold hit_block. cbn [List.length]. lia.
Qed.

(** [search_web] once its limit is resolved. *)
Lemma search_web_resolved (query limit : string) (w : World) :
  search_web ctx query limit w
  = (info ("Searching web for: " ++ query ++ " with limit "
           ++ str_int (resolved_limit ctx limit)) ;;
     try_except
       (results <- FirecrawlService.search_web (firecrawl_service ctx) query
                     (resolved_limit ctx limit) ;;
        items <- lift (py_iter results) ;;
        formatted_results <- format_results 1 items [] ;;
        ret (VStr (String.concat nl formatted_results)))
       (fun e => ret (VStr ("Error searching web: " ++ exn_str e)))) w.
Proof. reflexivity. Qed.

(** X8. When the search returns a list of dicts, [search_web] returns the
    listing of the hits in the order of the list, numbered from 1, five
    lines per hit (number, title, URL, snippet, empty line) with the
    defaults for absent entries, joined by newlines; with no hit the listing
    is the empty string. *)
Theorem search_web_listing (query limit : string) (w : World) items w1 t :
  FirecrawlService.search_web (firecrawl_service ctx) query
    (resolved_limit ctx limit) w = (inr (VList items), w1, t) ->
  forallb is_dict items = true ->
  search_web ctx query limit w
  = (inr (VStr (String.concat nl (hit_lines 1 items))), w1,
     LogInfo ("Searching web for: " ++ query ++ " with limit "
              ++ str_int (resolved_limit ctx limit)) :: t)
  /\ List.length (hit_lines 1 items) = (5 * List.length items)%nat
  /\ (items = [] ->
      outcome_of (search_web ctx query limit w) = inr (VStr EmptyString)).
Proof.
  intros Hsearch Hdict.
  assert (Hrun : search_web ctx query limit w
    = (inr (VStr (String.concat nl (hit_lines 1 items))), w1,
       LogInfo ("Searching web for: " ++ query ++ " with limit "
                ++ str_int (resolved_limit ctx limit)) :: t)).
  { rewrite search_web_resolved, info_then, try_except_text.
    erewrite bind_returned by exact Hsearch.
    rewrite bind_lift. cbn [py_iter].
    erewrite bind_returned by (apply format_results_dicts; exact Hdict).
    unfold ret. cbn [app]. now rewrite app_nil_r. }
  split; [exact Hrun|]. split; [now apply hit_lines_length|].
  intros ->. now rewrite Hrun.
Qed.

(** X9. When one of the hits the search returns is not a dict, [search_web]
    returns the error text of the attribute error for the first such hit:
    the lines already formatted for the hits before it are dropped. *)
Theorem search_web_listing_is_all_or_nothing (query limit : string) (w : World)
    pre x post w1 t :
  FirecrawlService.search_web (firecrawl_service ctx) query
    (resolved_limit ctx limit) w = (inr (VList (pre ++ x :: post)%list), w1, t) ->
  forallb is_dict pre = true ->
  is_dict x = false ->
  outcome_of (search_web ctx query limit w)
  = inr (VStr ("Error searching web: '" ++ type_name x
               ++ "' object has no attribute 'get'")).
Proof.
  intros Hsearch Hpre Hx.
  rewrite search_web_resolved, info_then, try_except_text.
  erewrite bind_returned by exact Hsearch.
  rewrite bind_lift. cbn [py_iter].
  erewrite bind_raised by (apply format_results_not_dict; assumption).
  reflexivity.
Qed.

(** X10. A limit that [int()] accepts is the limit of the search request as
    it is: it is neither bounded nor checked to be positive. *)
Theorem search_web_passes_the_limit_on (query limit : string) (n : Z) (w : World) :
  py_int limit = Some n ->
  limit <> EmptyString ->
  events_of (search_web ctx query limit w)
  = [LogInfo ("Searching web for: " ++ query ++ " with limit " ++ str_int n);
     HttpPost Firecrawl
       (FirecrawlService.search_request (firecrawl_service ctx) query n)
       (fst (http_post w (FirecrawlService.search_request
                            (firecrawl_service ctx) query n)))]
  /\ lookup "limit"
       match req_json (FirecrawlService.search_request
                         (firecrawl_service ctx) query n) with
       | VDict fields => fields
       | _ => []
       end = Some (VInt n).
Proof.
  intros Hint Hne.
  assert (Hn : resolved_limit ctx limit = n).
  { unfold resolved_limit. destruct limit; [congruence|]. now rewrite Hint. }
  split; [|reflexivity].
  rewrite search_web_resolved, Hn, guarded_handler_events.
  rewrite bind_eventless.
  - now rewrite search_web_events.
  - intro. apply eventless_bind; [apply eventless_lift|intro].
    apply eventless_bind; [apply eventless_format_results|intro].
    apply eventless_ret.
Qed.
End Listing.

(** An instance of X8: two hits, the second without title. *)
Lemma search_web_listing_witness :
  outcome_of (search_web (RT := Script.runtime) Script.ctx "q" "2"
                [Script.search_hits [Script.hit_a; VDict [("url", VStr "http://b")]]])
  = inr (VStr (String.concat nl
                 ["Result 1:"; "Title: A"; "URL: http://a"; "Snippet: ..."; EmptyString;
                  "Result 2:"; "Title: No title"; "URL: http://b";
                  "Snippet: No snippet"; EmptyString]))
  /\ outcome_of (search_web (RT := Script.runtime) Script.ctx "q" "2"
                   [Script.search_hits []])
     = inr (VStr EmptyString).
Proof.
  split.
  - exact (f_equal (fun r => fst (fst r))
             (proj1 (@search_web_listing Script.runtime Script.ctx "q" "2"
                       [Script.search_hits
                          [Script.hit_a; VDict [("url", VStr "http://b")]]]
                       [Script.hit_a; VDict [("url", VStr "http://b")]] [] _
                       eq_refl eq_refl))).
  - exact (proj2 (proj2 (@search_web_listing Script.runtime Script.ctx "q" "2"
                           [Script.search_hits []] [] [] _ eq_refl eq_refl))
             eq_refl).
Defined.

(** An instance of X9: the second of three hits is a string. *)
Lemma search_web_listing_is_all_or_nothing_witness :
  outcome_of (search_web (RT := Script.runtime) Script.ctx "q" "3"
                [Script.search_hits [Script.hit_a; VStr "oops"; Script.hit_b]])
  = inr (VStr "Error searching web: 'str' object has no attribute 'get'").
Proof.
  exact (@search_web_listing_is_all_or_nothing Script.runtime Script.ctx "q" "3"
           [Script.search_hits [Script.hit_a; VStr "oops"; Script.hit_b]]
           [Script.hit_a] (VStr "oops") [Script.hit_b] [] _
           eq_refl eq_refl eq_refl).
Defined.

(** An instance of X10: the limit [-3]. *)
Lemma search_web_passes_the_limit_on_witness :
  events_of (search_web (RT := Script.runtime) Script.ctx "q" "-3" [])
  = [LogInfo "Searching web for: q with limit -3";
     HttpPost Firecrawl
       (FirecrawlService.search_request (firecrawl_service Script.ctx) "q" (-3))
       (inl (Raise "ConnectError" "All connection attempts failed"))].
Proof.
  refine (proj1 (@search_web_passes_the_limit_on Script.runtime Script.ctx
                   "q" "-3" (-3) [] eq_refl _)).
  discriminate.
Defined.

(* ------------------------------------------------------------------ *)
(** * What the resources and tools make of a 200 answer *)

Section Answers.
Context {RT : Runtime}.
Variable ctx : AppContext.

(** X11. On the same scrape result, [website://] returns the entry [text]
    of the page as it is, whatever its type, also when it is empty or null,
    and [No content found] only when the entry is absent; [metadata://]
    returns the four lines of the metadata, each entry as it is or its
    default when absent, all four defaults when the page has no metadata.
    A page or a metadata entry that is not a dict gives the error text of
    the attribute error. *)
Theorem scraped_resources (url : string) (w : World) scrape_result w1 t :
  FirecrawlService.scrape_website (firecrawl_service ctx) (VStr url) w
    = (inr scrape_result, w1, t) ->
  outcome_of (get_website_content ctx url w)
  = inr match scrape_result with
        | VDict page => entry "text" (VStr "No content found") page
        | other => VStr ("Error scraping website: '" ++ type_name other
                         ++ "' object has no attribute 'get'")
        end
  /\ outcome_of (get_website_metadata ctx url w)
     = inr (VStr
              match scrape_result with
              | VDict page =>
                  match entry "metadata" (VDict []) page with
                  | VDict metadata => String.concat nl (metadata_lines metadata)
                  | other => "Error getting metadata: '" ++ type_name other
                             ++ "' object has no attribute 'get'"
                  end
              | other => "Error getting metadata: '" ++ type_name other
                         ++ "' object has no attribute 'get'"
              end).
Proof.
  intros Hsc. split.
  - unfold get_website_content. rewrite info_then, try_except_text.
    erewrite bind_returned by exact Hsc.
    unfold lift. destruct scrape_result; reflexivity.
  - unfold get_website_metadata. rewrite info_then, try_except_text.
    erewrite bind_returned by exact Hsc.
    rewrite bind_lift.
    destruct scrape_result; try reflexivity.
    rewrite py_get_dict. cbv beta iota.
    destruct (entry "metadata" (VDict []) d) eqn:Hmeta;
      rewrite bind_lift; reflexivity.
Qed.

Lemma search_web_200 (query : string) (limit : Z) (w : World) response w1 body :
  http_post w (FirecrawlService.search_request (firecrawl_service ctx) query limit)
    = (inr response, w1) ->
  status_code response = 200 ->
  json response = inr body ->
  FirecrawlService.search_web (firecrawl_service ctx) query limit w
  = (py_getitem body "results", w1,
     [HttpPost Firecrawl
        (FirecrawlService.search_request (firecrawl_service ctx) query limit)
        (inr response)]).
Proof.
  intros Hpost Hst Hjson.
  unfold FirecrawlService.search_web, bind, post, lift.
  rewrite Hpost, Hst, Hjson. cbn [Z.eqb Pos.eqb negb].
  destruct (py_getitem body "results"); reflexivity.
Qed.

(** X12. A 200 answer to the search whose body is a dict without usable
    results.  When the key [results] is absent, both [research_topic] and
    [search_web] return their error text followed by the quoted key only.
    When the results are null, [research_topic] takes them for no result,
    while [search_web] returns the error text of iterating over [None]. *)
Theorem search_without_result_list (topic limit : string) (w : World)
    response w1 body :
  http_post w (FirecrawlService.search_request (firecrawl_service ctx) topic
                 (resolved_limit ctx limit)) = (inr response, w1) ->
  status_code response = 200 ->
  json response = inr (VDict body) ->
  (lookup "results" body = None ->
   outcome_of (research_topic ctx topic (resolved_limit ctx limit) w)
   = inr (VStr "Error researching topic: 'results'")
   /\ outcome_of (search_web ctx topic limit w)
      = inr (VStr "Error searching web: 'results'"))
  /\ (lookup "results" body = Some VNone ->
      outcome_of (research_topic ctx topic (resolved_limit ctx limit) w)
      = inr (VStr ("No search results found for topic: " ++ topic))
      /\ outcome_of (search_web ctx topic limit w)
         = inr (VStr "Error searching web: 'NoneType' object is not iterable")).
Proof.
  intros Hpost Hst Hjson.
  pose proof (search_web_200 topic (resolved_limit ctx limit) w Hpost Hst Hjson)
    as Hsearch.
  cbn [py_getitem] in Hsearch.
  split; intros Hresults; rewrite Hresults in Hsearch; split.
  - now rewrite (research_topic_search_raises ctx topic _ w Hsearch).
  - rewrite search_web_resolved, info_then, try_except_text.
    erewrite bind_raised by exact Hsearch. reflexivity.
  - unfold research_topic.
    rewrite info_then, try_except_text, info_then, report_progress_then.
    erewrite bind_returned by exact Hsearch. reflexivity.
  - rewrite search_web_resolved, info_then, try_except_text.
    erewrite bind_returned by exact Hsearch. reflexivity.
Qed.

Lemma generate_text_200 (prompt : string) (w : World) response w1 body :
  http_post w (GroqService.completion_request (groq_service ctx) prompt)
    = (inr response, w1) ->
  status_code response = 200 ->
  json response = inr body ->
  GroqService.generate_text (groq_service ctx) prompt w
  = (match py_getitem body "choices" with
     | inl e => inl e
     | inr choices =>
         match py_getitem0 choices with
         | inl e => inl e
         | inr choice =>
             match py_getitem choice "message" with
             | inl e => inl e
             | inr message => py_getitem message "content"
             end
         end
     end, w1,
     [HttpPost Groq (GroqService.completion_request (groq_service ctx) prompt)
        (inr response)]).
Proof.
  intros Hpost Hst Hjson.
  unfold GroqService.generate_text, bind, post, lift.
  rewrite Hpost, Hst, Hjson. cbn [Z.eqb Pos.eqb negb].
  destruct (py_getitem body "choices") as [e|choices]; [reflexivity|].
  destruct (py_getitem0 choices) as [e|choice]; [reflexivity|].
  destruct (py_getitem choice "message") as [e|message]; [reflexivity|].
  destruct (py_getitem message "content"); reflexivity.
Qed.

(** X13. On a 200 answer whose body holds a list of choices,
    [generate_content] returns the content of the message of the first
    choice, whatever its type and whatever the other choices are; with an
    empty list of choices it returns the error text of the index error. *)
Theorem generate_content_takes_the_first_choice (prompt : string) (w : World)
    response w1 body choices :
  http_post w (GroqService.completion_request (groq_service ctx) prompt)
    = (inr response, w1) ->
  status_code response = 200 ->
  json response = inr (VDict body) ->
  lookup "choices" body = Some (VList choices) ->
  (choices = [] ->
   outcome_of (generate_content ctx prompt w)
   = inr (VStr "Error generating content: list index out of range"))
  /\ (forall choice others message content,
        choices = VDict choice :: others ->
        lookup "message" choice = Some (VDict message) ->
        lookup "content" message = Some content ->
        outcome_of (generate_content ctx prompt w) = inr content).
Proof.
  intros Hpost Hst Hjson Hchoices.
  pose proof (generate_text_200 prompt w Hpost Hst Hjson) as Hgen.
  cbn [py_getitem] in Hgen. rewrite Hchoices in Hgen.
  unfold generate_content. rewrite info_then, try_except_text.
  split.
  - intros ->. cbn [py_getitem0] in Hgen. now rewrite Hgen.
  - intros choice others message content -> Hmessage Hcontent.
    cbn [py_getitem0 py_getitem] in Hgen.
    rewrite Hmessage in Hgen. cbn [py_getitem] in Hgen.
    rewrite Hcontent in Hgen. now rewrite Hgen.
Qed.

(** X14. [summarize_text(content, max_length)] is [generate_content] on the
    summary prompt, which holds the whole content after the instruction and
    the word limit as given: the two calls send the same request and
    return the same value when it is answered, and each its own error text
    when it raises. *)
Theorem summarize_text_is_generate_content (content : string) (max_length : Z)
    (w : World) r w1 t :
  GroqService.generate_text (groq_service ctx)
    (GroqService.summary_prompt (VStr content) max_length) w = (r, w1, t) ->
  GroqService.summary_prompt (VStr content) max_length
  = "Please summarize the following content in a concise way, maximum "
    ++ str_int max_length ++ " words:" ++ nl ++ nl ++ content
  /\ fst (summarize_text ctx content max_length w)
     = (inr match r with
            | inr v => v
            | inl e => VStr ("Error summarizing content: " ++ exn_str e)
            end, w1)
  /\ fst (generate_content ctx
            (GroqService.summary_prompt (VStr content) max_length) w)
     = (inr match r with
            | inr v => v
            | inl e => VStr ("Error generating content: " ++ exn_str e)
            end, w1)
  /\ filter is_post (events_of (summarize_text ctx content max_length w))
     = filter is_post
         (events_of (generate_content ctx
                       (GroqService.summary_prompt (VStr content) max_length) w)).
Proof.
  intros Hgen. split; [reflexivity|].
  unfold summarize_text, generate_content, GroqService.summarize_content.
  cbv zeta. rewrite !guarded_handler_events.
  rewrite !info_then, !try_except_text, Hgen.
  destruct r; repeat split; reflexivity.
Qed.
End Answers.

(** An instance of X11: a page whose text is null and whose title is null. *)
Lemma scraped_resources_witness :
  outcome_of (get_website_content (RT := Script.runtime) Script.ctx "http://a"
                [Script.ok (VDict [("text", VNone);
                                   ("metadata", VDict [("title", VNone)])])])
  = inr VNone
  /\ outcome_of (get_website_metadata (RT := Script.runtime) Script.ctx "http://a"
                   [Script.ok (VDict [("text", VNone);
                                      ("metadata", VDict [("title", VNone)])])])
     = inr (VStr (String.concat nl
                    ["Title: None"; "Description: No description";
                     "Author: No author"; "Published: No date"])).
Proof.
  exact (@scraped_resources Script.runtime Script.ctx "http://a"
           [Script.ok (VDict [("text", VNone);
                              ("metadata", VDict [("title", VNone)])])]
           (VDict [("text", VNone); ("metadata", VDict [("title", VNone)])])
           [] _ eq_refl).
Defined.

(** An instance of X12: a 200 answer with an empty body. *)
Lemma search_without_result_list_witness :
  outcome_of (research_topic (RT := Script.runtime) Script.ctx "rust" 5
                [Script.ok (VDict [])])
  = inr (VStr "Error researching topic: 'results'")
  /\ outcome_of (search_web (RT := Script.runtime) Script.ctx "rust" EmptyString
                   [Script.ok (VDict [])])
     = inr (VStr "Error searching web: 'results'").
Proof.
  exact (proj1 (@search_without_result_list Script.runtime Script.ctx "rust"
                  EmptyString [Script.ok (VDict [])]
                  {| status_code := 200; text := "<json>"; json := inr (VDict []) |}
                  [] [] eq_refl eq_refl eq_refl) eq_refl).
Defined.

(** An instance of X13: two choices, the first is returned. *)
Lemma generate_content_takes_the_first_choice_witness :
  outcome_of (generate_content (RT := Script.runtime) Script.ctx "hi"
                [Script.ok (VDict [("choices",
                                    VList [VDict [("message",
                                                   VDict [("content", VStr "one")])];
                                           VDict [("message",
                                                   VDict [("content", VStr "two")])]])])])
  = inr (VStr "one").
Proof.
  exact (proj2 (@generate_content_takes_the_first_choice Script.runtime Script.ctx
                  "hi"
                  [Script.ok (VDict [("choices",
                                      VList [VDict [("message",
                                                     VDict [("content", VStr "one")])];
                                             VDict [("message",
                                                     VDict [("content", VStr "two")])]])])]
                  _ [] _ _ eq_refl eq_refl eq_refl eq_refl)
           [("message", VDict [("content", VStr "one")])]
           [VDict [("message", VDict [("content", VStr "two")])]]
           [("content", VStr "one")] (VStr "one") eq_refl eq_refl eq_refl).
Defined.

(** An instance of X14: the request is answered with status 429. *)
Lemma summarize_text_is_generate_content_witness :
  fst (summarize_text (RT := Script.runtime) Script.ctx "long text" 20
         [Script.status 429 "slow down"])
  = (inr (VStr "Error summarizing content: Groq API error: 429 - slow down"), [])
  /\ fst (generate_content (RT := Script.runtime) Script.ctx
            (GroqService.summary_prompt (RT := Script.runtime) (VStr "long text") 20)
            [Script.status 429 "slow down"])
     = (inr (VStr "Error generating content: Groq API error: 429 - slow down"), []).
Proof.
  destruct (@summarize_text_is_generate_content Script.runtime Script.ctx
              "long text" 20 [Script.status 429 "slow down"]
              (inl (Raise "Exception" "Groq API error: 429 - slow down")) [] _
              eq_refl) as (_ & Hsum & Hgen & _).
  split; [exact Hsum|exact Hgen].
Defined.

(* ------------------------------------------------------------------ *)
(** * The log line of [generate_content] *)

Section LogLine.
Context {RT : Runtime}.
Variable ctx : AppContext.

Lemma substring_prefix (n : nat) : forall s,
  String.length (substring 0 n s) = Nat.min n (String.length s)
  /\ exists rest, s = substring 0 n s ++ rest.
Proof.
  induction n as [|n IH]; intros s.
  - destruct s; simpl; split; eauto.
  - destruct s as [|c s]; simpl.
    + split; [reflexivity|]. now exists EmptyString.
    + destruct (IH s) as [Hlen [rest Hrest]].
      split; [now rewrite Hlen|]. exists rest. now rewrite <- Hrest.
Qed.

(** X15. [generate_content] logs at most the first 50 characters of the
    prompt, and sends the prompt whole as the content of the single user
    message of its request. *)
Theorem generate_content_logs_a_prefix (prompt : string) (w : World) :
  exists shown rest answer,
    events_of (generate_content ctx prompt w)
    = [LogInfo ("Generating content with prompt: " ++ shown ++ "...");
       HttpPost Groq (GroqService.completion_request (groq_service ctx) prompt) answer]
    /\ prompt = shown ++ rest
    /\ String.length shown = Nat.min 50 (String.length prompt)
    /\ lookup "messages"
         match req_json (GroqService.completion_request (groq_service ctx) prompt) with
         | VDict fields => fields
         | _ => []
         end
       = Some (VList [VDict [("role", VStr "user"); ("content", VStr prompt)]]).
Proof.
  destruct (substring_prefix 50 prompt) as [Hlen [rest Hrest]].
  exists (substring 0 50 prompt), rest. eexists.
  split; [|split; [exact Hrest|split; [exact Hlen|reflexivity]]].
  unfold generate_content. rewrite guarded_handler_events, generate_text_events.
  reflexivity.
Qed.
End LogLine.

(* ------------------------------------------------------------------ *)
(** * A search result that is not a dict *)

Section Malformed.
Context {RT : Runtime}.
Variable ctx : AppContext.

Lemma classify_not_dict (depth i : Z) (x : pyval) (w : World) :
  is_dict x = false ->
  classify ctx depth i x w
  = (inl (Raise "AttributeError"
            ("'" ++ type_name x ++ "' object has no attribute 'get'")), w, []).
Proof.
  intros Hx. unfold classify. rewrite bind_lift.
  destruct x; try discriminate; reflexivity.
Qed.

(** X16. When a search result is not a dict, [research_topic] stops at it:
    it returns the error text of the attribute error, whatever the results
    before it left in [research_data]; the results after it get no round
    and no synthesis is requested. *)
Theorem research_topic_stops_at_a_malformed_result (topic : string) (depth : Z)
    (w : World) pre x post w1 t1 os w2 t2 :
  FirecrawlService.search_web (firecrawl_service ctx) topic depth w
    = (inr (VList (pre ++ x :: post)%list), w1, t1) ->
  outcomes ctx depth 0 pre w1 = (inr os, w2, t2) ->
  is_dict x = false ->
  research_topic ctx topic depth w
  = (inr (VStr ("Error researching topic: '" ++ type_name x
                ++ "' object has no attribute 'get'")),
     w2, (research_preamble topic depth ++ t1 ++ t2)%list).
Proof.
  intros Hsearch Hpre Hx.
  assert (Hloop : research_loop ctx depth 0 (pre ++ x :: post)%list [] w1
                  = (inl (Raise "AttributeError"
                            ("'" ++ type_name x ++ "' object has no attribute 'get'")),
                     w2, t2)).
  { rewrite research_loop_outcomes.
    rewrite (outcomes_app ctx depth pre 0 w1 (x :: post) Hpre).
    cbn [outcomes]. unfold bind at 1.
    rewrite (classify_not_dict depth _ x w2 Hx). now rewrite app_nil_r. }
  unfold research_topic.
  rewrite info_then, try_except_text, info_then, report_progress_then.
  erewrite bind_returned by exact Hsearch.
  assert (Htruthy : truthy (VList (pre ++ x :: post)%list) = true)
    by (destruct pre; reflexivity).
  rewrite Htruthy. cbn [negb]. rewrite bind_lift. cbn [py_iter].
  erewrite bind_raised by exact Hloop.
  unfold research_preamble. cbn [app]. reflexivity.
Qed.
End Malformed.

(** An instance of X16: the first hit is gathered, the second is a string. *)
Lemma research_topic_stops_at_a_malformed_result_witness :
  outcome_of (research_topic (RT := Script.runtime) Script.ctx "rust" 3
                [Script.search_hits [Script.hit_a; VStr "oops"; Script.hit_b];
                 Script.page "aaa"; Script.completion "sumA";
                 Script.page "bbb"; Script.completion "sumB"])
  = inr (VStr "Error researching topic: 'str' object has no attribute 'get'")
  /\ world_left
       (research_topic (RT := Script.runtime) Script.ctx "rust" 3
          [Script.search_hits [Script.hit_a; VStr "oops"; Script.hit_b];
           Script.page "aaa"; Script.completion "sumA";
           Script.page "bbb"; Script.completion "sumB"])
     = [Script.page "bbb"; Script.completion "sumB"].
Proof.
  pose proof (@research_topic_stops_at_a_malformed_result Script.runtime Script.ctx
                "rust" 3
                [Script.search_hits [Script.hit_a; VStr "oops"; Script.hit_b];
                 Script.page "aaa"; Script.completion "sumA";
                 Script.page "bbb"; Script.completion "sumB"]
                [Script.hit_a] (VStr "oops") [Script.hit_b]
                [Script.page "aaa"; Script.completion "sumA";
                 Script.page "bbb"; Script.completion "sumB"] _
                [Gathered (VStr "A") (VStr "http://a") (VStr "sumA")]
                [Script.page "bbb"; Script.completion "sumB"] _
                eq_refl eq_refl eq_refl) as Hrun.
  split; [exact (f_equal (fun r => fst (fst r)) Hrun)
         |exact (f_equal (fun r => snd (fst r)) Hrun)].
Defined.
